(** * homer: supervised Terraform invocations and the interactive workflows

    A shallow embedding of [libs/core.py] and [libs/exceptions.py]:
    the signal-escalating process supervisor [TerraformProcessManager],
    the plan reader and change selector of [TerraformInteractiveRunner],
    and the lock recovery of [TerraformUnlocker].

    Python objects that are mutated and shared (the process manager that
    every workflow holds a reference to, the installed signal handlers,
    the terminal) live in one store, [World], which every operation
    threads through the monad [M].  What the operating system and the
    operator do (children exiting, signals arriving, lines typed) is read
    from scripts held in the same store. *)

From Stdlib Require Import List String Ascii ZArith Lia Bool Arith.
From Stdlib Require Import DecimalString Sorted Permutation.
Import ListNotations.
Local Open Scope string_scope.
Local Open Scope nat_scope.

Set Implicit Arguments.
Set Warnings "-register-all".

(* ================================================================== *)
(** * Python strings *)

(** A Python [str] is modelled by a Rocq [string] whose characters are the
    code points U+0000..U+00FF.  On that range the definitions below agree
    with [str.isspace], [str.strip], [str.lower], [in], [str.join] and
    [int]. *)
Module PyStr.

Definition code (c : ascii) : nat := nat_of_ascii c.

(** [str.isspace] on one code point: TAB..CR, FS..US, SPACE, NEL, NBSP. *)
Definition isspace (c : ascii) : bool :=
  let n := code c in
  ((9 <=? n) && (n <=? 13)) || ((28 <=? n) && (n <=? 32))
  || (n =? 133) || (n =? 160).

(** [str.lower] on one code point: A..Z and the Latin-1 capitals
    (U+00C0..U+00DE without the multiplication sign U+00D7). *)
Definition lower_char (c : ascii) : ascii :=
  let n := code c in
  if ((65 <=? n) && (n <=? 90))
     || ((192 <=? n) && (n <=? 222) && negb (n =? 215))
  then ascii_of_nat (n + 32) else c.

Fixpoint lower (s : string) : string :=
  match s with
  | EmptyString => EmptyString
  | String c s' => String (lower_char c) (lower s')
  end.

Fixpoint lstrip (s : string) : string :=
  match s with
  | EmptyString => EmptyString
  | String c s' => if isspace c then lstrip s' else s
  end.

Fixpoint rev_onto (s acc : string) : string :=
  match s with
  | EmptyString => acc
  | String c s' => rev_onto s' (String c acc)
  end.

Definition rev (s : string) : string := rev_onto s EmptyString.

Definition rstrip (s : string) : string := rev (lstrip (rev s)).

(** [s.strip()] *)
Definition strip (s : string) : string := rstrip (lstrip s).

(** [needle in hay] for two strings. *)
Fixpoint contains (needle hay : string) : bool :=
  if String.prefix needle hay then true
  else match hay with
       | EmptyString => false
       | String _ hay' => contains needle hay'
       end.

(** [sep.join(parts)] for a list of strings. *)
Fixpoint join (sep : string) (parts : list string) : string :=
  match parts with
  | [] => EmptyString
  | [p] => p
  | p :: ps => p ++ sep ++ join sep ps
  end.

(** The characters of a string, each as a one-character string (what
    iterating over a [str] yields). *)
Fixpoint chars (s : string) : list string :=
  match s with
  | EmptyString => []
  | String c s' => String c EmptyString :: chars s'
  end.

Definition is_digit (c : ascii) : bool :=
  let n := code c in (48 <=? n) && (n <=? 57).

Definition digit_value (c : ascii) : Z := Z.of_nat (code c) - 48.

(** Decimal digits with single underscores between them;
    [seen] tells whether the previous character was a digit. *)
Fixpoint digits_value (s : string) (acc : Z) (seen : bool) : option Z :=
  match s with
  | EmptyString => if seen then Some acc else None
  | String c s' =>
      if is_digit c then digits_value s' (10 * acc + digit_value c) true
      else if Ascii.eqb c "_"
           then (if seen then digits_value s' acc false else None)
           else None
  end.

(** [int(s)] in base ten: surrounding white space, an optional sign,
    then the digits.  [None] stands for [ValueError].  The bound that
    recent interpreters put on the number of digits is left out. *)
Definition int (s : string) : option Z :=
  match strip s with
  | String "+" ds => digits_value ds 0 false
  | String "-" ds => option_map Z.opp (digits_value ds 0 false)
  | ds => digits_value ds 0 false
  end.

End PyStr.

(* ================================================================== *)
(** * Exceptions, processes and the world *)

(** The exceptions the modelled code raises or meets.
    [CommandExecutionError] is the class of [libs/exceptions.py]; its
    [stdout] and [stderr] attributes hold whatever the caller passed, which
    may be Python's [None]. *)
Inductive exn : Type :=
| KeyboardInterrupt (msg : string)
| CommandExecutionError (message : string) (return_code : Z)
                        (stdout stderr : option string)
| ValueError (msg : string)
| InvalidLiteral (s : string)      (* the ValueError of [int(s)] *)
| JSONDecodeError                  (* a subclass of ValueError *)
| TypeError
| AttributeError
| IndexError
| EOFError
| FileNotFoundError
| ProcessLookupError
| PermissionError
| SystemExit (code : Z).

(** [isinstance(e, ValueError)] *)
Definition is_ValueError (e : exn) : bool :=
  match e with
  | ValueError _ | InvalidLiteral _ | JSONDecodeError => true
  | _ => false
  end.

Definition is_KeyboardInterrupt (e : exn) : bool :=
  match e with KeyboardInterrupt _ => true | _ => false end.

(** The outcome of running a piece of Python: a value or a raised
    exception. *)
Inductive result (A : Type) : Type :=
| Return (a : A)
| Raise (e : exn).
Arguments Return {A} a.
Arguments Raise {A} e.

Definition is_return {A} (r : result A) : bool :=
  match r with Return _ => true | Raise _ => false end.

(** What [signal.signal] can have installed for a signal. *)
Inductive handler : Type :=
| SIG_DFL
| SIG_IGN
| default_int_handler
| main_signal_handler          (* [signal_handler] of main.py *)
| tpm_signal_handler.          (* the bound method [self._signal_handler] *)

Inductive signum : Type := SIGINT | SIGTERM.

(** What sending a signal to the child does. *)
Inductive kill_outcome : Type :=
| Delivered
| NoSuchProcess                (* raises ProcessLookupError *)
| Refused.                     (* raises another OSError, PermissionError *)

(** One asynchronous arrival of SIGINT or SIGTERM at the Python process:
    [d_running] is what [poll() is None] would answer at that moment and
    [d_kill] what forwarding a signal to the child would do. *)
Record delivery : Type := mkDelivery {
  d_running : bool;
  d_kill : kill_outcome
}.

Inductive spawn : Type :=
| Spawned (pid : nat)
| SpawnError (e : exn).        (* [Popen] raises, e.g. FileNotFoundError *)

(** The behaviour of one child process, as the supervisor meets it. *)
Record child : Type := mkChild {
  c_early : list delivery;     (* arrivals before [current_process] is set *)
  c_spawn : spawn;
  c_signals : list delivery;   (* arrivals while [communicate()] blocks *)
  c_returncode : Z;
  c_stdout : string;           (* what the child writes to its stdout *)
  c_stderr : string            (* what the child writes to its stderr *)
}.

(** A [subprocess.Popen] object. *)
Record Popen : Type := mkPopen {
  pid : nat;
  behaviour : child
}.

(** Signals the supervisor forwards. *)
Inductive signal_action : Type :=
| Killpg (pgid : nat)          (* os.killpg(os.getpgid(pid), SIGINT) *)
| SendSigint (pid : nat)       (* process.send_signal(SIGINT) *)
| Kill (pid : nat).            (* process.kill() *)

(** One [Popen] call: argument vector, working directory, capture mode. *)
Record invocation : Type := mkInvocation {
  i_args : list string;
  i_cwd : string;
  i_capture : bool
}.

(** The prompts passed to [input]. *)
Inductive prompt : Type :=
| AskSelection (n : nat)               (* core.py line 154 *)
| AskConfirm (final_command : string)  (* line 168 *)
| AskForceUnlock                       (* line 94 *)
| AskLockId.                           (* line 96 *)

(** What one [input()] call meets. *)
Inductive keyboard : Type :=
| Typed (line : string)
| Interrupts (e : exn).

(** The lines [print] writes, by message rather than by text. *)
Inductive output : Type :=
| OutInterruptNotice           (* line 29 *)
| OutForceNotice               (* line 38 *)
| OutHeaderLocks (env : string)
| OutNoLocks                   (* line 85 *)
| OutLockDetected              (* line 88 *)
| OutLockId (id : string)      (* line 92 *)
| OutLockReleased              (* line 99 *)
| OutUnexpected                (* line 101 *)
| OutText (s : string)         (* line 102 *)
| OutCancelled (e : exn).      (* line 173 *)

(** The store.  [current_process] and [interrupt_count] are the two
    attributes of the one [TerraformProcessManager] instance that every
    workflow object refers to. *)
Record World : Type := mkWorld {
  platform_win32 : bool;               (* sys.platform == "win32" *)
  sigint_handler : handler;
  sigterm_handler : handler;
  current_process : option Popen;
  interrupt_count : nat;
  script : list child;                 (* the children still to be spawned *)
  stdin : list keyboard;               (* what [input()] will meet *)
  calls : list invocation;             (* every [Popen] call so far *)
  sent : list signal_action;           (* every signal forwarded so far *)
  out : list output;                   (* everything printed so far *)
  asked : list prompt                  (* every [input()] call so far *)
}.

Definition set_sigint (h : handler) (w : World) : World :=
  mkWorld (platform_win32 w) h (sigterm_handler w) (current_process w)
          (interrupt_count w) (script w) (stdin w) (calls w) (sent w) (out w)
          (asked w).
Definition set_sigterm (h : handler) (w : World) : World :=
  mkWorld (platform_win32 w) (sigint_handler w) h (current_process w)
          (interrupt_count w) (script w) (stdin w) (calls w) (sent w) (out w)
          (asked w).
Definition set_current_process (p : option Popen) (w : World) : World :=
  mkWorld (platform_win32 w) (sigint_handler w) (sigterm_handler w) p
          (interrupt_count w) (script w) (stdin w) (calls w) (sent w) (out w)
          (asked w).
Definition set_interrupt_count (n : nat) (w : World) : World :=
  mkWorld (platform_win32 w) (sigint_handler w) (sigterm_handler w)
          (current_process w) n (script w) (stdin w) (calls w) (sent w)
          (out w) (asked w).
Definition set_script (s : list child) (w : World) : World :=
  mkWorld (platform_win32 w) (sigint_handler w) (sigterm_handler w)
          (current_process w) (interrupt_count w) s (stdin w) (calls w)
          (sent w) (out w) (asked w).
Definition set_stdin (k : list keyboard) (w : World) : World :=
  mkWorld (platform_win32 w) (sigint_handler w) (sigterm_handler w)
          (current_process w) (interrupt_count w) (script w) k (calls w)
          (sent w) (out w) (asked w).
Definition set_calls (c : list invocation) (w : World) : World :=
  mkWorld (platform_win32 w) (sigint_handler w) (sigterm_handler w)
          (current_process w) (interrupt_count w) (script w) (stdin w) c
          (sent w) (out w) (asked w).
Definition set_sent (s : list signal_action) (w : World) : World :=
  mkWorld (platform_win32 w) (sigint_handler w) (sigterm_handler w)
          (current_process w) (interrupt_count w) (script w) (stdin w)
          (calls w) s (out w) (asked w).
Definition set_out (o : list output) (w : World) : World :=
  mkWorld (platform_win32 w) (sigint_handler w) (sigterm_handler w)
          (current_process w) (interrupt_count w) (script w) (stdin w)
          (calls w) (sent w) o (asked w).
Definition set_asked (a : list prompt) (w : World) : World :=
  mkWorld (platform_win32 w) (sigint_handler w) (sigterm_handler w)
          (current_process w) (interrupt_count w) (script w) (stdin w)
          (calls w) (sent w) (out w) a.

(* ================================================================== *)
(** * The monad of Python statements *)

Definition M (A : Type) : Type := World -> result A * World.

Definition ret {A} (a : A) : M A := fun w => (Return a, w).

Definition raise {A} (e : exn) : M A := fun w => (Raise e, w).

Definition bind {A B} (m : M A) (k : A -> M B) : M B :=
  fun w => match m w with
           | (Return a, w') => k a w'
           | (Raise e, w') => (Raise e, w')
           end.

Definition gets {A} (f : World -> A) : M A := fun w => (Return (f w), w).

Definition modify (f : World -> World) : M unit := fun w => (Return tt, f w).

Declare Scope py_scope.
Delimit Scope py_scope with py.
Notation "x <- c ;; k" := (bind c (fun x => k))
  (at level 61, c at next level, right associativity) : py_scope.
Notation "c ;; k" := (bind c (fun _ => k))
  (at level 61, right associativity) : py_scope.
Local Open Scope py_scope.

(** [try: body finally: final] *)
Definition try_finally {A} (body : M A) (final : M unit) : M A :=
  fun w => match body w with
           | (r, w') => match final w' with
                        | (Return _, w'') => (r, w'')
                        | (Raise e, w'') => (Raise e, w'')
                        end
           end.

(** [try: body except <classes> as e: handle e], where [handle e] is
    [None] for an exception the clause does not name. *)
Definition try_except {A} (body : M A) (handle : exn -> option (M A)) : M A :=
  fun w => match body w with
           | (Return a, w') => (Return a, w')
           | (Raise e, w') => match handle e with
                              | Some h => h w'
                              | None => (Raise e, w')
                              end
           end.

(** [print(...)] *)
Definition print (o : output) : M unit :=
  modify (fun w => set_out (out w ++ [o]) w).

(** [input(prompt)]: end of input raises EOFError. *)
Definition input (p : prompt) : M string :=
  fun w =>
    let w1 := set_asked (asked w ++ [p]) w in
    match stdin w with
    | [] => (Raise EOFError, w1)
    | Typed line :: rest => (Return line, set_stdin rest w1)
    | Interrupts e :: rest => (Raise e, set_stdin rest w1)
    end.

(** [signal.signal(sig, h)]: installs [h], returns the previous handler. *)
Definition signal_signal (s : signum) (h : handler) : M handler :=
  fun w => match s with
           | SIGINT => (Return (sigint_handler w), set_sigint h w)
           | SIGTERM => (Return (sigterm_handler w), set_sigterm h w)
           end.

(** Forwarding a signal to the child: the attempt is recorded, and fails
    as the arrival says. *)
Definition send (a : signal_action) (d : delivery) : M unit :=
  modify (fun w => set_sent (sent w ++ [a]) w) ;;
  match d_kill d with
  | Delivered => ret tt
  | NoSuchProcess => raise ProcessLookupError
  | Refused => raise PermissionError
  end.

(** [except ProcessLookupError: pass] *)
Definition pass_ProcessLookupError (e : exn) : option (M unit) :=
  match e with
  | ProcessLookupError => Some (ret tt)
  | _ => None
  end.

(* ================================================================== *)
(** * TerraformProcessManager *)

Module TerraformProcessManager.

(** [_signal_handler(self, signum, frame)], core.py lines 23-42. *)
Definition _signal_handler (d : delivery) : M unit :=
  modify (fun w => set_interrupt_count (interrupt_count w + 1) w) ;;
  cp <- gets current_process ;;
  match cp with
  | None => ret tt
  | Some p =>
      if negb (d_running d) then ret tt
      else
        n <- gets interrupt_count ;;
        if n =? 1 then
          print OutInterruptNotice ;;
          try_except
            (win <- gets platform_win32 ;;
             if negb win then send (Killpg (pid p)) d
             else send (SendSigint (pid p)) d)
            pass_ProcessLookupError
        else if 2 <=? n then
          print OutForceNotice ;;
          try_except (send (Kill (pid p)) d) pass_ProcessLookupError
        else ret tt
  end.

(** The handler run once for each arrival of a signal. *)
Fixpoint deliver (ds : list delivery) : M unit :=
  match ds with
  | [] => ret tt
  | d :: ds' => _signal_handler d ;; deliver ds'
  end.

(** [subprocess.Popen(command, cwd=..., stdout=PIPE if capture else None,
    ...)]: the next child of the script is started.  With the script
    exhausted there is no executable to start. *)
Definition popen (command : list string) (cwd : string) (capture : bool)
  : M Popen :=
  modify (fun w => set_calls (calls w ++ [mkInvocation command cwd capture]) w) ;;
  s <- gets script ;;
  match s with
  | [] => raise FileNotFoundError
  | c :: rest =>
      modify (set_script rest) ;;
      deliver (c_early c) ;;
      match c_spawn c with
      | Spawned n => ret (mkPopen n c)
      | SpawnError e => raise e
      end
  end.

(** [process.communicate()]: blocks until the child exits; a stream that
    is not a pipe comes back as [None]. *)
Definition communicate (p : Popen) (capture : bool)
  : M (option string * option string) :=
  deliver (c_signals (behaviour p)) ;;
  ret (if capture then Some (c_stdout (behaviour p)) else None,
       if capture then Some (c_stderr (behaviour p)) else None).

Record CompletedProcess : Type := mkCompletedProcess {
  args : list string;
  returncode : Z;
  stdout : option string;
  stderr : option string
}.

(** The text of the failure, "El comando `...` fallo." with o acute. *)
Definition failure_message (command : list string) : string :=
  "El comando `" ++ PyStr.join " " command ++ "` fall"
    ++ String (ascii_of_nat 243) ".".

Definition interrupted : exn :=
  KeyboardInterrupt "Proceso interrumpido por el usuario.".

(** [run_command(self, command, cwd, capture=False)], lines 44-67. *)
Definition run_command (command : list string) (cwd : string)
           (capture : bool) : M CompletedProcess :=
  original_sigint <- signal_signal SIGINT tpm_signal_handler ;;
  original_sigterm <- signal_signal SIGTERM tpm_signal_handler ;;
  modify (set_interrupt_count 0) ;;
  try_finally
    (p <- popen command cwd capture ;;
     modify (set_current_process (Some p)) ;;
     streams <- communicate p capture ;;
     let returncode := c_returncode (behaviour p) in
     n <- gets interrupt_count ;;
     if 0 <? n then raise interrupted
     else if negb (returncode =? 0)%Z then
       raise (CommandExecutionError (failure_message command) returncode
                                    (fst streams) (snd streams))
     else ret (mkCompletedProcess command returncode
                                  (fst streams) (snd streams)))
    (modify (set_current_process None) ;;
     signal_signal SIGINT original_sigint ;;
     signal_signal SIGTERM original_sigterm ;;
     ret tt).

End TerraformProcessManager.

(* ================================================================== *)
(** * Parsed JSON *)

(** What [json.loads] returns.  A [JObj] lists the items of a Python dict
    in insertion order (its keys are distinct); a number keeps its
    literal. *)
Inductive json : Type :=
| JNull
| JBool (b : bool)
| JNumber (literal : string)
| JStr (s : string)
| JArr (items : list json)
| JObj (items : list (string * json)).

Module PyJson.

Fixpoint lookup (k : string) (items : list (string * json)) : option json :=
  match items with
  | [] => None
  | (k', v) :: rest => if String.eqb k k' then Some v else lookup k rest
  end.

(** [d.get(k, default)]; only a dict has the method. *)
Definition get (k : string) (default : json) (d : json) : result json :=
  match d with
  | JObj items => match lookup k items with
                  | Some v => Return v
                  | None => Return default
                  end
  | _ => Raise AttributeError
  end.

(** The elements [for x in v] runs through. *)
Definition iter (v : json) : result (list json) :=
  match v with
  | JArr items => Return items
  | JStr s => Return (map JStr (PyStr.chars s))
  | JObj items => Return (map (fun kv => JStr (fst kv)) items)
  | _ => Raise TypeError
  end.

(** [x == needle] for a parsed value and a string. *)
Definition eq_str (needle : string) (x : json) : bool :=
  match x with
  | JStr s => String.eqb needle s
  | _ => false
  end.

(** [needle in v] for a string [needle]. *)
Definition contains (needle : string) (v : json) : result bool :=
  match v with
  | JArr items => Return (existsb (eq_str needle) items)
  | JStr s => Return (PyStr.contains needle s)
  | JObj items => Return (existsb (fun kv => String.eqb needle (fst kv)) items)
  | _ => Raise TypeError
  end.

(** The elements as strings, as [str.join] demands. *)
Fixpoint all_str (xs : list json) : result (list string) :=
  match xs with
  | [] => Return []
  | JStr s :: rest => match all_str rest with
                      | Return l => Return (s :: l)
                      | Raise e => Raise e
                      end
  | _ :: _ => Raise TypeError
  end.

(** [sep.join(v)] *)
Definition join (sep : string) (v : json) : result string :=
  match iter v with
  | Raise e => Raise e
  | Return xs => match all_str xs with
                 | Raise e => Raise e
                 | Return l => Return (PyStr.join sep l)
                 end
  end.

End PyJson.

(** A pure computation that may raise, run inside [M]. *)
Definition lift {A} (r : result A) : M A := fun w => (r, w).

(* ================================================================== *)
(** * TerraformInteractiveRunner *)

Definition TEMP_PLAN_FILENAME : string := "tmp.tfplan".

(** [TempFileManager.get_temp_path]: [self.temp_dir / filename]. *)
Definition get_temp_path (temp_dir filename : string) : string :=
  temp_dir ++ "/" ++ filename.

Module TerraformInteractiveRunner.

(** The attributes of a runner; [process_manager] is the shared
    instance of the world. *)
Record t : Type := mk {
  temp_dir : string;         (* [self.temp_manager.temp_dir] *)
  env_path : string;
  command : string;
  extra_args : list string
}.

Definition _run_tf_command (self : t) (command : list string)
           (capture : bool) : M TerraformProcessManager.CompletedProcess :=
  TerraformProcessManager.run_command ("terraform" :: command)
                                      (env_path self) capture.

(** [res.get("change", {}).get("actions", [])] *)
Definition change_actions (res : json) : result json :=
  match PyJson.get "change" (JObj []) res with
  | Raise e => Raise e
  | Return change => PyJson.get "actions" (JArr []) change
  end.

(** One round of the comprehension of lines 140-144: the condition,
    then the element. *)
Definition select (res : json) : result (option (json * string)) :=
  match change_actions res with
  | Raise e => Raise e
  | Return actions =>
      match PyJson.contains "no-op" actions with
      | Raise e => Raise e
      | Return true => Return None
      | Return false =>
          match PyJson.get "address" (JStr "") res with
          | Raise e => Raise e
          | Return address =>
              match PyJson.join "," actions with
              | Raise e => Raise e
              | Return joined => Return (Some (address, joined))
              end
          end
      end
  end.

Fixpoint comprehension (entries : list json) : result (list (json * string)) :=
  match entries with
  | [] => Return []
  | res :: rest =>
      match select res with
      | Raise e => Raise e
      | Return kept =>
          match comprehension rest with
          | Raise e => Raise e
          | Return l => Return (match kept with
                                | Some c => c :: l
                                | None => l
                                end)
          end
      end
  end.

(** Lines 140-144 on the parsed document. *)
Definition plan_changes (plan_data : json) : result (list (json * string)) :=
  match PyJson.get "resource_changes" (JArr []) plan_data with
  | Raise e => Raise e
  | Return entries =>
      match PyJson.iter entries with
      | Raise e => Raise e
      | Return l => comprehension l
      end
  end.

Section WithJsonLoads.

(** [json.loads] of the standard library; [None] is JSONDecodeError. *)
Variable json_loads : string -> option json.

Definition loads (s : option string) : M json :=
  match s with
  | None => raise TypeError
  | Some text => match json_loads text with
                 | Some v => ret v
                 | None => raise JSONDecodeError
                 end
  end.

(** [_get_plan_changes(self, destroy_plan)], lines 130-144. *)
Definition _get_plan_changes (self : t) (destroy_plan : bool)
  : M (list (json * string)) :=
  let plan_file := get_temp_path (temp_dir self) TEMP_PLAN_FILENAME in
  let plan_command :=
    ((["plan"; "-out"; plan_file] ++ extra_args self)
       ++ (if destroy_plan then ["-destroy"] else []))%list in
  _run_tf_command self plan_command false ;;
  show_result <- _run_tf_command self ["show"; "-json"; plan_file] true ;;
  plan_data <- loads (TerraformProcessManager.stdout show_result) ;;
  lift (plan_changes plan_data).

End WithJsonLoads.

(** Line 158. *)
Definition final_command (self : t) : string :=
  if String.eqb (command self) "plan" then "apply" else "destroy".

(** "Seleccion invalida." with the two accents of the source. *)
Definition invalid_selection : exn :=
  ValueError ("Selecci" ++ String (ascii_of_nat 243) "n inv"
                ++ String (ascii_of_nat 225) "lida.").

(** [int(choice)] *)
Definition int (s : string) : M Z :=
  match PyStr.int s with
  | Some z => ret z
  | None => raise (InvalidLiteral s)
  end.

(** [except (ValueError, KeyboardInterrupt) as e: print(...)] *)
Definition cancelled (e : exn) : option (M unit) :=
  if is_ValueError e || is_KeyboardInterrupt e
  then Some (print (OutCancelled e))
  else None.

(** Lines 155-171: the rest of the [try] block once [choice] is read. *)
Definition selection (self : t) (changes : list (string * string))
           (choice : string) : M unit :=
  if String.eqb choice "c" || String.eqb choice "cancelar" then ret tt
  else
    let final_command := final_command self in
    if String.eqb choice "t" || String.eqb choice "todos" then
      let plan_file := get_temp_path (temp_dir self) TEMP_PLAN_FILENAME in
      _run_tf_command self [final_command; "-auto-approve"; plan_file] false ;;
      ret tt
    else
      index <- int choice ;;
      if ((1 <=? index)%Z && (index <=? Z.of_nat (List.length changes))%Z)%bool
      then
        match nth_error changes (Z.to_nat (index - 1)) with
        | None => raise IndexError
        | Some change =>
            let target := "-target=" ++ fst change in
            answer <- input (AskConfirm final_command) ;;
            if String.eqb (PyStr.lower (PyStr.strip answer)) "s" then
              _run_tf_command self
                ([final_command; "-auto-approve"; target]
                   ++ extra_args self)%list
                false ;;
              ret tt
            else ret tt
        end
      else raise invalid_selection.

(** [_prompt_for_selection(self, changes)], lines 152-173. *)
Definition _prompt_for_selection (self : t)
           (changes : list (string * string)) : M unit :=
  try_except
    (line <- input (AskSelection (List.length changes)) ;;
     selection self changes (PyStr.lower (PyStr.strip line)))
    cancelled.

End TerraformInteractiveRunner.

(* ================================================================== *)
(** * TerraformUnlocker *)

(** [re.search(r"ID:\s*([a-f0-9-]+)", text)], group 1.  The class after
    [\s*] holds no white space, so the greedy match of the spaces is the
    only one that can succeed and no backtracking is needed. *)
Module LockIdPattern.

(** [[a-f0-9-]] *)
Definition in_class (c : ascii) : bool :=
  let n := PyStr.code c in
  ((97 <=? n) && (n <=? 102)) || ((48 <=? n) && (n <=? 57)) || (n =? 45).

Fixpoint take_class (s : string) : string :=
  match s with
  | EmptyString => EmptyString
  | String c s' => if in_class c then String c (take_class s') else EmptyString
  end.

(** The pattern matched at the very start of [s]. *)
Definition match_here (s : string) : option string :=
  match s with
  | String "I" (String "D" (String ":" rest)) =>
      match take_class (PyStr.lstrip rest) with
      | EmptyString => None
      | token => Some token
      end
  | _ => None
  end.

(** The leftmost match. *)
Fixpoint search (s : string) : option string :=
  match match_here s with
  | Some token => Some token
  | None => match s with
            | EmptyString => None
            | String _ s' => search s'
            end
  end.

End LockIdPattern.

Module TerraformUnlocker.

Record t : Type := mk {
  env_path : string
}.

Definition _run_tf_command (self : t) (command : list string)
           (capture : bool) : M TerraformProcessManager.CompletedProcess :=
  TerraformProcessManager.run_command ("terraform" :: command)
                                      (env_path self) capture.

Definition lock_marker : string := "Error acquiring the state lock".

(** [needle in e.stderr]: membership in [None] is a TypeError. *)
Definition str_in (needle : string) (hay : option string) : M bool :=
  match hay with
  | Some text => ret (PyStr.contains needle text)
  | None => raise TypeError
  end.

(** A string as a condition: empty is false. *)
Definition truthy (s : string) : bool :=
  match s with EmptyString => false | _ => true end.

(** The body of [except CommandExecutionError as e], lines 87-102;
    [stderr] is [e.stderr]. *)
Definition on_failure (self : t) (stderr : option string) : M unit :=
  locked <- str_in lock_marker stderr ;;
  if locked then
    print OutLockDetected ;;
    let lock_id_match :=
      match stderr with
      | Some text => LockIdPattern.search text
      | None => None
      end in
    let lock_id := lock_id_match in
    match lock_id with
    | Some id => print (OutLockId id)
    | None => ret tt
    end ;;
    answer <- input AskForceUnlock ;;
    if String.eqb (PyStr.lower (PyStr.strip answer)) "s" then
      lock_id <- match lock_id with
                 | Some id => ret id
                 | None => typed <- input AskLockId ;; ret (PyStr.strip typed)
                 end ;;
      if truthy lock_id then
        _run_tf_command self ["force-unlock"; "-force"; lock_id] false ;;
        print OutLockReleased
      else ret tt
    else ret tt
  else
    print OutUnexpected ;;
    match stderr with
    | Some text => print (OutText text)
    | None => print (OutText "None")
    end.

Definition handle (self : t) (e : exn) : option (M unit) :=
  match e with
  | CommandExecutionError _ _ _ stderr => Some (on_failure self stderr)
  | _ => None
  end.

(** [run(self)], lines 81-102. *)
Definition run (self : t) : M unit :=
  print (OutHeaderLocks (env_path self)) ;;
  try_except
    (_run_tf_command self ["plan"; "-input=false"] false ;;
     print OutNoLocks)
    (handle self).

End TerraformUnlocker.

(* ================================================================== *)
(** * The host: interpreter, file system and PATH *)

(** What reading a file as text meets. *)
Inductive file_state : Type :=
| Absent                       (* [p.is_file()] is false *)
| Unreadable (why : string)    (* [read_text] raises [e]; [why] is [str(e)] *)
| Content (text : string).

(** What the remaining code draws from outside itself.  Paths are the
    strings [str(path)] gives. *)
Module Host.

Record t : Type := mk {
  colors_enabled : bool;                    (* [Colors._enabled] *)
  which : string -> bool;                   (* [shutil.which(dep)] finds it *)
  json_loads : string -> option json;       (* [json.loads]; [None] is
                                               JSONDecodeError *)
  format_value : json -> string;            (* [f"{x}"] of a parsed value *)
  path_join : string -> string -> string;   (* [a / b] *)
  path_name : string -> string;             (* [p.name] *)
  is_dir : string -> bool;                  (* [p.is_dir()] *)
  glob_any : string -> string -> bool;      (* [any(p.glob(pattern))] *)
  iterdir : string -> list string;          (* the items of [p.iterdir()] *)
  subprocess_run : list string -> string -> M unit;
                                            (* [subprocess.run(argv, cwd=...,
                                               check=True)] *)
  print_help : M unit;                      (* [_print_help()], whose banner
                                               lies outside U+0000..U+00FF *)
  exn_text : exn -> string;                 (* [str(e)] *)
  number_truthy : string -> bool;           (* [bool(x)] of a parsed number,
                                               given by its literal *)
  read_file : string -> file_state          (* [p.is_file()] and
                                               [p.read_text(encoding="utf-8")] *)
}.

End Host.

(* ================================================================== *)
(** * libs/utils.py: Colors *)

Definition TERRAFORM_FILE_GLOB : string := "*.tf".
Definition PACKER_APP_DIR : string := "amis".
Definition PACKER_FILE_GLOB : string := "*.pkr.hcl".

Module Colors.

Definition ESC : string := String (ascii_of_nat 27) "".
Definition HEADER : string := ESC ++ "[95m".
Definition OKBLUE : string := ESC ++ "[94m".
Definition OKGREEN : string := ESC ++ "[92m".
Definition WARNING : string := ESC ++ "[93m".
Definition FAIL : string := ESC ++ "[91m".
Definition ENDC : string := ESC ++ "[0m".
Definition BOLD : string := ESC ++ "[1m".

Definition _colorize (h : Host.t) (color_code message : string) : string :=
  if Host.colors_enabled h then color_code ++ message ++ ENDC else message.

Definition header (h : Host.t) (msg : string) : string := _colorize h HEADER msg.
Definition info (h : Host.t) (msg : string) : string := _colorize h OKBLUE msg.
Definition success (h : Host.t) (msg : string) : string := _colorize h OKGREEN msg.
Definition warning (h : Host.t) (msg : string) : string := _colorize h WARNING msg.
Definition fail (h : Host.t) (msg : string) : string := _colorize h FAIL msg.
Definition bold (h : Host.t) (msg : string) : string := _colorize h BOLD msg.

End Colors.

(* ================================================================== *)
(** * core.py: the helpers, the interactive run, the managers, the CLI *)

Definition newline : string := String (ascii_of_nat 10) "".

(** ['=' * n] *)
Fixpoint rule (n : nat) : string :=
  match n with
  | O => ""
  | S n' => String "=" (rule n')
  end.

(** [_print_header(message)], lines 386-387. *)
Definition _print_header (h : Host.t) (message : string) : M unit :=
  print (OutText (newline ++ rule 60 ++ newline ++ "# "
                    ++ Colors.bold h (Colors.header h message)
                    ++ newline ++ rule 60)).

(** [_check_dependencies(deps)], lines 389-392.  The FileNotFoundError
    of the model carries no text, so the names of the missing programs
    are not kept. *)
Definition _check_dependencies (h : Host.t) (deps : list string) : M unit :=
  let missing := filter (fun dep => negb (Host.which h dep)) deps in
  match missing with
  | [] => ret tt
  | _ :: _ => raise FileNotFoundError
  end.

(** [f"{i:2d}"] *)
Definition format_2d (i : nat) : string :=
  let digits := NilEmpty.string_of_uint (Nat.to_uint i) in
  match String.length digits with
  | 0 => "  "
  | 1 => " " ++ digits
  | _ => digits
  end.

Module InteractiveRun.
Import TerraformInteractiveRunner.

(** The colour of one line of [_display_changes], line 149. *)
Definition colour (h : Host.t) (actions : string) : string -> string :=
  if PyStr.contains "delete" actions then Colors.fail h
  else if PyStr.contains "create" actions then Colors.success h
  else Colors.warning h.

(** The loop of [_display_changes]; [i] is the number of the next line. *)
Fixpoint display_from (h : Host.t) (i : nat)
         (changes : list (string * string)) : M unit :=
  match changes with
  | [] => ret tt
  | (address, actions) :: rest =>
      print (OutText ("  " ++ format_2d i ++ ") "
                        ++ colour h actions (address ++ " (" ++ actions ++ ")"))) ;;
      display_from h (S i) rest
  end.

(** [_display_changes(self, changes)], lines 146-150. *)
Definition _display_changes (h : Host.t)
           (changes : list (string * string)) : M unit :=
  print (OutText (newline ++ "Cambios de recursos propuestos:")) ;;
  display_from h 1 changes.

(** [run(self)], lines 116-128.  The address of a change is only ever
    formatted into a string, by [_display_changes] and by
    [_prompt_for_selection]; the formatting is done here, once. *)
Definition run (h : Host.t) (self : t) : M unit :=
  _check_dependencies h ["jq"] ;;
  _print_header h ("Modo Interactivo (" ++ command self ++ ") - Entorno: "
                     ++ Host.path_name h (env_path self)) ;;
  let is_destroy := String.eqb (command self) "destroy" in
  changes <- _get_plan_changes (Host.json_loads h) self is_destroy ;;
  match changes with
  | [] =>
      print (OutText (Colors.success h
               "El plan no contiene cambios. No hay nada que hacer."))
  | _ :: _ =>
      let shown := map (fun c => (Host.format_value h (fst c), snd c)) changes in
      _display_changes h shown ;;
      _prompt_for_selection self shown
  end.

End InteractiveRun.

(** [sorted(names)] for strings, which Python orders by code point. *)
Fixpoint insert_sorted (x : string) (l : list string) : list string :=
  match l with
  | [] => [x]
  | y :: l' => if String.leb x y then x :: l else y :: insert_sorted x l'
  end.

Definition sorted (l : list string) : list string :=
  fold_right insert_sorted [] l.

(** [x in l] for a list of strings. *)
Definition mem (x : string) (l : list string) : bool :=
  existsb (String.eqb x) l.

Module TerraformManager.

(** [process_manager] is the shared instance of the world; of
    [temp_manager] only the directory matters. *)
Record t : Type := mk {
  project_root : string;
  temp_dir : string
}.

Definition _run_tf_command (command : list string) (cwd : string)
           (capture : bool) : M TerraformProcessManager.CompletedProcess :=
  TerraformProcessManager.run_command ("terraform" :: command) cwd capture.

(** "El entorno '...' no es valido o no contiene ficheros *.tf." with a
    acute. *)
Definition invalid_environment (environment : string) : exn :=
  ValueError ("El entorno '" ++ environment ++ "' no es v"
                ++ String (ascii_of_nat 225) "lido o no contiene ficheros "
                ++ TERRAFORM_FILE_GLOB ++ ".").

(** [_validate_environment(self, environment)], lines 202-208. *)
Definition _validate_environment (h : Host.t) (self : t)
           (environment : string) : M string :=
  match environment with
  | EmptyString => raise (ValueError "Se debe especificar un entorno.")
  | _ =>
      let env_path := Host.path_join h (project_root self) environment in
      if negb (Host.is_dir h env_path
               && Host.glob_any h env_path TERRAFORM_FILE_GLOB)
      then raise (invalid_environment environment)
      else ret env_path
  end.

(** [_ensure_terraform_init(self, env_path)], lines 210-211. *)
Definition _ensure_terraform_init (env_path : string) : M unit :=
  _run_tf_command ["init"; "-input=false"; "-reconfigure"] env_path false ;;
  ret tt.

(** [get_available_environments(self)], lines 213-223. *)
Definition get_available_environments (h : Host.t) (self : t) : list string :=
  if negb (Host.is_dir h (project_root self)) then []
  else
    sorted
      (map (Host.path_name h)
           (filter (fun item =>
                      Host.is_dir h item
                      && negb (String.prefix "." (Host.path_name h item))
                      && Host.glob_any h item TERRAFORM_FILE_GLOB)
                   (Host.iterdir h (project_root self)))).

(** [init(self, environment, extra_args)], lines 225-228. *)
Definition init (h : Host.t) (self : t) (environment : string)
           (extra_args : list string) : M unit :=
  env_path <- _validate_environment h self environment ;;
  _print_header h ("Terraform Init - Entorno: " ++ environment) ;;
  _run_tf_command ("init" :: extra_args) env_path false ;;
  ret tt.

(** [plan(self, environment, interactive, extra_args)], lines 230-238. *)
Definition plan (h : Host.t) (self : t) (environment : string)
           (interactive : bool) (extra_args : list string) : M unit :=
  env_path <- _validate_environment h self environment ;;
  _ensure_terraform_init env_path ;;
  if interactive then
    InteractiveRun.run
      h (TerraformInteractiveRunner.mk (temp_dir self) env_path "plan"
                                       extra_args)
  else
    _print_header h ("Terraform Plan - Entorno: " ++ environment) ;;
    _run_tf_command ("plan" :: extra_args) env_path false ;;
    ret tt.

(** [apply(self, environment, extra_args)], lines 240-244. *)
Definition apply (h : Host.t) (self : t) (environment : string)
           (extra_args : list string) : M unit :=
  env_path <- _validate_environment h self environment ;;
  _ensure_terraform_init env_path ;;
  _print_header h ("Terraform Apply - Entorno: " ++ environment) ;;
  _run_tf_command ("apply" :: extra_args) env_path false ;;
  ret tt.

(** [destroy(self, environment, interactive, extra_args)], lines
    246-254. *)
Definition destroy (h : Host.t) (self : t) (environment : string)
           (interactive : bool) (extra_args : list string) : M unit :=
  env_path <- _validate_environment h self environment ;;
  _ensure_terraform_init env_path ;;
  if interactive then
    InteractiveRun.run
      h (TerraformInteractiveRunner.mk (temp_dir self) env_path "destroy"
                                       extra_args)
  else
    _print_header h ("Terraform Destroy - Entorno: " ++ environment) ;;
    _run_tf_command ("destroy" :: extra_args) env_path false ;;
    ret tt.

(** [unlock(self, environment)], lines 256-259. *)
Definition unlock (h : Host.t) (self : t) (environment : string) : M unit :=
  env_path <- _validate_environment h self environment ;;
  TerraformUnlocker.run (TerraformUnlocker.mk env_path).

End TerraformManager.

Module PackerManager.

Record t : Type := mk {
  project_root : string
}.

(** [_run_packer_command(self, command, cwd)], lines 267-268. *)
Definition _run_packer_command (h : Host.t) (command : list string)
           (cwd : string) : M unit :=
  Host.subprocess_run h ("packer" :: command) cwd.

(** [get_available_apps(self)], lines 270-281. *)
Definition get_available_apps (h : Host.t) (self : t) : list string :=
  let amis_dir := Host.path_join h (project_root self) PACKER_APP_DIR in
  if negb (Host.is_dir h amis_dir) then []
  else
    sorted
      (map (Host.path_name h)
           (filter (fun item =>
                      Host.is_dir h item
                      && Host.glob_any h item PACKER_FILE_GLOB)
                   (Host.iterdir h amis_dir))).

(** [build(self, app, extra_args)], lines 283-294. *)
Definition build (h : Host.t) (self : t) (app : string)
           (extra_args : list string) : M unit :=
  match app with
  | EmptyString =>
      raise (ValueError ("Se debe especificar una aplicaci"
                           ++ String (ascii_of_nat 243) "n para construir."))
  | _ =>
      let app_path :=
        Host.path_join h (Host.path_join h (project_root self) PACKER_APP_DIR)
                       app in
      if negb (Host.is_dir h app_path) then raise FileNotFoundError
      else if negb (Host.glob_any h app_path PACKER_FILE_GLOB)
      then raise FileNotFoundError
      else
        _print_header h ("Packer Build - App: " ++ app) ;;
        _run_packer_command h ["init"; "."] app_path ;;
        _run_packer_command h ("build" :: extra_args ++ ["."])%list app_path
  end.

End PackerManager.

Module CLIHandler.

Record t : Type := mk {
  tf_manager : TerraformManager.t;
  packer_manager : PackerManager.t
}.

(** The bound methods the table of lines 309-321 maps to. *)
Inductive action : Type :=
| Init | Plan | Apply | Destroy | Unlock | Build.

Definition handler_map : list (string * action) :=
  [("init", Init); ("plan", Plan); ("p", Plan); ("apply", Apply);
   ("a", Apply); ("destroy", Destroy); ("d", Destroy); ("unlock", Unlock);
   ("u", Unlock); ("build", Build); ("b", Build)].

Fixpoint handler (name : string) (table : list (string * action))
  : option action :=
  match table with
  | [] => None
  | (k, a) :: rest => if String.eqb name k then Some a else handler name rest
  end.

(** [action.__name__ in ["plan", "destroy"]] *)
Definition takes_interactive (a : action) : bool :=
  match a with
  | Plan | Destroy => true
  | _ => false
  end.

(** Lines 349-354: the command and the target, in either order. *)
Definition resolve (available_envs available_apps : list string)
           (arg1 arg2 : string) : option (action * string) :=
  let is_target x := mem x available_envs || mem x available_apps in
  match handler arg1 handler_map with
  | Some a =>
      if is_target arg2 then Some (a, arg2)
      else match handler arg2 handler_map with
           | Some a' => if is_target arg1 then Some (a', arg1) else None
           | None => None
           end
  | None =>
      match handler arg2 handler_map with
      | Some a' => if is_target arg1 then Some (a', arg1) else None
      | None => None
      end
  end.

(** [remaining_args.index('--')] *)
Fixpoint index_of (x : string) (l : list string) : option nat :=
  match l with
  | [] => None
  | y :: l' => if String.eqb y x then Some 0
               else option_map S (index_of x l')
  end.

(** Lines 360-368: the interactive flag and the extra arguments. *)
Definition parse_flags (remaining_args : list string) : bool * list string :=
  let interactive :=
    mem "-i" remaining_args || mem "--interactive" remaining_args in
  let remaining_args :=
    if interactive
    then filter (fun arg => negb (String.eqb arg "-i"
                                  || String.eqb arg "--interactive"))
                remaining_args
    else remaining_args in
  let extra_args :=
    match index_of "--" remaining_args with
    | Some extra_args_pos => skipn (extra_args_pos + 1) remaining_args
    | None => []
    end in
  (interactive, extra_args).

(** The keyword arguments of lines 370-377; [extra_args] is always
    among them. *)
Record kwargs : Type := mkKwargs {
  kw_extra_args : list string;
  kw_environment : option string;
  kw_interactive : option bool;
  kw_app : option string
}.

Definition build_kwargs (available_envs available_apps : list string)
           (a : action) (target : string) (interactive : bool)
           (extra_args : list string) : kwargs :=
  if mem target available_envs then
    mkKwargs extra_args (Some target)
             (if takes_interactive a then Some interactive else None) None
  else if mem target available_apps then
    mkKwargs extra_args None None (Some target)
  else mkKwargs extra_args None None None.

(** The call of [action] with the keywords, line 380: they must be exactly the
    parameters of the method, or the call is a TypeError.  [unlock]
    takes [environment] alone. *)
Definition call (h : Host.t) (self : t) (a : action) (kw : kwargs) : M unit :=
  match a, kw_environment kw, kw_interactive kw, kw_app kw with
  | Init, Some environment, None, None =>
      TerraformManager.init h (tf_manager self) environment (kw_extra_args kw)
  | Plan, Some environment, Some interactive, None =>
      TerraformManager.plan h (tf_manager self) environment interactive
                            (kw_extra_args kw)
  | Apply, Some environment, None, None =>
      TerraformManager.apply h (tf_manager self) environment (kw_extra_args kw)
  | Destroy, Some environment, Some interactive, None =>
      TerraformManager.destroy h (tf_manager self) environment interactive
                               (kw_extra_args kw)
  | Build, None, None, Some app =>
      PackerManager.build h (packer_manager self) app (kw_extra_args kw)
  | _, _, _, _ => raise TypeError
  end.

(** "Combinacion de comando y objetivo no valida: '...', '...'." with
    the accents of the source. *)
Definition invalid_combination (arg1 arg2 : string) : exn :=
  ValueError ("Combinaci" ++ String (ascii_of_nat 243) "n de comando y objetivo no v"
                ++ String (ascii_of_nat 225) "lida: '" ++ arg1 ++ "', '"
                ++ arg2 ++ "'.").

(** [run(self, cli_args)], lines 338-380. *)
Definition run (h : Host.t) (self : t) (cli_args : list string) : M unit :=
  match cli_args with
  | arg1 :: arg2 :: remaining_args =>
      let available_envs :=
        TerraformManager.get_available_environments h (tf_manager self) in
      let available_apps :=
        PackerManager.get_available_apps h (packer_manager self) in
      match resolve available_envs available_apps arg1 arg2 with
      | None => raise (invalid_combination arg1 arg2)
      | Some (a, target) =>
          let flags := parse_flags remaining_args in
          call h self a
               (build_kwargs available_envs available_apps a target
                             (fst flags) (snd flags))
      end
  | _ => Host.print_help h
  end.

End CLIHandler.

(* ================================================================== *)
(** * libs/utils.py: the project root and the pinned version;
      core.py: the version check *)

Definition TERRAFORM_ROOT_SUBDIRS : list string := ["terraform"].

Module Utils.

(** A resolved absolute path is the list of its components, the
    innermost first; the root is the empty list and is its own parent.
    [render] is [str(path)]. *)
Definition render (path : list string) : string :=
  "/" ++ PyStr.join "/" (rev path).

(** [_is_valid_tf_root(path)], lines 69-77. *)
Definition _is_valid_tf_root (h : Host.t) (path : string) : bool :=
  if negb (Host.is_dir h path) then false
  else
    existsb (fun d => Host.is_dir h d
                      && Host.glob_any h d TERRAFORM_FILE_GLOB)
            (filter (fun d => Host.is_dir h d
                              && negb (String.prefix "." (Host.path_name h d)))
                    (Host.iterdir h path)).

(** The inner loop of [find_project_root], lines 89-92. *)
Fixpoint first_valid_subdir (h : Host.t) (current_path : list string)
         (names : list string) : option (list string) :=
  match names with
  | [] => None
  | subdir_name :: rest =>
      let potential_root := subdir_name :: current_path in
      if _is_valid_tf_root h (render potential_root) then Some potential_root
      else first_valid_subdir h current_path rest
  end.

(** [find_project_root()], lines 79-96, from the resolved working
    directory. *)
Fixpoint find_project_root (h : Host.t) (current_path : list string)
  : result (list string) :=
  match current_path with
  | [] => Raise FileNotFoundError
  | _ :: parent =>
      if _is_valid_tf_root h (render current_path) then Return current_path
      else match first_valid_subdir h current_path TERRAFORM_ROOT_SUBDIRS with
           | Some potential_root => Return potential_root
           | None => find_project_root h parent
           end
  end.

(** [get_terraform_version(start_path)], lines 98-115, from the
    resolved start path.  The warning goes to standard error. *)
Fixpoint get_terraform_version (h : Host.t) (current_path : list string)
  : M (option string) :=
  match current_path with
  | [] => ret None
  | _ :: parent =>
      let version_file := render (".terraform-version" :: current_path) in
      match Host.read_file h version_file with
      | Absent => get_terraform_version h parent
      | Content text =>
          let version := PyStr.strip text in
          match version with
          | EmptyString => get_terraform_version h parent
          | _ => ret (Some version)
          end
      | Unreadable why =>
          print (OutText (Colors.warning h "AVISO:"
                            ++ " No se pudo leer el fichero " ++ version_file
                            ++ ": " ++ why)) ;;
          ret None
      end
  end.

End Utils.

Module VersionCheck.

(** [bool(x)] for a parsed value; [JNull] is [None]. *)
Definition truthy (h : Host.t) (x : json) : bool :=
  match x with
  | JNull => false
  | JBool b => b
  | JNumber literal => Host.number_truthy h literal
  | JStr s => negb (String.eqb s "")
  | JArr items => match items with [] => false | _ => true end
  | JObj items => match items with [] => false | _ => true end
  end.

(** [x != s] for a parsed value and a string. *)
Definition differs (x : json) (s : string) : bool := negb (PyJson.eq_str s x).

(** The warning of line 199, "No se pudo determinar la version ...". *)
Definition undetermined (h : Host.t) (e : exn) : output :=
  OutText (Colors.warning h "AVISO:"
             ++ " No se pudo determinar la versi" ++ String (ascii_of_nat 243)
                  "n de Terraform. Se omitir" ++ String (ascii_of_nat 225)
                  " la comprobaci" ++ String (ascii_of_nat 243) "n. Error: "
             ++ Host.exn_text h e).

(** [except (CommandExecutionError, FileNotFoundError,
    json.JSONDecodeError) as e], lines 196-200. *)
Definition skipped (h : Host.t) (e : exn) : option (M json) :=
  match e with
  | CommandExecutionError _ _ _ _ | FileNotFoundError | JSONDecodeError =>
      Some (print (undetermined h e) ;; ret JNull)
  | _ => None
  end.

(** [TerraformManager.get_current_version(self)], lines 189-200; the
    result is [JNull] for [None]. *)
Definition get_current_version (h : Host.t) (self : TerraformManager.t)
  : M json :=
  try_except
    (result <- TerraformManager._run_tf_command
                 ["version"; "-json"] (TerraformManager.project_root self) true ;;
     version_data <- TerraformInteractiveRunner.loads
                       (Host.json_loads h)
                       (TerraformProcessManager.stdout result) ;;
     lift (PyJson.get "terraform_version" JNull version_data))
    (skipped h).

(** The two lines printed before the exit, lines 334-335. *)
Definition mismatch (h : Host.t) (current_version : json)
           (required_version : string) : output :=
  OutText (Colors.warning h "AVISO:" ++ " La versi" ++ String (ascii_of_nat 243)
             "n de Terraform (" ++ Host.format_value h current_version
             ++ ") no es la misma que la requerida por .terraform-version ("
             ++ required_version ++ ").").

Definition advice (h : Host.t) : output :=
  OutText (Colors.info h ("Por favor, ejecute 'tfenv install' para instalar la versi"
                            ++ String (ascii_of_nat 243) "n correcta.")).

(** [CLIHandler._check_terraform_version(self)], lines 323-336;
    [project_root] is the path [self.project_root], whose text is the
    root of [self.tf_manager]. *)
Definition _check_terraform_version (h : Host.t) (project_root : list string)
           (self : CLIHandler.t) : M unit :=
  required_version <- Utils.get_terraform_version h project_root ;;
  match required_version with
  | None | Some EmptyString => ret tt
  | Some required_version =>
      current_version <- get_current_version h (CLIHandler.tf_manager self) ;;
      if negb (truthy h current_version) then ret tt
      else if differs current_version required_version then
        print (mismatch h current_version required_version) ;;
        print (advice h) ;;
        raise (SystemExit 1)
      else ret tt
  end.

End VersionCheck.

(* ================================================================== *)
(** * Vocabulary of the statements *)

Section Vocabulary.
Import TerraformProcessManager.

(** What a handler run leaves alone: everything but the interrupt
    counter, the forwarded signals and the terminal. *)
Record untouched (w w' : World) : Prop := mkUntouched {
  u_platform : platform_win32 w' = platform_win32 w;
  u_sigint : sigint_handler w' = sigint_handler w;
  u_sigterm : sigterm_handler w' = sigterm_handler w;
  u_current : current_process w' = current_process w;
  u_script : script w' = script w;
  u_stdin : stdin w' = stdin w;
  u_calls : calls w' = calls w;
  u_asked : asked w' = asked w
}.

(** An arrival that cannot make the handler raise. *)
Definition quiet (d : delivery) : bool :=
  match d_kill d with
  | Refused => negb (d_running d)
  | _ => true
  end.

(** The [try] block of [run_command]. *)
Definition attempt (command : list string) (cwd : string) (capture : bool)
  : M CompletedProcess :=
  p <- popen command cwd capture ;;
  modify (set_current_process (Some p)) ;;
  streams <- communicate p capture ;;
  let returncode := c_returncode (behaviour p) in
  n <- gets interrupt_count ;;
  if 0 <? n then raise interrupted
  else if negb (returncode =? 0)%Z then
    raise (CommandExecutionError (failure_message command) returncode
                                 (fst streams) (snd streams))
  else ret (mkCompletedProcess command returncode
                               (fst streams) (snd streams)).

(** What the [try] block leaves alone. *)
Record attempted (i : invocation) (w w' : World) : Prop := mkAttempted {
  a_platform : platform_win32 w' = platform_win32 w;
  a_sigint : sigint_handler w' = sigint_handler w;
  a_sigterm : sigterm_handler w' = sigterm_handler w;
  a_script : script w' = tl (script w);
  a_stdin : stdin w' = stdin w;
  a_calls : calls w' = (calls w ++ [i])%list;
  a_asked : asked w' = asked w
}.

(** What a whole supervised call leaves alone: it records one [Popen]
    call, uses up one child of the script and touches neither the keyboard
    nor the prompts. *)
Record supervised (i : invocation) (w w' : World) : Prop := mkSupervised {
  s_platform : platform_win32 w' = platform_win32 w;
  s_sigint : sigint_handler w' = sigint_handler w;
  s_sigterm : sigterm_handler w' = sigterm_handler w;
  s_current : current_process w' = None;
  s_script : script w' = tl (script w);
  s_stdin : stdin w' = stdin w;
  s_calls : calls w' = (calls w ++ [i])%list;
  s_asked : asked w' = asked w
}.

(** A world in which nothing has happened yet: main.py has installed its
    own handlers, the supervisor is idle. *)
Definition fresh_world (children : list child) (keys : list keyboard) : World :=
  mkWorld false main_signal_handler main_signal_handler None 0
          children keys [] [] [] [].

(** A child that meets no signal and exits with [rc]. *)
Definition plain_child (rc : Z) (out_text err_text : string) : child :=
  mkChild [] (Spawned 4242) [] rc out_text err_text.

(** A child that meets no signal and exits with status 0. *)
Definition exits_cleanly (c : child) : bool :=
  match c_early c, c_spawn c, c_signals c with
  | [], Spawned _, [] => (c_returncode c =? 0)%Z
  | _, _, _ => false
  end.

(** One entry of the plan document as section 6 of the specification
    describes it: an address and the ordered action tokens. *)
Record ResourceChange : Type := mkResourceChange {
  rc_address : string;
  rc_actions : list string
}.

(** [res] is a JSON object that carries the address of [rc] under
    "address" and its actions under "change"."actions", whatever other
    members it has. *)
Definition describes (res : json) (rc : ResourceChange) : Prop :=
  exists items members,
    res = JObj items
    /\ PyJson.lookup "address" items = Some (JStr (rc_address rc))
    /\ PyJson.lookup "change" items = Some (JObj members)
    /\ PyJson.lookup "actions" members
       = Some (JArr (map JStr (rc_actions rc))).

(** The smallest such object, and the document made of such entries. *)
Definition entry_json (rc : ResourceChange) : json :=
  JObj [("address", JStr (rc_address rc));
        ("change", JObj [("actions", JArr (map JStr (rc_actions rc)))])].

Definition payload (rcs : list ResourceChange) : json :=
  JObj [("resource_changes", JArr (map entry_json rcs))].

(** The pair an entry is projected to. *)
Definition projection (rc : ResourceChange) : json * string :=
  (JStr (rc_address rc), PyStr.join "," (rc_actions rc)).

(** "no-op" occurs among the actions. *)
Definition mentions_noop (rc : ResourceChange) : bool :=
  existsb (String.eqb "no-op") (rc_actions rc).

(** The specification's rule, in its words: an entry is dropped when its
    action set is exactly {no-op}. *)
Definition exactly_noop (rc : ResourceChange) : bool :=
  match rc_actions rc with
  | [] => false
  | a :: rest => forallb (String.eqb "no-op") (a :: rest)
  end.

(** [computeChanges] as the specification words it. *)
Definition computeChanges_spec (rcs : list ResourceChange)
  : list (json * string) :=
  map projection (filter (fun rc => negb (exactly_noop rc)) rcs).

(** What one round of the comprehension adds to the list. *)
Definition contribution (res : json) : list (json * string) :=
  match TerraformInteractiveRunner.select res with
  | Return (Some c) => [c]
  | _ => []
  end.

(** Every character of [s] satisfies [p]. *)
Fixpoint all_chars (p : ascii -> bool) (s : string) : bool :=
  match s with
  | EmptyString => true
  | String c s' => p c && all_chars p s'
  end.

(** Neither spelling of the interactive flag. *)
Definition plain (arg : string) : bool :=
  negb (String.eqb arg "-i" || String.eqb arg "--interactive").

(** The directory [dir] pins no version: it has no .terraform-version
    file, or one whose stripped content is empty. *)
Definition pins_nothing (h : Host.t) (dir : list string) : Prop :=
  match Host.read_file h (Utils.render (".terraform-version" :: dir)) with
  | Absent => True
  | Content text => PyStr.strip text = ""
  | Unreadable _ => False
  end.

(** One entry of the plan document with the members the code has
    defaults for: the address may be missing, and so may the change
    object ([None]) or its actions ([Some None]). *)
Record LooseChange : Type := mkLooseChange {
  lc_address : option string;
  lc_actions : option (option (list string))
}.

(** The action tokens of such an entry: none when the change object or
    its actions are missing. *)
Definition loose_actions (lc : LooseChange) : list string :=
  match lc_actions lc with
  | Some (Some actions) => actions
  | _ => []
  end.

(** [res] is a JSON object with exactly these members of [lc] under
    "address" and "change"."actions", whatever other members it has. *)
Definition loosely_describes (res : json) (lc : LooseChange) : Prop :=
  exists items,
    res = JObj items
    /\ PyJson.lookup "address" items = option_map JStr (lc_address lc)
    /\ match lc_actions lc with
       | None => PyJson.lookup "change" items = None
       | Some None =>
           exists members,
             PyJson.lookup "change" items = Some (JObj members)
             /\ PyJson.lookup "actions" members = None
       | Some (Some actions) =>
           exists members,
             PyJson.lookup "change" items = Some (JObj members)
             /\ PyJson.lookup "actions" members
                = Some (JArr (map JStr actions))
       end.

(** The pair such an entry is listed as: a missing address is the empty
    string, missing actions join to the empty string. *)
Definition loose_projection (lc : LooseChange) : json * string :=
  (JStr (match lc_address lc with Some a => a | None => "" end),
   PyStr.join "," (loose_actions lc)).

Definition loose_mentions_noop (lc : LooseChange) : bool :=
  existsb (String.eqb "no-op") (loose_actions lc).

End Vocabulary.

(** Unfolds one run of the handler. *)
Ltac run_handler :=
  unfold TerraformProcessManager._signal_handler, bind, modify, gets, print, try_except, send, ret,
    raise, pass_ProcessLookupError; simpl.

(* ================================================================== *)
(** * Facts: strings *)

Example strip_lower_T : PyStr.lower (PyStr.strip "  T ") = "t".
Proof. reflexivity. Qed.

Example int_examples :
  PyStr.int "2" = Some 2%Z /\ PyStr.int "+1_0" = Some 10%Z /\
  PyStr.int "-3" = Some (-3)%Z /\ PyStr.int "1__0" = None /\
  PyStr.int "" = None /\ PyStr.int "x" = None /\ PyStr.int "07" = Some 7%Z.
Proof. repeat split; reflexivity. Qed.

(* ================================================================== *)
(** * Facts: the signal handler *)

Module SupervisorFacts.
Import TerraformProcessManager.

#[local] Arguments Nat.leb : simpl never.
#[local] Arguments Nat.eqb : simpl never.
#[local] Arguments Nat.ltb : simpl never.
#[local] Arguments Nat.add : simpl never.

Lemma untouched_refl w : untouched w w.
Proof. constructor; reflexivity. Qed.

Lemma untouched_trans w1 w2 w3 :
  untouched w1 w2 -> untouched w2 w3 -> untouched w1 w3.
Proof.
  intros [] []; constructor; congruence.
Qed.

(** With no child, or with a child that has exited, the handler only
    counts. *)
Lemma handler_idle d w :
  current_process w = None \/ d_running d = false ->
  _signal_handler d w
  = (Return tt, set_interrupt_count (interrupt_count w + 1) w).
Proof.
  intros H. run_handler.
  destruct (current_process w) as [p|]; [|reflexivity].
  destruct H as [H|H]; [discriminate|]. rewrite H. reflexivity.
Qed.

Lemma handler_untouched d w : untouched w (snd (_signal_handler d w)).
Proof.
  run_handler.
  destruct (current_process w) as [p|] eqn:Ep; simpl;
    [|constructor; simpl; congruence].
  destruct (d_running d); simpl; [|constructor; simpl; congruence].
  destruct (interrupt_count w + 1 =? 1); simpl.
  - destruct (platform_win32 w) eqn:Ew; simpl; destruct (d_kill d); simpl;
      constructor; simpl; congruence.
  - destruct (2 <=? interrupt_count w + 1); simpl;
      [destruct (d_kill d); simpl|]; constructor; simpl; congruence.
Qed.

(** The handler either returns, having counted one more interrupt, or
    lets the refusal of the kill through. *)
Lemma handler_result d w :
  (fst (_signal_handler d w) = Return tt
   /\ interrupt_count (snd (_signal_handler d w)) = interrupt_count w + 1)
  \/ (fst (_signal_handler d w) = Raise PermissionError /\ quiet d = false
      /\ current_process w <> None).
Proof.
  unfold quiet. run_handler.
  destruct (current_process w) as [p|] eqn:Ep; simpl; [|left; auto].
  destruct (d_running d); simpl; [|left; auto].
  destruct (interrupt_count w + 1 =? 1); simpl.
  - destruct (platform_win32 w); simpl; destruct (d_kill d); simpl;
      try (left; split; reflexivity); right; repeat split; congruence.
  - destruct (2 <=? interrupt_count w + 1); simpl;
      [destruct (d_kill d); simpl|];
      try (left; split; reflexivity); right; repeat split; congruence.
Qed.

Lemma deliver_cons d ds w :
  deliver (d :: ds) w
  = match _signal_handler d w with
    | (Return _, w') => deliver ds w'
    | (Raise e, w') => (Raise e, w')
    end.
Proof. reflexivity. Qed.

Lemma deliver_untouched ds : forall w, untouched w (snd (deliver ds w)).
Proof.
  induction ds as [|d ds IH]; intros w.
  - apply untouched_refl.
  - rewrite deliver_cons. pose proof (handler_untouched d w) as Hd.
    destruct (_signal_handler d w) as [[[]|e] w1]; simpl in *; auto.
    eapply untouched_trans; eauto.
Qed.

(** When every arrival is handled, each one has been counted. *)
Lemma deliver_counts ds : forall w w',
  deliver ds w = (Return tt, w') ->
  interrupt_count w' = interrupt_count w + List.length ds.
Proof.
  induction ds as [|d ds IH]; intros w w' H.
  - inversion H; subst. simpl. lia.
  - rewrite deliver_cons in H.
    destruct (handler_result d w) as [[Hr Hc]|[Hr _]];
      destruct (_signal_handler d w) as [[[]|e] w1]; simpl in *;
      try discriminate.
    apply IH in H. rewrite H, Hc. lia.
Qed.

Lemma deliver_returns ds : forall w,
  current_process w = None \/ forallb quiet ds = true ->
  fst (deliver ds w) = Return tt.
Proof.
  induction ds as [|d ds IH]; intros w H; [reflexivity|].
  rewrite deliver_cons.
  pose proof (handler_untouched d w) as Hu.
  destruct (handler_result d w) as [[Hr Hc]|[Hr [Hq Hn]]];
    destruct (_signal_handler d w) as [[[]|e] w1]; simpl in *;
    try discriminate.
  - apply IH. destruct H as [H|H].
    + left. rewrite (u_current Hu). exact H.
    + right. apply andb_true_iff in H. tauto.
  - destruct H as [H|H]; [contradiction|].
    apply andb_true_iff in H. destruct H as [H _]. congruence.
Qed.

(** ** [run_command] *)

(** [run_command] is its [try] block between installing and restoring. *)
Lemma run_command_eq command cwd capture w :
  run_command command cwd capture w
  = let b := attempt command cwd capture
               (set_interrupt_count 0
                  (set_sigterm tpm_signal_handler
                     (set_sigint tpm_signal_handler w))) in
    (fst b,
     set_sigterm (sigterm_handler w)
       (set_sigint (sigint_handler w) (set_current_process None (snd b)))).
Proof.
  unfold run_command, attempt, try_finally, signal_signal, bind, modify, ret.
  simpl.
  match goal with |- context [let (_, _) := ?b in _] => destruct b as [r wb] end.
  reflexivity.
Qed.

Lemma attempt_frame command cwd capture w :
  attempted (mkInvocation command cwd capture) w
            (snd (attempt command cwd capture w)).
Proof.
  unfold attempt, popen, communicate, bind, modify, gets, ret, raise. simpl.
  destruct (script w) as [|c rest] eqn:Es; simpl.
  { constructor; simpl; rewrite ?Es; reflexivity. }
  match goal with |- context [deliver (c_early c) ?w0] =>
    pose proof (deliver_untouched (c_early c) w0) as U1;
    destruct (deliver (c_early c) w0) as [[[]|e1] w1] end; simpl in *;
    [|destruct U1; constructor; simpl in *; rewrite ?Es; simpl; congruence].
  destruct (c_spawn c) as [n|e]; simpl;
    [|destruct U1; constructor; simpl in *; rewrite ?Es; simpl; congruence].
  match goal with |- context [deliver (c_signals c) ?w0] =>
    pose proof (deliver_untouched (c_signals c) w0) as U2;
    destruct (deliver (c_signals c) w0) as [[[]|e2] w2] end; simpl in *;
    [|destruct U1, U2; constructor; simpl in *; rewrite ?Es; simpl;
      congruence].
  destruct (0 <? interrupt_count w2); simpl;
    [|destruct (negb (c_returncode c =? 0)%Z); simpl];
    destruct U1, U2; constructor; simpl in *; rewrite ?Es; simpl; congruence.
Qed.

Lemma run_command_frame command cwd capture w :
  supervised (mkInvocation command cwd capture) w
             (snd (run_command command cwd capture w)).
Proof.
  rewrite run_command_eq. simpl.
  match goal with |- context [attempt command cwd capture ?w0] =>
    destruct (attempt_frame command cwd capture w0) end.
  constructor; simpl in *; congruence.
Qed.

(** The [try] block when the child starts and exits. *)
Lemma attempt_exited command cwd capture w c rest n :
  script w = c :: rest -> c_spawn c = Spawned n ->
  current_process w = None -> forallb quiet (c_signals c) = true ->
  exists w',
    attempt command cwd capture w
    = ((if 0 <? interrupt_count w'
        then Raise interrupted
        else if negb (c_returncode c =? 0)%Z
             then Raise (CommandExecutionError
                           (failure_message command) (c_returncode c)
                           (if capture then Some (c_stdout c) else None)
                           (if capture then Some (c_stderr c) else None))
             else Return (mkCompletedProcess
                            command (c_returncode c)
                            (if capture then Some (c_stdout c) else None)
                            (if capture then Some (c_stderr c) else None))),
       w')
    /\ interrupt_count w'
       = interrupt_count w + List.length (c_early c)
         + List.length (c_signals c).
Proof.
  intros Es Hs Hc Hq.
  unfold attempt, popen, communicate, bind, modify, gets, ret, raise. simpl.
  rewrite Es. simpl.
  match goal with |- context [deliver (c_early c) ?w0] =>
    pose proof (deliver_untouched (c_early c) w0) as U1;
    pose proof (deliver_returns (c_early c) w0 (or_introl Hc)) as R1;
    pose proof (deliver_counts (c_early c) w0) as C1;
    destruct (deliver (c_early c) w0) as [r1 w1] end.
  simpl in R1. subst r1. specialize (C1 _ eq_refl). simpl in C1.
  rewrite Hs. simpl.
  match goal with |- context [deliver (c_signals c) ?w0] =>
    pose proof (deliver_returns (c_signals c) w0 (or_intror Hq)) as R2;
    pose proof (deliver_counts (c_signals c) w0) as C2;
    destruct (deliver (c_signals c) w0) as [r2 w2] end.
  simpl in R2. subst r2. specialize (C2 _ eq_refl). simpl in C2.
  exists w2. split; [|lia].
  destruct (0 <? interrupt_count w2); [reflexivity|].
  destruct (negb (c_returncode c =? 0)%Z); reflexivity.
Qed.

End SupervisorFacts.

(* ================================================================== *)
(** * The supervisor's contract *)

Import TerraformProcessManager SupervisorFacts.

(** C7: a handler run while no child is current, or after the current
    child has exited, forwards no signal, prints nothing and raises
    nothing, whatever the interrupt counter was; all it does is count the
    interrupt. *)
Theorem signal_handler_idle_is_noop (d : delivery) (w : World) :
  current_process w = None \/ d_running d = false ->
  forall r w', _signal_handler d w = (r, w') ->
    r = Return tt /\ sent w' = sent w /\ out w' = out w
    /\ untouched w w' /\ interrupt_count w' = interrupt_count w + 1.
Proof.
  intros H r w' E. rewrite (handler_idle d w H) in E.
  inversion E; subst; clear E.
  repeat split; reflexivity.
Qed.

Lemma signal_handler_idle_is_noop_witness :
  let w := set_interrupt_count 5 (fresh_world [] []) in
  let d := mkDelivery true Refused in
  sent (snd (_signal_handler d w)) = sent w
  /\ fst (_signal_handler d w) = Return tt.
Proof.
  intros w d.
  destruct (@signal_handler_idle_is_noop d w (or_introl eq_refl)
              (fst (_signal_handler d w)) (snd (_signal_handler d w))
              (surjective_pairing _)) as [Hr [Hs _]].
  split; [exact Hs | exact Hr].
Defined.

(** C4: however [run_command] ends, by returning or by raising, the
    handlers of SIGINT and SIGTERM are the ones installed before the call
    and no child is current. *)
Theorem run_command_restores_handlers
        (command : list string) (cwd : string) (capture : bool) (w : World) :
  let w' := snd (run_command command cwd capture w) in
  sigint_handler w' = sigint_handler w
  /\ sigterm_handler w' = sigterm_handler w
  /\ current_process w' = None.
Proof.
  rewrite run_command_eq. simpl. repeat split.
Qed.

(** The four ways out of [run_command] all occur: a return, a
    CommandExecutionError, the KeyboardInterrupt of an interrupted call,
    and exceptions of other kinds (from [Popen], from the handler). *)
Example run_command_exit_paths :
  let run c := fst (run_command ["terraform"; "plan"] "/env" false
                                (fresh_world [c] [])) in
  is_return (run (plain_child 0 "" "")) = true
  /\ run (plain_child 2 "" "")
     = Raise (CommandExecutionError
                (failure_message ["terraform"; "plan"]) 2 None None)
  /\ run (mkChild [] (Spawned 1) [mkDelivery true Delivered] 0 "" "")
     = Raise interrupted
  /\ run (mkChild [] (SpawnError FileNotFoundError) [] 0 "" "")
     = Raise FileNotFoundError
  /\ run (mkChild [] (Spawned 1) [mkDelivery true Refused] 0 "" "")
     = Raise PermissionError.
Proof. repeat split; reflexivity. Qed.

(** C1: when the child has started and exited, the call is decided by the
    interrupt counter it recorded and then by the exit code.  A counter of
    one or more makes the call raise the KeyboardInterrupt of an
    interrupted process, whatever the exit code; with a counter of zero
    the call returns exactly when the exit code is 0, and otherwise raises
    a CommandExecutionError carrying that exit code. *)
Theorem run_command_outcome
        (command : list string) (cwd : string) (capture : bool)
        (w : World) (c : child) (rest : list child) (n : nat) :
  script w = c :: rest -> c_spawn c = Spawned n ->
  current_process w = None -> forallb quiet (c_signals c) = true ->
  forall r w', run_command command cwd capture w = (r, w') ->
    interrupt_count w' = List.length (c_early c) + List.length (c_signals c)
    /\ (1 <= interrupt_count w' -> r = Raise interrupted)
    /\ (interrupt_count w' = 0 ->
        (is_return r = true <-> c_returncode c = 0%Z)
        /\ (c_returncode c = 0%Z ->
            exists so se, r = Return (mkCompletedProcess command 0 so se))
        /\ (c_returncode c <> 0%Z ->
            exists so se,
              r = Raise (CommandExecutionError (failure_message command)
                                               (c_returncode c) so se))).
Proof.
  intros Es Hs Hc Hq r w' E. rewrite run_command_eq in E. simpl in E.
  match type of E with context [attempt command cwd capture ?w0] =>
    destruct (@attempt_exited command cwd capture w0 c rest n Es Hs Hc Hq)
      as [wb [Eb Cb]] end.
  rewrite Eb in E. simpl in E, Cb. inversion E; subst; clear E. simpl.
  split; [lia|]. split.
  - intros H1. destruct (Nat.ltb_spec 0 (interrupt_count wb)); [reflexivity|lia].
  - intros H0. rewrite H0. change (0 <? 0) with false. cbv iota.
    destruct (Z.eqb_spec (c_returncode c) 0) as [Hz|Hz]; simpl.
    + repeat split; intros; try assumption; try contradiction.
      rewrite Hz. eauto.
    + repeat split; intros; try discriminate; try contradiction. eauto.
Qed.

Lemma run_command_outcome_witness :
  let c := mkChild [mkDelivery false Delivered] (Spawned 7)
                   [mkDelivery true NoSuchProcess] 0 "" "" in
  let w := fresh_world [c] [] in
  let res := run_command ["terraform"; "apply"] "/env" false w in
  interrupt_count (snd res) = 2 /\ fst res = Raise interrupted.
Proof.
  intros c w res.
  destruct (@run_command_outcome ["terraform"; "apply"] "/env" false w c [] 7
              eq_refl eq_refl eq_refl eq_refl (fst res) (snd res)
              (surjective_pairing res))
    as [Hn [Hi _]].
  split; [exact Hn | apply Hi; rewrite Hn; repeat constructor].
Defined.

(** C2, evaluated on the code: a call with [capture = False] whose child
    meets no signal and exits non-zero raises a CommandExecutionError whose
    [stdout] and [stderr] are both Python's [None], not empty strings. *)
Theorem run_command_uncaptured_failure_has_no_text
        (command : list string) (cwd : string)
        (w : World) (c : child) (rest : list child) (n : nat) :
  script w = c :: rest -> c_spawn c = Spawned n ->
  c_early c = [] -> c_signals c = [] -> c_returncode c <> 0%Z ->
  fst (run_command command cwd false w)
  = Raise (CommandExecutionError (failure_message command) (c_returncode c)
                                 None None).
Proof.
  intros Es Hs He Hg Hz. rewrite run_command_eq. simpl.
  unfold attempt, popen, communicate, bind, modify, gets, ret, raise. simpl.
  rewrite Es. simpl. rewrite He. simpl. rewrite Hs. simpl. rewrite Hg. simpl.
  destruct (Z.eqb_spec (c_returncode c) 0); [contradiction|reflexivity].
Qed.

Lemma run_command_uncaptured_failure_has_no_text_witness :
  fst (run_command ["terraform"; "plan"; "-input=false"] "/env" false
         (fresh_world [plain_child 1 "" "Error acquiring the state lock"] []))
  = Raise (CommandExecutionError
             (failure_message ["terraform"; "plan"; "-input=false"]) 1
             None None).
Proof.
  apply (@run_command_uncaptured_failure_has_no_text
           ["terraform"; "plan"; "-input=false"] "/env"
           (fresh_world [plain_child 1 "" "Error acquiring the state lock"] [])
           (plain_child 1 "" "Error acquiring the state lock") [] 4242);
    try reflexivity.
  simpl. discriminate.
Defined.

(* ================================================================== *)
(** * The plan reader *)

Module PlanReaderFacts.
Import TerraformInteractiveRunner.

Lemma contains_strings needle l :
  PyJson.contains needle (JArr (map JStr l))
  = Return (existsb (String.eqb needle) l).
Proof.
  simpl. f_equal. induction l as [|a l IH]; simpl; congruence.
Qed.

Lemma all_str_strings l : PyJson.all_str (map JStr l) = Return l.
Proof.
  induction l as [|a l IH]; simpl; [reflexivity|]. rewrite IH. reflexivity.
Qed.

Lemma join_strings sep l :
  PyJson.join sep (JArr (map JStr l)) = Return (PyStr.join sep l).
Proof.
  unfold PyJson.join. simpl. rewrite all_str_strings. reflexivity.
Qed.

(** One round on a well-formed entry. *)
Lemma select_described res rc :
  describes res rc ->
  select res
  = Return (if mentions_noop rc then None else Some (projection rc)).
Proof.
  intros (items & members & -> & Ha & Hc & Hm).
  unfold select, change_actions, PyJson.get, mentions_noop, projection.
  rewrite Hc, Hm, contains_strings.
  destruct (existsb (String.eqb "no-op") (rc_actions rc)); [reflexivity|].
  rewrite Ha, join_strings. reflexivity.
Qed.

Lemma describes_entry_json rc : describes (entry_json rc) rc.
Proof.
  exists [("address", JStr (rc_address rc));
          ("change", JObj [("actions", JArr (map JStr (rc_actions rc)))])],
         [("actions", JArr (map JStr (rc_actions rc)))].
  repeat split; reflexivity.
Qed.

Lemma comprehension_described entries rcs :
  Forall2 describes entries rcs ->
  comprehension entries
  = Return (map projection (filter (fun rc => negb (mentions_noop rc)) rcs)).
Proof.
  induction 1 as [|res rc entries rcs Hd _ IH]; [reflexivity|].
  simpl. rewrite (select_described Hd), IH.
  destruct (mentions_noop rc); reflexivity.
Qed.

(** When the comprehension returns, it returns what the rounds
    contributed, in order. *)
Lemma comprehension_contributions entries : forall l,
  comprehension entries = Return l ->
  l = List.concat (map contribution entries).
Proof.
  induction entries as [|res entries IH]; intros l H; simpl in *.
  - inversion H; reflexivity.
  - unfold contribution at 1.
    destruct (select res) as [kept|e]; [|discriminate].
    destruct (comprehension entries) as [l0|e]; [|discriminate].
    inversion H; subst; clear H. rewrite <- (IH l0 eq_refl).
    destruct kept; reflexivity.
Qed.

End PlanReaderFacts.

(** A supervised call whose child meets no signal and exits with 0
    returns the completed process, with the streams if they were
    captured. *)
Lemma run_command_clean command cwd capture w c rest :
  script w = c :: rest -> exits_cleanly c = true ->
  current_process w = None ->
  exists w',
    run_command command cwd capture w
    = (Return (mkCompletedProcess
                 command 0
                 (if capture then Some (c_stdout c) else None)
                 (if capture then Some (c_stderr c) else None)), w')
    /\ supervised (mkInvocation command cwd capture) w w'.
Proof.
  intros Es Hx Hc. unfold exits_cleanly in Hx.
  destruct (c_early c) eqn:He; [|discriminate].
  destruct (c_spawn c) as [n|] eqn:Hs; [|discriminate].
  destruct (c_signals c) eqn:Hg; [|discriminate].
  apply Z.eqb_eq in Hx.
  pose proof (run_command_frame command cwd capture w) as F.
  rewrite run_command_eq in *. simpl in *.
  match goal with |- context [attempt command cwd capture ?w0] =>
    destruct (@attempt_exited command cwd capture w0 c rest n Es Hs Hc)
      as [wb [Eb Cb]]; [rewrite Hg; reflexivity|] end.
  rewrite He, Hg in Cb. simpl in Cb. rewrite Eb in *. simpl in *.
  rewrite Cb, Hx. simpl. eexists. split; [reflexivity|exact F].
Qed.

Import TerraformInteractiveRunner PlanReaderFacts.

(** C3, as the code has it: once the plan and its rendering have been
    produced, [_get_plan_changes] returns the entries whose action list
    does not hold the token no-op, each as its address and its actions
    joined by commas, in the order of the document; on the document with
    entries a (no-op) and b (create) that is the single pair (b, create). *)
Theorem get_plan_changes_drops_entries_holding_noop
        (json_loads : string -> option json) (self : t) (destroy_plan : bool)
        (w : World) (c1 c2 : child) (rest : list child)
        (top : list (string * json)) (entries : list json)
        (rcs : list ResourceChange) :
  script w = c1 :: c2 :: rest -> current_process w = None ->
  exits_cleanly c1 = true -> exits_cleanly c2 = true ->
  json_loads (c_stdout c2) = Some (JObj top) ->
  PyJson.lookup "resource_changes" top = Some (JArr entries) ->
  Forall2 describes entries rcs ->
  fst (_get_plan_changes json_loads self destroy_plan w)
  = Return (map projection (filter (fun rc => negb (mentions_noop rc)) rcs))
  /\ plan_changes (payload [mkResourceChange "a" ["no-op"];
                            mkResourceChange "b" ["create"]])
     = Return [(JStr "b", "create")].
Proof.
  intros Es Hc H1 H2 Hj Ht Hd. split; [|reflexivity].
  unfold _get_plan_changes, _run_tf_command, bind.
  match goal with |- context [run_command ?cmd ?cwd false w] =>
    destruct (@run_command_clean cmd cwd false w c1 (c2 :: rest) Es H1 Hc)
      as [w1 [E1 F1]] end.
  rewrite E1.
  match goal with |- context [run_command ?cmd ?cwd true w1] =>
    destruct (@run_command_clean cmd cwd true w1 c2 rest) as [w2 [E2 F2]] end.
  { rewrite (s_script F1), Es. reflexivity. }
  { exact H2. }
  { exact (s_current F1). }
  rewrite E2. simpl. unfold loads. rewrite Hj. unfold ret, lift. simpl.
  unfold plan_changes, PyJson.get. rewrite Ht. simpl.
  apply comprehension_described. exact Hd.
Qed.

Lemma get_plan_changes_drops_entries_holding_noop_witness :
  let rcs := [mkResourceChange "a" ["no-op"]; mkResourceChange "b" ["create"];
              mkResourceChange "c" ["delete"; "create"]] in
  fst (_get_plan_changes
         (fun _ => Some (payload rcs))
         (mk "/tmp/make-cli-x" "/infra/dev" "plan" [])
         false
         (fresh_world [plain_child 0 "" ""; plain_child 0 "{}" ""] []))
  = Return [(JStr "b", "create"); (JStr "c", "delete,create")].
Proof.
  intros rcs.
  refine (proj1 (@get_plan_changes_drops_entries_holding_noop
            (fun _ => Some (payload rcs))
            (mk "/tmp/make-cli-x" "/infra/dev" "plan" []) false
            (fresh_world [plain_child 0 "" ""; plain_child 0 "{}" ""] [])
            (plain_child 0 "" "") (plain_child 0 "{}" "") []
            [("resource_changes", JArr (map entry_json rcs))]
            (map entry_json rcs) rcs
            eq_refl eq_refl eq_refl eq_refl eq_refl eq_refl _)).
  repeat constructor; apply describes_entry_json.
Defined.

(** C3 as the specification words it fails: an entry whose actions are
    no-op together with create is to be kept by the specification's rule,
    and the code drops it. *)
Lemma get_plan_changes_keeps_mixed_noop_counterexample :
  let rcs := [mkResourceChange "a" ["no-op"; "create"]] in
  let run := fst (_get_plan_changes
                    (fun _ => Some (payload rcs))
                    (mk "/tmp/make-cli-x" "/infra/dev" "plan" [])
                    false
                    (fresh_world [plain_child 0 "" ""; plain_child 0 "{}" ""]
                                 [])) in
  computeChanges_spec rcs = [(JStr "a", "no-op,create")]
  /\ run = Return []
  /\ run <> Return (computeChanges_spec rcs).
Proof.
  intros rcs run. split; [reflexivity|]. split; [reflexivity|].
  intros H. vm_compute in H. discriminate H.
Qed.

(** One round of the comprehension on an entry with missing members. *)
Lemma select_loosely_described res lc :
  loosely_describes res lc ->
  select res
  = Return (if loose_mentions_noop lc then None else Some (loose_projection lc)).
Proof.
  intros (items & -> & Ha & Hc).
  unfold select, change_actions, PyJson.get, loose_mentions_noop,
    loose_projection, loose_actions.
  destruct (lc_actions lc) as [[actions|]|].
  - destruct Hc as (members & Hc & Hm). rewrite Hc, Hm, contains_strings.
    destruct (existsb (String.eqb "no-op") actions); [reflexivity|].
    rewrite Ha, join_strings. destruct (lc_address lc); reflexivity.
  - destruct Hc as (members & Hc & Hm). rewrite Hc, Hm. simpl.
    rewrite Ha. destruct (lc_address lc); reflexivity.
  - rewrite Hc. simpl. rewrite Ha. destruct (lc_address lc); reflexivity.
Qed.

Lemma comprehension_loosely_described entries lcs :
  Forall2 loosely_describes entries lcs ->
  comprehension entries
  = Return (map loose_projection
                (filter (fun lc => negb (loose_mentions_noop lc)) lcs)).
Proof.
  induction 1 as [|res lc entries lcs Hd _ IH]; [reflexivity|].
  simpl. rewrite (select_loosely_described Hd), IH.
  destruct (loose_mentions_noop lc); reflexivity.
Qed.

(** When the comprehension returns, every round has returned. *)
Lemma comprehension_selects entries : forall l,
  comprehension entries = Return l ->
  forall res, In res entries -> exists kept, select res = Return kept.
Proof.
  induction entries as [|res0 entries IH]; intros l H res Hin;
    [destruct Hin|].
  simpl in H. destruct (select res0) as [kept|e] eqn:Es; [|discriminate].
  destruct (comprehension entries) as [l0|e]; [|discriminate].
  destruct Hin as [<-|Hin]; [eauto|]. exact (IH l0 eq_refl res Hin).
Qed.

(** A round drops its entry only on finding the token no-op. *)
Lemma select_drops_for_noop res :
  select res = Return None ->
  exists actions,
    change_actions res = Return actions
    /\ PyJson.contains "no-op" actions = Return true.
Proof.
  unfold select. intros H.
  destruct (change_actions res) as [actions|e]; [|discriminate].
  exists actions. split; [reflexivity|].
  destruct (PyJson.contains "no-op" actions) as [[|]|e];
    try reflexivity; try discriminate.
  destruct (PyJson.get "address" (JStr "") res); [|discriminate].
  destruct (PyJson.join "," actions); discriminate.
Qed.

(** With the plan made and rendered, [_get_plan_changes] returns the
    comprehension over the entries of the document. *)
Lemma get_plan_changes_is_the_comprehension
      (json_loads : string -> option json) (self : t) (destroy_plan : bool)
      (w : World) (c1 c2 : child) (rest : list child)
      (top : list (string * json)) (entries : list json) :
  script w = c1 :: c2 :: rest -> current_process w = None ->
  exits_cleanly c1 = true -> exits_cleanly c2 = true ->
  json_loads (c_stdout c2) = Some (JObj top) ->
  PyJson.lookup "resource_changes" top = Some (JArr entries) ->
  fst (_get_plan_changes json_loads self destroy_plan w)
  = comprehension entries.
Proof.
  intros Es Hc H1 H2 Hj Ht.
  unfold _get_plan_changes, _run_tf_command, bind.
  match goal with |- context [run_command ?cmd ?cwd false w] =>
    destruct (@run_command_clean cmd cwd false w c1 (c2 :: rest) Es H1 Hc)
      as [w1 [E1 F1]] end.
  rewrite E1.
  match goal with |- context [run_command ?cmd ?cwd true w1] =>
    destruct (@run_command_clean cmd cwd true w1 c2 rest) as [w2 [E2 F2]] end.
  { rewrite (s_script F1), Es. reflexivity. }
  { exact H2. }
  { exact (s_current F1). }
  rewrite E2. simpl. unfold loads. rewrite Hj. unfold ret, lift. simpl.
  unfold plan_changes, PyJson.get. rewrite Ht. reflexivity.
Qed.

(** C10: once the plan has been made and rendered, [_get_plan_changes]
    keeps an entry without a change object, or whose change object has no
    actions or an empty list of them, and lists it with the empty action
    string; it lists an entry without an address with the empty string as
    its address; it drops exactly the entries in whose actions the token
    no-op is found.  For any document at all, what it returns is what the
    entries contribute, in their order, and an entry contributes nothing
    only when no-op is found in its actions. *)
Theorem get_plan_changes_drops_only_for_noop
        (json_loads : string -> option json) (self : t) (destroy_plan : bool)
        (w : World) (c1 c2 : child) (rest : list child)
        (top : list (string * json)) (entries : list json) :
  script w = c1 :: c2 :: rest -> current_process w = None ->
  exits_cleanly c1 = true -> exits_cleanly c2 = true ->
  json_loads (c_stdout c2) = Some (JObj top) ->
  PyJson.lookup "resource_changes" top = Some (JArr entries) ->
  (forall lcs,
      Forall2 loosely_describes entries lcs ->
      fst (_get_plan_changes json_loads self destroy_plan w)
      = Return (map loose_projection
                    (filter (fun lc => negb (loose_mentions_noop lc)) lcs)))
  /\ (forall l,
         fst (_get_plan_changes json_loads self destroy_plan w) = Return l ->
         l = List.concat (map contribution entries)
         /\ forall res,
             In res entries -> contribution res = [] ->
             exists actions,
               change_actions res = Return actions
               /\ PyJson.contains "no-op" actions = Return true).
Proof.
  intros Es Hc H1 H2 Hj Ht.
  rewrite (@get_plan_changes_is_the_comprehension
             json_loads self destroy_plan w c1 c2 rest top entries
             Es Hc H1 H2 Hj Ht).
  split.
  - intros lcs Hd. apply comprehension_loosely_described. exact Hd.
  - intros l Hl. split; [apply comprehension_contributions; exact Hl|].
    intros res Hin Hn.
    destruct (comprehension_selects entries Hl res Hin) as [kept Hs].
    apply select_drops_for_noop. unfold contribution in Hn.
    rewrite Hs in Hn. rewrite Hs. destruct kept; [discriminate|reflexivity].
Qed.

Lemma get_plan_changes_drops_only_for_noop_witness :
  let entries :=
    [JObj [];
     JObj [("address", JStr "x"); ("change", JObj [("before", JNull)])];
     JObj [("address", JStr "y"); ("change", JObj [("actions", JArr [])])];
     JObj [("address", JStr "z");
           ("change", JObj [("actions", JArr [JStr "no-op"])])]] in
  fst (_get_plan_changes
         (fun _ => Some (JObj [("resource_changes", JArr entries)]))
         (mk "/tmp/make-cli-x" "/infra/dev" "plan" []) false
         (fresh_world [plain_child 0 "" ""; plain_child 0 "{}" ""] []))
  = Return [(JStr "", ""); (JStr "x", ""); (JStr "y", "")].
Proof.
  intros entries.
  refine (proj1 (@get_plan_changes_drops_only_for_noop
            (fun _ => Some (JObj [("resource_changes", JArr entries)]))
            (mk "/tmp/make-cli-x" "/infra/dev" "plan" []) false
            (fresh_world [plain_child 0 "" ""; plain_child 0 "{}" ""] [])
            (plain_child 0 "" "") (plain_child 0 "{}" "") []
            [("resource_changes", JArr entries)] entries
            eq_refl eq_refl eq_refl eq_refl eq_refl eq_refl)
          [mkLooseChange None None;
           mkLooseChange (Some "x") (Some None);
           mkLooseChange (Some "y") (Some (Some []));
           mkLooseChange (Some "z") (Some (Some ["no-op"]))] _).
  repeat constructor.
  - exists []. repeat split.
  - eexists. split; [reflexivity|]. split; [reflexivity|].
    eexists. split; reflexivity.
  - eexists. split; [reflexivity|]. split; [reflexivity|].
    eexists. split; reflexivity.
  - eexists. split; [reflexivity|]. split; [reflexivity|].
    eexists. split; reflexivity.
Defined.

(* ================================================================== *)
(** * The change selector *)

Module SelectorFacts.

#[local] Arguments TerraformProcessManager.run_command : simpl never.

(** The world once [input] has been called with prompt [p] and has
    consumed one event of the keyboard. *)
Lemma input_typed p w line keys :
  stdin w = Typed line :: keys ->
  input p w = (Return line, set_stdin keys (set_asked (asked w ++ [p]) w)).
Proof. intros H. unfold input. rewrite H. reflexivity. Qed.

Lemma input_interrupted p w e keys :
  stdin w = Interrupts e :: keys ->
  input p w = (Raise e, set_stdin keys (set_asked (asked w ++ [p]) w)).
Proof. intros H. unfold input. rewrite H. reflexivity. Qed.

(** [try: body except (ValueError, KeyboardInterrupt) as e: print(...)] *)
Lemma try_cancelled (body : M unit) w :
  try_except body cancelled w
  = match body w with
    | (Return a, wb) => (Return a, wb)
    | (Raise e, wb) =>
        if is_ValueError e || is_KeyboardInterrupt e
        then (Return tt, set_out (out wb ++ [OutCancelled e]) wb)
        else (Raise e, wb)
    end.
Proof.
  unfold try_except, cancelled. destruct (body w) as [[a|e] wb]; auto.
  destruct (is_ValueError e || is_KeyboardInterrupt e); reflexivity.
Qed.

Lemma prompt_typed self changes w line keys :
  stdin w = Typed line :: keys ->
  _prompt_for_selection self changes w
  = try_except (selection self changes (PyStr.lower (PyStr.strip line)))
               cancelled
               (set_stdin keys
                  (set_asked (asked w ++ [AskSelection (List.length changes)])
                             w)).
Proof.
  intros H. unfold _prompt_for_selection, try_except, bind.
  rewrite (input_typed _ _ H). reflexivity.
Qed.

(** The "all" branch is one supervised call on the plan file. *)
Lemma selection_all self changes choice :
  choice = "t" \/ choice = "todos" ->
  selection self changes choice
  = (_run_tf_command self
       [final_command self; "-auto-approve";
        get_temp_path (temp_dir self) TEMP_PLAN_FILENAME] false ;;
     ret tt).
Proof. intros [->| ->]; reflexivity. Qed.

(** A choice that [int] accepts is none of the four words. *)
Lemma int_is_no_word choice index :
  PyStr.int choice = Some index ->
  String.eqb choice "c" || String.eqb choice "cancelar" = false
  /\ String.eqb choice "t" || String.eqb choice "todos" = false.
Proof.
  intros H.
  destruct (String.eqb_spec choice "c") as [->|_]; [discriminate H|].
  destruct (String.eqb_spec choice "cancelar") as [->|_]; [discriminate H|].
  destruct (String.eqb_spec choice "t") as [->|_]; [discriminate H|].
  destruct (String.eqb_spec choice "todos") as [->|_]; [discriminate H|].
  split; reflexivity.
Qed.

(** The numeric branch, in range: the confirmation is asked, and the
    answer decides whether the targeted call is made. *)
Lemma selection_index self changes choice index :
  PyStr.int choice = Some index ->
  (1 <= index <= Z.of_nat (List.length changes))%Z ->
  selection self changes choice
  = (answer <- input (AskConfirm (final_command self)) ;;
     if String.eqb (PyStr.lower (PyStr.strip answer)) "s" then
       _run_tf_command self
         ([final_command self; "-auto-approve";
           ("-target="
              ++ fst (nth (Z.to_nat (index - 1)) changes ("", "")))%string]
            ++ extra_args self)%list
         false ;;
       ret tt
     else ret tt).
Proof.
  intros Hi Hr. destruct (int_is_no_word _ Hi) as [H1 H2].
  unfold selection. rewrite H1, H2. unfold int. rewrite Hi.
  unfold bind at 1. unfold ret at 1.
  replace ((1 <=? index)%Z && (index <=? Z.of_nat (List.length changes))%Z)
    with true
    by (symmetry; apply andb_true_iff; split; apply Z.leb_le; lia).
  rewrite (nth_error_nth' changes ("", "")) by lia.
  reflexivity.
Qed.

(** The numeric branch, out of range, and the text that [int] rejects. *)
Lemma selection_invalid self changes choice :
  choice <> "c" -> choice <> "cancelar" ->
  choice <> "t" -> choice <> "todos" ->
  (PyStr.int choice = None
   \/ exists index, PyStr.int choice = Some index
                    /\ (index < 1 \/ Z.of_nat (List.length changes) < index)%Z) ->
  exists e, is_ValueError e = true
            /\ forall w, selection self changes choice w = (Raise e, w).
Proof.
  intros Nc Ncc Nt Ntt H. unfold selection.
  destruct (String.eqb_spec choice "c"); [contradiction|].
  destruct (String.eqb_spec choice "cancelar"); [contradiction|].
  destruct (String.eqb_spec choice "t"); [contradiction|].
  destruct (String.eqb_spec choice "todos"); [contradiction|].
  simpl. unfold int. destruct H as [H|(index & H & Hr)]; rewrite H.
  - exists (InvalidLiteral choice). split; reflexivity.
  - exists invalid_selection. split; [reflexivity|]. intros w.
    unfold bind, ret.
    replace ((1 <=? index)%Z && (index <=? Z.of_nat (List.length changes))%Z)
      with false; [reflexivity|].
    symmetry. apply andb_false_iff.
    destruct Hr; [left|right]; apply Z.leb_gt; lia.
Qed.

End SelectorFacts.

Import SelectorFacts.

#[local] Arguments TerraformProcessManager.run_command : simpl never.

(** C5: on "t" or "todos" (after stripping and lowering) the selector
    makes exactly one supervised call, terraform with the follow-up
    command, -auto-approve and the path of the plan file and nothing
    else; it asks no second question; the follow-up command is apply for
    plan and destroy for destroy. *)
Theorem select_all_reuses_the_plan_file
        (self : t) (changes : list (string * string)) (w : World)
        (line : string) (keys : list keyboard) :
  stdin w = Typed line :: keys ->
  PyStr.lower (PyStr.strip line) = "t"
  \/ PyStr.lower (PyStr.strip line) = "todos" ->
  forall r w', _prompt_for_selection self changes w = (r, w') ->
    calls w'
    = (calls w
         ++ [mkInvocation
               ["terraform"; final_command self; "-auto-approve";
                get_temp_path (temp_dir self) TEMP_PLAN_FILENAME]
               (env_path self) false])%list
    /\ asked w' = (asked w ++ [AskSelection (List.length changes)])%list
    /\ stdin w' = keys
    /\ (command self = "plan" -> final_command self = "apply")
    /\ (command self = "destroy" -> final_command self = "destroy").
Proof.
  intros Hk Hc r w' E.
  rewrite (@prompt_typed self changes w _ _ Hk), try_cancelled in E.
  rewrite (selection_all self changes Hc) in E.
  unfold bind, _run_tf_command, ret in E.
  match type of E with context [run_command ?cmd ?cwd false ?w0] =>
    pose proof (run_command_frame cmd cwd false w0) as F;
    destruct (run_command cmd cwd false w0) as [[cp|e] w2] end;
    [|destruct (is_ValueError e || is_KeyboardInterrupt e)];
    inversion E; subst; clear E; destruct F; simpl in *;
    (split; [congruence|]); (split; [congruence|]); (split; [congruence|]);
    unfold final_command; split; intros ->; reflexivity.
Qed.

Lemma select_all_reuses_the_plan_file_witness :
  calls (snd (_prompt_for_selection
                (mk "/tmp/make-cli-x" "/infra/dev" "destroy" ["-var"; "a=1"])
                [("a", "create"); ("b", "delete")]
                (fresh_world [plain_child 0 "" ""] [Typed " T "])))
  = [mkInvocation
       ["terraform"; "destroy"; "-auto-approve"; "/tmp/make-cli-x/tmp.tfplan"]
       "/infra/dev" false].
Proof.
  exact (proj1 (@select_all_reuses_the_plan_file
                  (mk "/tmp/make-cli-x" "/infra/dev" "destroy" ["-var"; "a=1"])
                  [("a", "create"); ("b", "delete")]
                  (fresh_world [plain_child 0 "" ""] [Typed " T "])
                  " T " [] eq_refl (or_introl eq_refl) _ _
                  (surjective_pairing _))).
Defined.

(** C6: on a number within 1..N the selector asks for confirmation.  If
    the answer is "s" it makes exactly one supervised call: terraform, the
    follow-up command, -auto-approve, -target= with the address of the
    chosen change, then the original extra arguments; the plan file, an
    absolute path, is not among them unless the extra arguments name it.
    Any other answer makes no call. *)
Theorem select_index_targets_the_resource
        (self : t) (changes : list (string * string)) (w : World)
        (line answer : string) (keys : list keyboard) (index : Z) :
  stdin w = Typed line :: Typed answer :: keys ->
  PyStr.int (PyStr.lower (PyStr.strip line)) = Some index ->
  (1 <= index <= Z.of_nat (List.length changes))%Z ->
  forall r w', _prompt_for_selection self changes w = (r, w') ->
    let target :=
      "-target=" ++ fst (nth (Z.to_nat (index - 1)) changes ("", "")) in
    let argv :=
      "terraform" :: final_command self :: "-auto-approve" :: target
                  :: extra_args self in
    let plan_file := get_temp_path (temp_dir self) TEMP_PLAN_FILENAME in
    asked w' = (asked w ++ [AskSelection (List.length changes);
                            AskConfirm (final_command self)])%list
    /\ (PyStr.lower (PyStr.strip answer) = "s" ->
        calls w' = (calls w ++ [mkInvocation argv (env_path self) false])%list)
    /\ (PyStr.lower (PyStr.strip answer) <> "s" ->
        calls w' = calls w /\ r = Return tt)
    /\ (forall d, temp_dir self = String "/" d ->
                  ~ In plan_file (extra_args self) -> ~ In plan_file argv).
Proof.
  intros Hk Hi Hr r w' E target argv plan_file.
  rewrite (@prompt_typed self changes w _ _ Hk), try_cancelled in E.
  rewrite (@selection_index self changes _ index Hi Hr) in E.
  unfold bind at 1 in E.
  match type of E with context [input ?p ?w0] =>
    rewrite (@input_typed p w0 answer keys eq_refl) in E end.
  fold target in E.
  split; [|split; [|split]].
  - replace (asked w ++ [AskSelection (List.length changes);
                         AskConfirm (final_command self)])%list
      with ((asked w ++ [AskSelection (List.length changes)])
              ++ [AskConfirm (final_command self)])%list
      by (rewrite <- app_assoc; reflexivity).
    destruct (String.eqb (PyStr.lower (PyStr.strip answer)) "s").
    + unfold bind, _run_tf_command, ret in E.
      match type of E with context [run_command ?cmd ?cwd false ?w0] =>
        pose proof (run_command_frame cmd cwd false w0) as F;
        destruct (run_command cmd cwd false w0) as [[cp|e] w2] end;
        [|destruct (is_ValueError e || is_KeyboardInterrupt e)];
        inversion E; subst; clear E; destruct F; simpl in *; assumption.
    + inversion E; subst; clear E. reflexivity.
  - intros Ha. rewrite Ha in E. simpl in E.
    unfold bind, _run_tf_command, ret in E.
    match type of E with context [run_command ?cmd ?cwd false ?w0] =>
      pose proof (run_command_frame cmd cwd false w0) as F;
      destruct (run_command cmd cwd false w0) as [[cp|e] w2] end;
      [|destruct (is_ValueError e || is_KeyboardInterrupt e)];
      inversion E; subst; clear E; destruct F; simpl in *; assumption.
  - intros Ha. apply String.eqb_neq in Ha. rewrite Ha in E.
    inversion E; subst; clear E. split; reflexivity.
  - intros d Hd Hn [H|[H|[H|[H|H]]]]; try contradiction;
      unfold plan_file, get_temp_path, target, final_command in H;
      rewrite Hd in H; simpl in H;
      try destruct (String.eqb (command self) "plan"); discriminate H.
Qed.

Lemma select_index_targets_the_resource_witness :
  calls (snd (_prompt_for_selection
                (mk "/tmp/make-cli-x" "/infra/dev" "plan" ["-var"; "a=1"])
                [("a", "create"); ("b", "delete")]
                (fresh_world [plain_child 0 "" ""] [Typed "2"; Typed "s"])))
  = [mkInvocation
       ["terraform"; "apply"; "-auto-approve"; "-target=b"; "-var"; "a=1"]
       "/infra/dev" false].
Proof.
  refine (proj1 (proj2 (@select_index_targets_the_resource
                  (mk "/tmp/make-cli-x" "/infra/dev" "plan" ["-var"; "a=1"])
                  [("a", "create"); ("b", "delete")]
                  (fresh_world [plain_child 0 "" ""] [Typed "2"; Typed "s"])
                  "2" "s" [] 2%Z eq_refl eq_refl _ _ _
                  (surjective_pairing _))) eq_refl).
  simpl. lia.
Defined.

(** C9, as the code has it: a typed line that is none of the four words
    and is not a number within 1..N, and a KeyboardInterrupt raised by
    the prompt, both end the selector normally: the cancellation is
    printed, no supervised call is made and nothing is raised.  The end
    of input, and any other exception of the prompt that is neither a
    ValueError nor a KeyboardInterrupt (the SystemExit of an installed
    signal handler, say), leave the selector uncaught: no call is made
    and nothing is printed. *)
Theorem invalid_selection_is_cancelled
        (self : t) (changes : list (string * string)) (w : World) :
  (forall key keys,
      stdin w = key :: keys ->
      (exists msg, key = Interrupts (KeyboardInterrupt msg))
      \/ (exists line,
             key = Typed line
             /\ PyStr.lower (PyStr.strip line) <> "c"
             /\ PyStr.lower (PyStr.strip line) <> "cancelar"
             /\ PyStr.lower (PyStr.strip line) <> "t"
             /\ PyStr.lower (PyStr.strip line) <> "todos"
             /\ (PyStr.int (PyStr.lower (PyStr.strip line)) = None
                 \/ exists index,
                     PyStr.int (PyStr.lower (PyStr.strip line)) = Some index
                     /\ (index < 1
                         \/ Z.of_nat (List.length changes) < index)%Z)) ->
      forall r w', _prompt_for_selection self changes w = (r, w') ->
        r = Return tt
        /\ calls w' = calls w
        /\ script w' = script w
        /\ asked w' = (asked w ++ [AskSelection (List.length changes)])%list
        /\ exists e, out w' = (out w ++ [OutCancelled e])%list)
  /\ (stdin w = [] ->
      _prompt_for_selection self changes w
      = (Raise EOFError,
         set_asked (asked w ++ [AskSelection (List.length changes)]) w))
  /\ (forall e keys,
         stdin w = Interrupts e :: keys ->
         is_ValueError e || is_KeyboardInterrupt e = false ->
         _prompt_for_selection self changes w
         = (Raise e,
            set_stdin keys
              (set_asked (asked w ++ [AskSelection (List.length changes)])
                         w))).
Proof.
  split; [|split].
  - intros key keys Hk
           [(msg & ->)|(line & -> & Nc & Ncc & Nt & Ntt & Hn)] r w' E.
    + unfold _prompt_for_selection in E. rewrite try_cancelled in E.
      unfold bind in E. rewrite (input_interrupted _ _ Hk) in E.
      simpl in E. inversion E; subst; clear E. simpl.
      repeat split; eauto.
    + rewrite (@prompt_typed self changes w _ _ Hk), try_cancelled in E.
      destruct (selection_invalid self changes Nc Ncc Nt Ntt Hn)
        as (e & He & Hs).
      rewrite Hs, He in E. simpl in E. inversion E; subst; clear E. simpl.
      repeat split; eauto.
  - intros H. unfold _prompt_for_selection. rewrite try_cancelled.
    unfold bind, input. rewrite H. reflexivity.
  - intros e keys Hk He. unfold _prompt_for_selection.
    rewrite try_cancelled. unfold bind.
    rewrite (input_interrupted _ _ Hk), He. reflexivity.
Qed.

Lemma invalid_selection_is_cancelled_witness :
  let run keys := _prompt_for_selection
                    (mk "/tmp/make-cli-x" "/infra/dev" "plan" [])
                    [("a", "create"); ("b", "delete")]
                    (fresh_world [plain_child 0 "" ""] keys) in
  (fst (run [Typed "3"]) = Return tt /\ calls (snd (run [Typed "3"])) = [])
  /\ (fst (run [Typed "abc"]) = Return tt
      /\ calls (snd (run [Typed "abc"])) = [])
  /\ fst (run []) = Raise EOFError
  /\ fst (run [Interrupts (SystemExit 130)]) = Raise (SystemExit 130).
Proof.
  intros run. split; [|split; [|split]].
  - destruct (@invalid_selection_is_cancelled
                (mk "/tmp/make-cli-x" "/infra/dev" "plan" [])
                [("a", "create"); ("b", "delete")]
                (fresh_world [plain_child 0 "" ""] [Typed "3"]))
      as [H _].
    destruct (H (Typed "3") [] eq_refl) with (r := fst (run [Typed "3"]))
                                               (w' := snd (run [Typed "3"]))
      as (H1 & H2 & _).
    + right. exists "3". repeat split; try discriminate.
      right. exists 3%Z. split; [reflexivity|]. right. simpl. lia.
    + apply surjective_pairing.
    + split; assumption.
  - destruct (@invalid_selection_is_cancelled
                (mk "/tmp/make-cli-x" "/infra/dev" "plan" [])
                [("a", "create"); ("b", "delete")]
                (fresh_world [plain_child 0 "" ""] [Typed "abc"]))
      as [H _].
    destruct (H (Typed "abc") [] eq_refl) with (r := fst (run [Typed "abc"]))
                                                 (w' := snd (run [Typed "abc"]))
      as (H1 & H2 & _).
    + right. exists "abc". repeat split; try discriminate.
      left. reflexivity.
    + apply surjective_pairing.
    + split; assumption.
  - destruct (@invalid_selection_is_cancelled
                (mk "/tmp/make-cli-x" "/infra/dev" "plan" [])
                [("a", "create"); ("b", "delete")]
                (fresh_world [plain_child 0 "" ""] []))
      as (_ & H & _).
    unfold run. rewrite (H eq_refl). reflexivity.
  - destruct (@invalid_selection_is_cancelled
                (mk "/tmp/make-cli-x" "/infra/dev" "plan" [])
                [("a", "create"); ("b", "delete")]
                (fresh_world [plain_child 0 "" ""]
                             [Interrupts (SystemExit 130)]))
      as (_ & _ & H).
    unfold run. rewrite (H (SystemExit 130) [] eq_refl eq_refl). reflexivity.
Defined.

(** C9 as the specification words it fails: at the end of input (the
    operator closes the input instead of typing a token) the prompt
    raises EOFError, which the selector does not catch; the same holds
    for the SystemExit that the handler of main.py raises on an
    interrupt at the prompt. *)
Lemma invalid_selection_end_of_input_counterexample :
  let run keys := fst (_prompt_for_selection
                         (mk "/tmp/make-cli-x" "/infra/dev" "plan" [])
                         [("a", "create"); ("b", "delete")]
                         (fresh_world [plain_child 0 "" ""] keys)) in
  run [] = Raise EOFError
  /\ run [] <> Return tt
  /\ run [Interrupts (SystemExit 130)] = Raise (SystemExit 130).
Proof.
  intros run. split; [reflexivity|]. split; [|reflexivity].
  intros H. vm_compute in H. discriminate H.
Qed.

(* ================================================================== *)
(** * The lock recovery *)

(** A supervised call whose child meets no signal and exits non-zero
    raises CommandExecutionError with the streams [communicate] returned:
    the texts if captured, [None] if not. *)
Lemma run_command_failed command cwd capture w c rest n :
  script w = c :: rest -> c_spawn c = Spawned n ->
  c_early c = [] -> c_signals c = [] -> c_returncode c <> 0%Z ->
  exists w',
    run_command command cwd capture w
    = (Raise (CommandExecutionError
                (failure_message command) (c_returncode c)
                (if capture then Some (c_stdout c) else None)
                (if capture then Some (c_stderr c) else None)), w')
    /\ supervised (mkInvocation command cwd capture) w w'
    /\ out w' = out w.
Proof.
  intros Es Hs He Hg Hz.
  pose proof (run_command_frame command cwd capture w) as F.
  rewrite run_command_eq in *. simpl in *.
  unfold attempt, popen, communicate, bind, modify, gets, ret, raise in *.
  simpl in *. rewrite Es in *. simpl in *. rewrite He in *. simpl in *.
  rewrite Hs in *. simpl in *. rewrite Hg in *. simpl in *.
  destruct (Z.eqb_spec (c_returncode c) 0); [contradiction|]. simpl in *.
  eexists. split; [reflexivity|]. split; [exact F|reflexivity].
Qed.

(** The pattern on the text of a lock error. *)
Example lock_id_pattern_examples :
  LockIdPattern.search
    "Error acquiring the state lock; Lock Info: ID: abcd1234-ef00-4a5b Path: s3"
  = Some "abcd1234-ef00-4a5b"
  /\ LockIdPattern.search "ID:abc" = Some "abc"
  /\ LockIdPattern.search "ID: XYZ" = None
  /\ LockIdPattern.search "no identifier here" = None.
Proof. repeat split; reflexivity. Qed.

(** The handler body of lines 87-99, handed a text: the identifier after
    "ID:" is printed and, on "s", passed to force-unlock. *)
Example on_failure_with_text :
  let w := fresh_world [plain_child 0 "" ""] [Typed "s"] in
  let res := TerraformUnlocker.on_failure
               (TerraformUnlocker.mk "/infra/dev")
               (Some "Error acquiring the state lock ID: abcd1234-ef00")
               w in
  fst res = Return tt
  /\ calls (snd res)
     = [mkInvocation ["terraform"; "force-unlock"; "-force"; "abcd1234-ef00"]
                     "/infra/dev" false]
  /\ out (snd res)
     = [OutLockDetected; OutLockId "abcd1234-ef00"; OutLockReleased].
Proof. repeat split; reflexivity. Qed.

(** C8, evaluated on the code: the probe of [TerraformUnlocker.run] is
    started without capture, so when it exits non-zero the stderr of the
    CommandExecutionError is [None] and the test for the lock marker
    raises TypeError: nothing is extracted, the operator is asked nothing
    and no unlock call is made, whatever the child wrote. *)
Theorem unlock_probe_failure_raises_TypeError
        (self : TerraformUnlocker.t) (w : World)
        (c : child) (rest : list child) (n : nat) :
  script w = c :: rest -> c_spawn c = Spawned n ->
  c_early c = [] -> c_signals c = [] -> c_returncode c <> 0%Z ->
  forall r w', TerraformUnlocker.run self w = (r, w') ->
    r = Raise TypeError
    /\ asked w' = asked w
    /\ calls w'
       = (calls w ++ [mkInvocation ["terraform"; "plan"; "-input=false"]
                                   (TerraformUnlocker.env_path self) false])%list
    /\ out w'
       = (out w ++ [OutHeaderLocks (TerraformUnlocker.env_path self)])%list.
Proof.
  intros Es Hs He Hg Hz r w' E.
  unfold TerraformUnlocker.run, TerraformUnlocker._run_tf_command,
    try_except, bind, print, modify in E.
  match type of E with context [run_command ?cmd ?cwd false ?w0] =>
    destruct (@run_command_failed cmd cwd false w0 c rest n Es Hs He Hg Hz)
      as [w1 [E1 [F1 O1]]] end.
  rewrite E1 in E. simpl in E. inversion E; subst; clear E.
  destruct F1. simpl in *. repeat split; assumption.
Qed.

Lemma unlock_probe_failure_raises_TypeError_witness :
  let c := plain_child 1 ""
             "Error acquiring the state lock ID: abcd1234-ef00" in
  let res := TerraformUnlocker.run (TerraformUnlocker.mk "/infra/dev")
                                   (fresh_world [c] [Typed "s"]) in
  fst res = Raise TypeError /\ asked (snd res) = [].
Proof.
  intros c res.
  destruct (@unlock_probe_failure_raises_TypeError
              (TerraformUnlocker.mk "/infra/dev")
              (fresh_world [c] [Typed "s"]) c [] 4242
              eq_refl eq_refl eq_refl eq_refl) with (r := fst res)
                                                    (w' := snd res)
    as (H1 & H2 & _).
  - simpl. discriminate.
  - apply surjective_pairing.
  - split; assumption.
Defined.

(* ================================================================== *)
(** * More on the supervisor *)

Module EscalationFacts.

#[local] Arguments Nat.leb : simpl never.
#[local] Arguments Nat.eqb : simpl never.
#[local] Arguments Nat.ltb : simpl never.
#[local] Arguments Nat.add : simpl never.

(** The handler with a running child whose signalling is not refused:
    the first interrupt of the call is forwarded as SIGINT, any later one
    as a kill, and ProcessLookupError is swallowed. *)
Lemma handler_forwards d w p :
  current_process w = Some p -> d_running d = true -> quiet d = true ->
  _signal_handler d w
  = (Return tt,
     set_sent (sent w ++ [if interrupt_count w =? 0
                          then (if platform_win32 w then SendSigint (pid p)
                                else Killpg (pid p))
                          else Kill (pid p)])
       (set_out (out w ++ [if interrupt_count w =? 0 then OutInterruptNotice
                           else OutForceNotice])
          (set_interrupt_count (interrupt_count w + 1) w))).
Proof.
  intros Hp Hr Hq. unfold quiet in Hq. rewrite Hr in Hq.
  run_handler. rewrite Hp, Hr. simpl.
  destruct (Nat.eqb_spec (interrupt_count w) 0) as [E0|E0].
  - rewrite E0. change (0 + 1 =? 1) with true. cbv iota. simpl.
    destruct (platform_win32 w); simpl; destruct (d_kill d);
      try discriminate; reflexivity.
  - destruct (Nat.eqb_spec (interrupt_count w + 1) 1) as [E1|E1]; [lia|].
    destruct (Nat.leb_spec 2 (interrupt_count w + 1)) as [E2|E2]; [|lia].
    simpl. destruct (d_kill d); try discriminate; reflexivity.
Qed.

(** Arrivals while no child is current are only counted. *)
Lemma deliver_idle ds : forall w,
  current_process w = None ->
  deliver ds w
  = (Return tt, set_interrupt_count (interrupt_count w + List.length ds) w).
Proof.
  induction ds as [|d ds IH]; intros w H.
  - simpl. unfold ret. f_equal. destruct w. unfold set_interrupt_count.
    simpl. f_equal. lia.
  - rewrite deliver_cons, (handler_idle d w (or_introl H)).
    rewrite IH by exact H. f_equal. destruct w. unfold set_interrupt_count.
    simpl. f_equal. lia.
Qed.

(** The signal forwarded, and the notice printed, at the [k]-th interrupt
    of a call (counted from 0). *)
Lemma deliver_forwards ds : forall w p,
  current_process w = Some p ->
  forallb (fun d => d_running d && quiet d) ds = true ->
  exists w',
    deliver ds w = (Return tt, w')
    /\ untouched w w'
    /\ interrupt_count w' = interrupt_count w + List.length ds
    /\ sent w'
       = (sent w
            ++ map (fun k => if k =? 0
                             then (if platform_win32 w then SendSigint (pid p)
                                   else Killpg (pid p))
                             else Kill (pid p))
                   (seq (interrupt_count w) (List.length ds)))%list
    /\ out w'
       = (out w
            ++ map (fun k => if k =? 0 then OutInterruptNotice
                             else OutForceNotice)
                   (seq (interrupt_count w) (List.length ds)))%list.
Proof.
  induction ds as [|d ds IH]; intros w p Hp Hall.
  - exists w. simpl. rewrite !app_nil_r.
    repeat split; auto using untouched_refl; lia.
  - simpl in Hall. apply andb_true_iff in Hall. destruct Hall as [Hd Hall].
    apply andb_true_iff in Hd. destruct Hd as [Hr Hq].
    rewrite deliver_cons, (@handler_forwards d w p Hp Hr Hq).
    match goal with |- context [deliver ds ?w1] =>
      destruct (IH w1 p) as (w' & E & U & C & Hs & Ho); auto end.
    exists w'. split; [exact E|]. simpl in *.
    split; [destruct U; constructor; simpl in *; congruence|].
    split; [lia|].
    replace (interrupt_count w + 1) with (S (interrupt_count w)) in * by lia.
    rewrite Hs, Ho, <- !app_assoc. split; reflexivity.
Qed.

End EscalationFacts.

Import EscalationFacts.

(** X1: On a platform other than win32, within one supervised call whose
    child is still running at every arrival and whose signalling raises
    nothing but ProcessLookupError, the k-th interrupt of the call
    (arrivals before the child was registered included) is forwarded as
    SIGINT to the process group of the child when k = 0 and as a kill of
    the child otherwise, with the matching notice. *)
Theorem run_command_escalates
        (command : list string) (cwd : string) (capture : bool)
        (w : World) (c : child) (rest : list child) (n : nat) :
  platform_win32 w = false ->
  script w = c :: rest -> c_spawn c = Spawned n ->
  current_process w = None ->
  forallb (fun d => d_running d && quiet d) (c_signals c) = true ->
  forall r w', run_command command cwd capture w = (r, w') ->
    sent w'
    = (sent w
         ++ map (fun k => if k =? 0 then Killpg n else Kill n)
                (seq (List.length (c_early c)) (List.length (c_signals c))))%list
    /\ out w'
       = (out w
            ++ map (fun k => if k =? 0 then OutInterruptNotice
                             else OutForceNotice)
                   (seq (List.length (c_early c))
                        (List.length (c_signals c))))%list.
Proof.
  intros Hw Es Hs Hc Hall r w' E. rewrite run_command_eq in E. simpl in E.
  unfold attempt, popen, communicate, bind, modify, gets, ret, raise in E.
  simpl in E. rewrite Es in E. simpl in E.
  rewrite deliver_idle in E by exact Hc. simpl in E. rewrite Hs in E.
  simpl in E.
  match type of E with context [deliver (c_signals c) ?w1] =>
    destruct (@deliver_forwards (c_signals c) w1 (mkPopen n c) eq_refl Hall)
      as (w2 & E2 & U & C & Hs2 & Ho2) end.
  rewrite E2 in E. simpl in *. rewrite Hw in Hs2.
  destruct (0 <? interrupt_count w2);
    [|destruct (negb (c_returncode c =? 0)%Z)];
    inversion E; subst; clear E; simpl; split; assumption.
Qed.

Lemma run_command_escalates_witness :
  let c := mkChild [] (Spawned 9)
                   [mkDelivery true Delivered; mkDelivery true NoSuchProcess;
                    mkDelivery true Delivered] 1 "" "" in
  sent (snd (run_command ["terraform"; "apply"] "/env" false
                         (fresh_world [c] [])))
  = [Killpg 9; Kill 9; Kill 9].
Proof.
  intros c.
  exact (proj1 (@run_command_escalates
                  ["terraform"; "apply"] "/env" false (fresh_world [c] [])
                  c [] 9 eq_refl eq_refl eq_refl eq_refl eq_refl _ _
                  (surjective_pairing _))).
Defined.

(** X2: Every supervised call records exactly one [Popen] call, with the
    command, directory and capture mode it was given, uses up one child,
    and reads nothing from the keyboard and asks nothing, however it
    ends. *)
Theorem run_command_starts_one_child
        (command : list string) (cwd : string) (capture : bool) (w : World) :
  let w' := snd (run_command command cwd capture w) in
  calls w' = (calls w ++ [mkInvocation command cwd capture])%list
  /\ script w' = tl (script w)
  /\ stdin w' = stdin w
  /\ asked w' = asked w
  /\ platform_win32 w' = platform_win32 w.
Proof.
  destruct (run_command_frame command cwd capture w). simpl.
  repeat split; assumption.
Qed.

(** X3: When [Popen] itself raises (the executable is missing, say), the
    call raises that very exception, not a CommandExecutionError, and
    nothing has been signalled or printed. *)
Theorem run_command_propagates_spawn_error
        (command : list string) (cwd : string) (capture : bool)
        (w : World) (c : child) (rest : list child) (e : exn) :
  script w = c :: rest -> c_spawn c = SpawnError e ->
  current_process w = None ->
  forall r w', run_command command cwd capture w = (r, w') ->
    r = Raise e /\ sent w' = sent w /\ out w' = out w.
Proof.
  intros Es Hs Hc r w' E. rewrite run_command_eq in E. simpl in E.
  unfold attempt, popen, communicate, bind, modify, gets, ret, raise in E.
  simpl in E. rewrite Es in E. simpl in E.
  rewrite deliver_idle in E by exact Hc. simpl in E. rewrite Hs in E.
  simpl in E. inversion E; subst; clear E. simpl. repeat split.
Qed.

Lemma run_command_propagates_spawn_error_witness :
  fst (run_command ["terraform"; "version"; "-json"] "/infra" true
         (fresh_world [mkChild [] (SpawnError FileNotFoundError) [] 0 "" ""]
                      []))
  = Raise FileNotFoundError.
Proof.
  exact (proj1 (@run_command_propagates_spawn_error
                  ["terraform"; "version"; "-json"] "/infra" true
                  (fresh_world
                     [mkChild [] (SpawnError FileNotFoundError) [] 0 "" ""] [])
                  (mkChild [] (SpawnError FileNotFoundError) [] 0 "" "") []
                  FileNotFoundError eq_refl eq_refl eq_refl _ _
                  (surjective_pairing _))).
Defined.

(** An interrupted call: the child started and exited, at least one
    signal arrived. *)
Lemma run_command_interrupted command cwd capture w c rest n :
  script w = c :: rest -> c_spawn c = Spawned n ->
  current_process w = None -> forallb quiet (c_signals c) = true ->
  1 <= List.length (c_early c) + List.length (c_signals c) ->
  exists w',
    run_command command cwd capture w = (Raise interrupted, w')
    /\ supervised (mkInvocation command cwd capture) w w'.
Proof.
  intros Es Hs Hc Hq Hn.
  pose proof (run_command_frame command cwd capture w) as F.
  rewrite run_command_eq in *. simpl in *.
  match goal with |- context [attempt command cwd capture ?w0] =>
    destruct (@attempt_exited command cwd capture w0 c rest n Es Hs Hc Hq)
      as [wb [Eb Cb]] end.
  rewrite Eb in *. simpl in *.
  destruct (Nat.ltb_spec 0 (interrupt_count wb)); [|lia].
  eexists. split; [reflexivity|exact F].
Qed.

(** X4: With [capture = True], no signal having arrived and the output
    of the child read as text without a decoding error, neither stream
    of the outcome is None: the completed process of a child that exits
    with 0, and the CommandExecutionError of a child that exits with
    another status (which carries that status), both hold a text for
    stdout and a text for stderr. *)
Theorem run_command_captured_streams_are_text
        (command : list string) (cwd : string)
        (w : World) (c : child) (rest : list child) (n : nat) :
  script w = c :: rest -> c_spawn c = Spawned n ->
  c_early c = [] -> c_signals c = [] -> current_process w = None ->
  exists out_text err_text,
    fst (run_command command cwd true w)
    = if (c_returncode c =? 0)%Z
      then Return (mkCompletedProcess command 0
                                      (Some out_text) (Some err_text))
      else Raise (CommandExecutionError
                    (failure_message command) (c_returncode c)
                    (Some out_text) (Some err_text)).
Proof.
  intros Es Hs He Hg Hc. exists (c_stdout c), (c_stderr c).
  destruct (Z.eqb_spec (c_returncode c) 0) as [Hz|Hz].
  - destruct (@run_command_clean command cwd true w c rest Es) as [w' [E _]];
      [|exact Hc|rewrite E; reflexivity].
    unfold exits_cleanly. rewrite He, Hs, Hg. apply Z.eqb_eq. exact Hz.
  - destruct (@run_command_failed command cwd true w c rest n Es Hs He Hg Hz)
      as [w' [E _]].
    rewrite E. reflexivity.
Qed.

Lemma run_command_captured_streams_are_text_witness :
  exists out_text err_text,
    fst (run_command ["terraform"; "show"; "-json"; "p"] "/env" true
           (fresh_world [plain_child 3 "partial" "boom"] []))
    = Raise (CommandExecutionError
               (failure_message ["terraform"; "show"; "-json"; "p"]) 3
               (Some out_text) (Some err_text)).
Proof.
  exact (@run_command_captured_streams_are_text
           ["terraform"; "show"; "-json"; "p"] "/env"
           (fresh_world [plain_child 3 "partial" "boom"] [])
           (plain_child 3 "partial" "boom") [] 4242
           eq_refl eq_refl eq_refl eq_refl eq_refl).
Defined.

(* ================================================================== *)
(** * More on the plan reader and the selector *)

#[local] Arguments TerraformProcessManager.run_command : simpl never.

(** X5: [_get_plan_changes] first runs terraform plan -out <plan file> with
    the extra arguments, and with -destroy last exactly when asked for a
    destroy plan, without capture; only if that call returns does it run
    terraform show -json <plan file>, captured.  A failure of the plan
    call is raised unchanged.  The operator is never asked anything. *)
Theorem get_plan_changes_runs_plan_then_show
        (json_loads : string -> option json) (self : t) (destroy_plan : bool)
        (w : World) :
  let plan_file := get_temp_path (temp_dir self) TEMP_PLAN_FILENAME in
  let plan_args :=
    ("terraform" :: "plan" :: "-out" :: plan_file
       :: extra_args self ++ (if destroy_plan then ["-destroy"] else []))%list in
  let planning := mkInvocation plan_args (env_path self) false in
  let showing :=
    mkInvocation ["terraform"; "show"; "-json"; plan_file] (env_path self) true in
  let r := fst (_get_plan_changes json_loads self destroy_plan w) in
  let w' := snd (_get_plan_changes json_loads self destroy_plan w) in
  asked w' = asked w
  /\ match fst (run_command plan_args (env_path self) false w) with
     | Raise e => r = Raise e /\ calls w' = (calls w ++ [planning])%list
     | Return _ => calls w' = (calls w ++ [planning; showing])%list
     end.
Proof.
  intros plan_file plan_args planning showing.
  unfold _get_plan_changes, _run_tf_command, bind. fold plan_file.
  change ("terraform" :: ((["plan"; "-out"; plan_file] ++ extra_args self)
             ++ (if destroy_plan then ["-destroy"] else [])))%list
    with plan_args.
  pose proof (run_command_frame plan_args (env_path self) false w) as F1.
  fold planning in F1.
  destruct (run_command plan_args (env_path self) false w)
    as [[cp|e] w1]; cbv zeta; cbn [fst snd] in *.
  - pose proof (run_command_frame ["terraform"; "show"; "-json"; plan_file]
                                  (env_path self) true w1) as F2.
    fold showing in F2.
    destruct (run_command ["terraform"; "show"; "-json"; plan_file]
                          (env_path self) true w1) as [[cp2|e2] w2];
      cbn [fst snd] in *.
    + assert (Hw : forall x,
                 asked (snd (x, w2)) = asked w
                 /\ calls (snd (x : result (list (json * string)), w2))
                    = (calls w ++ [planning; showing])%list).
      { intros x. destruct F1, F2. cbn [snd]. split; [congruence|].
        rewrite s_calls1, s_calls0, <- app_assoc. reflexivity. }
      unfold loads, lift, ret, raise.
      destruct (stdout cp2) as [text|]; [destruct (json_loads text)|];
        apply Hw.
    + destruct F1, F2. split; [congruence|].
      rewrite s_calls1, s_calls0, <- app_assoc. reflexivity.
  - destruct F1. repeat split; congruence.
Qed.

(** X6: Once both calls have succeeded, the result is decided by the text of
    the rendering alone: text that is not JSON raises JSONDecodeError, a
    document that is not an object raises AttributeError, and an object
    without the member resource_changes yields the empty list. *)
Theorem get_plan_changes_reads_the_rendering
        (json_loads : string -> option json) (self : t) (destroy_plan : bool)
        (w : World) (c1 c2 : child) (rest : list child) :
  script w = c1 :: c2 :: rest -> current_process w = None ->
  exits_cleanly c1 = true -> exits_cleanly c2 = true ->
  let r := fst (_get_plan_changes json_loads self destroy_plan w) in
  (json_loads (c_stdout c2) = None -> r = Raise JSONDecodeError)
  /\ (forall doc, json_loads (c_stdout c2) = Some doc ->
                  r = plan_changes doc)
  /\ (forall top, json_loads (c_stdout c2) = Some (JObj top) ->
                  PyJson.lookup "resource_changes" top = None ->
                  r = Return [])
  /\ (forall items, json_loads (c_stdout c2) = Some (JArr items) ->
                    r = Raise AttributeError).
Proof.
  intros Es Hc H1 H2 r.
  assert (Hr : r = match json_loads (c_stdout c2) with
                   | None => Raise JSONDecodeError
                   | Some doc => plan_changes doc
                   end).
  { unfold r, _get_plan_changes, _run_tf_command, bind.
    match goal with |- context [run_command ?cmd ?cwd false w] =>
      destruct (@run_command_clean cmd cwd false w c1 (c2 :: rest) Es H1 Hc)
        as [w1 [E1 F1]] end.
    rewrite E1.
    match goal with |- context [run_command ?cmd ?cwd true w1] =>
      destruct (@run_command_clean cmd cwd true w1 c2 rest) as [w2 [E2 F2]] end.
    { rewrite (s_script F1), Es. reflexivity. }
    { exact H2. }
    { exact (s_current F1). }
    rewrite E2. simpl. unfold loads.
    destruct (json_loads (c_stdout c2)); reflexivity. }
  split; [|split; [|split]].
  - intros H. rewrite Hr, H. reflexivity.
  - intros doc H. rewrite Hr, H. reflexivity.
  - intros top H Hl. rewrite Hr, H. unfold plan_changes, PyJson.get.
    rewrite Hl. reflexivity.
  - intros items H. rewrite Hr, H. reflexivity.
Qed.

Lemma get_plan_changes_reads_the_rendering_witness :
  fst (_get_plan_changes
         (fun text => if String.eqb text "{}" then Some (JObj []) else None)
         (mk "/tmp/make-cli-x" "/infra/dev" "plan" []) false
         (fresh_world [plain_child 0 "" ""; plain_child 0 "{}" ""] []))
  = Return [].
Proof.
  refine (proj1 (proj2 (proj2 (@get_plan_changes_reads_the_rendering
            (fun text => if String.eqb text "{}" then Some (JObj []) else None)
            (mk "/tmp/make-cli-x" "/infra/dev" "plan" []) false
            (fresh_world [plain_child 0 "" ""; plain_child 0 "{}" ""] [])
            (plain_child 0 "" "") (plain_child 0 "{}" "") []
            eq_refl eq_refl eq_refl eq_refl))) [] eq_refl eq_refl).
Defined.

(** X7: On "c" or "cancelar" (after stripping and lowering) the selector
    returns at once: no supervised call, nothing printed, no second
    question. *)
Theorem select_cancel_does_nothing
        (self : t) (changes : list (string * string)) (w : World)
        (line : string) (keys : list keyboard) :
  stdin w = Typed line :: keys ->
  PyStr.lower (PyStr.strip line) = "c"
  \/ PyStr.lower (PyStr.strip line) = "cancelar" ->
  _prompt_for_selection self changes w
  = (Return tt,
     set_stdin keys
       (set_asked (asked w ++ [AskSelection (List.length changes)]) w)).
Proof.
  intros Hk Hc.
  rewrite (@prompt_typed self changes w _ _ Hk), try_cancelled.
  unfold selection. destruct Hc as [-> | ->]; reflexivity.
Qed.

Lemma select_cancel_does_nothing_witness :
  let w := fresh_world [plain_child 0 "" ""] [Typed " Cancelar "] in
  let res := _prompt_for_selection
               (mk "/tmp/make-cli-x" "/infra/dev" "plan" [])
               [("a", "create")] w in
  fst res = Return tt /\ calls (snd res) = [] /\ out (snd res) = [].
Proof.
  intros w res. unfold res.
  rewrite (@select_cancel_does_nothing
             (mk "/tmp/make-cli-x" "/infra/dev" "plan" [])
             [("a", "create")] w " Cancelar " [] eq_refl
             (or_intror eq_refl)).
  repeat split.
Defined.

(** X8: If the follow-up call of "all" is interrupted, the selector catches
    the KeyboardInterrupt itself: it prints the cancellation and returns
    normally, so its caller never sees the interruption. *)
Theorem select_all_swallows_the_interrupt
        (self : t) (changes : list (string * string)) (w : World)
        (line : string) (keys : list keyboard)
        (c : child) (rest : list child) (n : nat) :
  stdin w = Typed line :: keys ->
  PyStr.lower (PyStr.strip line) = "t"
  \/ PyStr.lower (PyStr.strip line) = "todos" ->
  script w = c :: rest -> c_spawn c = Spawned n ->
  current_process w = None -> forallb quiet (c_signals c) = true ->
  1 <= List.length (c_early c) + List.length (c_signals c) ->
  forall r w', _prompt_for_selection self changes w = (r, w') ->
    r = Return tt
    /\ exists printed, out w' = (printed ++ [OutCancelled interrupted])%list.
Proof.
  intros Hk Hc Es Hs Hp Hq Hn r w' E.
  rewrite (@prompt_typed self changes w _ _ Hk), try_cancelled in E.
  rewrite (selection_all self changes Hc) in E.
  unfold bind, _run_tf_command, ret in E.
  match type of E with context [run_command ?cmd ?cwd false ?w0] =>
    destruct (@run_command_interrupted cmd cwd false w0 c rest n)
      as [w1 [E1 F1]]; auto end.
  rewrite E1 in E. simpl in E. inversion E; subst; clear E.
  split; [reflexivity|]. simpl. eauto.
Qed.

Lemma select_all_swallows_the_interrupt_witness :
  let c := mkChild [] (Spawned 5) [mkDelivery true Delivered] 1 "" "" in
  fst (_prompt_for_selection
         (mk "/tmp/make-cli-x" "/infra/dev" "plan" [])
         [("a", "create")]
         (fresh_world [c] [Typed "t"]))
  = Return tt.
Proof.
  intros c.
  refine (proj1 (@select_all_swallows_the_interrupt
            (mk "/tmp/make-cli-x" "/infra/dev" "plan" [])
            [("a", "create")] (fresh_world [c] [Typed "t"]) "t" []
            c [] 5 eq_refl (or_introl eq_refl) eq_refl eq_refl eq_refl
            eq_refl _ _ _ (surjective_pairing _))).
  simpl. lia.
Defined.

(** X9: If the follow-up call of "all" exits with a non-zero status (no
    signal having arrived), its CommandExecutionError leaves the selector
    uncaught, and no cancellation is printed. *)
Theorem select_all_propagates_the_failure
        (self : t) (changes : list (string * string)) (w : World)
        (line : string) (keys : list keyboard)
        (c : child) (rest : list child) (n : nat) :
  stdin w = Typed line :: keys ->
  PyStr.lower (PyStr.strip line) = "t"
  \/ PyStr.lower (PyStr.strip line) = "todos" ->
  script w = c :: rest -> c_spawn c = Spawned n ->
  c_early c = [] -> c_signals c = [] -> c_returncode c <> 0%Z ->
  forall r w', _prompt_for_selection self changes w = (r, w') ->
    r = Raise (CommandExecutionError
                 (failure_message
                    ["terraform"; final_command self; "-auto-approve";
                     get_temp_path (temp_dir self) TEMP_PLAN_FILENAME])
                 (c_returncode c) None None)
    /\ out w' = out w.
Proof.
  intros Hk Hc Es Hs He Hg Hz r w' E.
  rewrite (@prompt_typed self changes w _ _ Hk), try_cancelled in E.
  rewrite (selection_all self changes Hc) in E.
  unfold bind, _run_tf_command, ret in E.
  match type of E with context [run_command ?cmd ?cwd false ?w0] =>
    destruct (@run_command_failed cmd cwd false w0 c rest n)
      as [w1 [E1 [F1 O1]]]; auto end.
  rewrite E1 in E. simpl in E. inversion E; subst; clear E.
  split; [reflexivity|exact O1].
Qed.

Lemma select_all_propagates_the_failure_witness :
  fst (_prompt_for_selection
         (mk "/tmp/make-cli-x" "/infra/dev" "plan" [])
         [("a", "create")]
         (fresh_world [plain_child 1 "" ""] [Typed "todos"]))
  = Raise (CommandExecutionError
             (failure_message ["terraform"; "apply"; "-auto-approve";
                               "/tmp/make-cli-x/tmp.tfplan"])
             1 None None).
Proof.
  refine (proj1 (@select_all_propagates_the_failure
            (mk "/tmp/make-cli-x" "/infra/dev" "plan" [])
            [("a", "create")]
            (fresh_world [plain_child 1 "" ""] [Typed "todos"]) "todos" []
            (plain_child 1 "" "") [] 4242 eq_refl (or_intror eq_refl)
            eq_refl eq_refl eq_refl eq_refl _ _ _ (surjective_pairing _))).
  simpl. discriminate.
Defined.

(** End of input at the selection prompt is not a cancellation: EOFError
    leaves the selector uncaught. *)
Lemma select_propagates_end_of_input
        (self : t) (changes : list (string * string)) (w : World) :
  stdin w = [] ->
  _prompt_for_selection self changes w
  = (Raise EOFError,
     set_asked (asked w ++ [AskSelection (List.length changes)]) w).
Proof.
  intros H. unfold _prompt_for_selection. rewrite try_cancelled.
  unfold bind, input. rewrite H. reflexivity.
Qed.

Lemma select_propagates_end_of_input_witness :
  fst (_prompt_for_selection
         (mk "/tmp/make-cli-x" "/infra/dev" "plan" []) [("a", "create")]
         (fresh_world [] []))
  = Raise EOFError.
Proof.
  rewrite (@select_propagates_end_of_input
             (mk "/tmp/make-cli-x" "/infra/dev" "plan" []) [("a", "create")]
             (fresh_world [] []) eq_refl).
  reflexivity.
Defined.

(* ================================================================== *)
(** * More on the lock recovery *)

(** A call whose child meets no signal prints nothing and forwards
    nothing. *)
Lemma run_command_silent command cwd capture w c rest :
  script w = c :: rest -> c_early c = [] -> c_signals c = [] ->
  out (snd (run_command command cwd capture w)) = out w
  /\ sent (snd (run_command command cwd capture w)) = sent w.
Proof.
  intros Es He Hg. rewrite run_command_eq. simpl.
  unfold attempt, popen, communicate, bind, modify, gets, ret, raise.
  simpl. rewrite Es. simpl. rewrite He. simpl.
  destruct (c_spawn c); simpl; [|split; reflexivity].
  rewrite Hg. simpl.
  destruct (negb (c_returncode c =? 0)%Z); split; reflexivity.
Qed.

(** X10: When the probe exits with 0, the unlocker reports that there is no
    lock and stops: one call, terraform plan -input=false, no question
    asked. *)
Theorem unlock_reports_no_lock
        (self : TerraformUnlocker.t) (w : World)
        (c : child) (rest : list child) :
  script w = c :: rest -> exits_cleanly c = true ->
  current_process w = None ->
  forall r w', TerraformUnlocker.run self w = (r, w') ->
    r = Return tt
    /\ out w' = (out w ++ [OutHeaderLocks (TerraformUnlocker.env_path self);
                           OutNoLocks])%list
    /\ calls w'
       = (calls w ++ [mkInvocation ["terraform"; "plan"; "-input=false"]
                                   (TerraformUnlocker.env_path self) false])%list
    /\ asked w' = asked w.
Proof.
  intros Es Hx Hc r w' E.
  unfold TerraformUnlocker.run, TerraformUnlocker._run_tf_command,
    try_except, bind, print, modify in E.
  match type of E with context [run_command ?cmd ?cwd false ?w0] =>
    destruct (@run_command_clean cmd cwd false w0 c rest Es Hx Hc)
      as [w1 [E1 F1]];
    destruct (@run_command_silent cmd cwd false w0 c rest Es) as [O1 _] end.
  { unfold exits_cleanly in Hx. destruct (c_early c); [reflexivity|discriminate]. }
  { unfold exits_cleanly in Hx. destruct (c_early c); [|discriminate].
    destruct (c_spawn c); [|discriminate].
    destruct (c_signals c); [reflexivity|discriminate]. }
  rewrite E1 in *. simpl in *. inversion E; subst; clear E.
  destruct F1. simpl in *. rewrite O1, <- app_assoc.
  repeat split; assumption.
Qed.

Lemma unlock_reports_no_lock_witness :
  let res := TerraformUnlocker.run (TerraformUnlocker.mk "/infra/dev")
                                   (fresh_world [plain_child 0 "" ""] []) in
  fst res = Return tt
  /\ out (snd res) = [OutHeaderLocks "/infra/dev"; OutNoLocks].
Proof.
  intros res.
  destruct (@unlock_reports_no_lock
              (TerraformUnlocker.mk "/infra/dev")
              (fresh_world [plain_child 0 "" ""] [])
              (plain_child 0 "" "") [] eq_refl eq_refl eq_refl
              (fst res) (snd res) (surjective_pairing _)) as (H1 & H2 & _).
  split; assumption.
Defined.

(** X11: An interrupted probe is not taken for a lock: the KeyboardInterrupt
    leaves the unlocker uncaught, and nothing is asked. *)
Theorem unlock_propagates_the_interrupt
        (self : TerraformUnlocker.t) (w : World)
        (c : child) (rest : list child) (n : nat) :
  script w = c :: rest -> c_spawn c = Spawned n ->
  current_process w = None -> forallb quiet (c_signals c) = true ->
  1 <= List.length (c_early c) + List.length (c_signals c) ->
  forall r w', TerraformUnlocker.run self w = (r, w') ->
    r = Raise interrupted /\ asked w' = asked w.
Proof.
  intros Es Hs Hc Hq Hn r w' E.
  unfold TerraformUnlocker.run, TerraformUnlocker._run_tf_command,
    try_except, bind, print, modify in E.
  match type of E with context [run_command ?cmd ?cwd false ?w0] =>
    destruct (@run_command_interrupted cmd cwd false w0 c rest n)
      as [w1 [E1 F1]]; auto end.
  rewrite E1 in E. simpl in E. inversion E; subst; clear E.
  destruct F1. simpl in *. split; [reflexivity|assumption].
Qed.

Lemma unlock_propagates_the_interrupt_witness :
  let c := mkChild [] (Spawned 5) [mkDelivery true Delivered] 1 ""
                   "Error acquiring the state lock" in
  fst (TerraformUnlocker.run (TerraformUnlocker.mk "/infra/dev")
                             (fresh_world [c] [Typed "s"]))
  = Raise interrupted.
Proof.
  intros c.
  refine (proj1 (@unlock_propagates_the_interrupt
            (TerraformUnlocker.mk "/infra/dev") (fresh_world [c] [Typed "s"])
            c [] 5 eq_refl eq_refl eq_refl eq_refl _ _ _
            (surjective_pairing _))).
  simpl. lia.
Defined.

Module LockIdFacts.
Import LockIdPattern.

Lemma lstrip_splits s :
  exists spaces, s = spaces ++ PyStr.lstrip s
                 /\ all_chars PyStr.isspace spaces = true.
Proof.
  induction s as [|a s IH]; simpl.
  - exists "". split; reflexivity.
  - destruct (PyStr.isspace a) eqn:Ea.
    + destruct IH as (sp & E & H). exists (String a sp). simpl.
      rewrite Ea, H, <- E. split; reflexivity.
    + exists "". split; reflexivity.
Qed.

Lemma take_class_splits s :
  exists after, s = take_class s ++ after
                /\ all_chars in_class (take_class s) = true
                /\ match after with
                   | EmptyString => True
                   | String a _ => in_class a = false
                   end.
Proof.
  induction s as [|a s IH]; simpl.
  - exists "". repeat split.
  - destruct (in_class a) eqn:Ea.
    + destruct IH as (af & E & H & Hn). exists af. simpl.
      rewrite Ea, H, <- E. repeat split. exact Hn.
    + exists (String a s). simpl. repeat split. exact Ea.
Qed.

Lemma match_here_sound s token :
  match_here s = Some token ->
  token <> ""
  /\ all_chars in_class token = true
  /\ exists spaces after,
      s = "ID:" ++ spaces ++ token ++ after
      /\ all_chars PyStr.isspace spaces = true
      /\ match after with
         | EmptyString => True
         | String a _ => in_class a = false
         end.
Proof.
  unfold match_here.
  destruct s as [|a1 [|a2 [|a3 rest]]]; try discriminate;
    try (destruct (Ascii.eqb_spec a1 "I"); discriminate).
  - destruct a1 as [[] [] [] [] [] [] [] []]; discriminate.
  - destruct a1 as [[] [] [] [] [] [] [] []]; try discriminate;
      destruct a2 as [[] [] [] [] [] [] [] []]; discriminate.
  - destruct a1 as [[] [] [] [] [] [] [] []]; try discriminate;
      destruct a2 as [[] [] [] [] [] [] [] []]; try discriminate;
      destruct a3 as [[] [] [] [] [] [] [] []]; try discriminate.
    destruct (lstrip_splits rest) as (sp & Er & Hsp).
    destruct (take_class_splits (PyStr.lstrip rest)) as (af & Et & Hc & Hn).
    intros H.
    assert (Htok : take_class (PyStr.lstrip rest) = token).
    { destruct (take_class (PyStr.lstrip rest)); [discriminate|].
      inversion H; reflexivity. }
    rewrite Htok in *. split.
    + intros ->. rewrite <- Htok in H.
      destruct (take_class (PyStr.lstrip rest)); discriminate.
    + split; [exact Hc|]. exists sp, af. simpl.
      rewrite Er at 1. rewrite Et at 1. repeat split; assumption.
Qed.

End LockIdFacts.

(** X12: Whatever the text, an identifier the pattern extracts is not empty,
    is made only of the characters a-f, 0-9 and the hyphen, and stands in
    the text right after "ID:" and optional white space, taken as far as
    such characters go. *)
Theorem lock_id_is_a_token_after_the_label (text token : string) :
  LockIdPattern.search text = Some token ->
  token <> ""
  /\ all_chars LockIdPattern.in_class token = true
  /\ exists before spaces after,
      text = before ++ "ID:" ++ spaces ++ token ++ after
      /\ all_chars PyStr.isspace spaces = true
      /\ match after with
         | EmptyString => True
         | String a _ => LockIdPattern.in_class a = false
         end.
Proof.
  induction text as [|a text IH]; intros H.
  - simpl in H. discriminate.
  - cbn [LockIdPattern.search] in H.
    destruct (LockIdPattern.match_here (String a text)) as [tok|] eqn:Em.
    + inversion H; subst; clear H.
      destruct (LockIdFacts.match_here_sound _ Em)
        as (Hn & Hc & sp & af & E & Hs & Ha).
      split; [exact Hn|]. split; [exact Hc|].
      exists "", sp, af. repeat split; assumption.
    + destruct (IH H) as (Hn & Hc & bf & sp & af & E & Hs & Ha).
      split; [exact Hn|]. split; [exact Hc|].
      exists (String a bf), sp, af. simpl. rewrite E.
      repeat split; assumption.
Qed.

Lemma lock_id_is_a_token_after_the_label_witness :
  all_chars LockIdPattern.in_class "f2b0c6e4-77aa" = true.
Proof.
  exact (proj1 (proj2 (@lock_id_is_a_token_after_the_label
                         "Lock Info: ID:   f2b0c6e4-77aa Path: s3://b"
                         "f2b0c6e4-77aa" eq_refl))).
Defined.

(* ================================================================== *)
(** * The command line *)

Module CLIFacts.
Import CLIHandler.

Lemma mem_In x l : mem x l = true <-> In x l.
Proof.
  unfold mem. rewrite existsb_exists. split.
  - intros (y & Hy & E). apply String.eqb_eq in E. subst. exact Hy.
  - intros H. exists x. split; [exact H|apply String.eqb_refl].
Qed.

Lemma mem_false x l : mem x l = false <-> ~ In x l.
Proof.
  rewrite <- mem_In. destruct (mem x l); split; congruence.
Qed.

(** Without either flag the filter changes nothing. *)
Lemma filter_plain_id l :
  mem "-i" l || mem "--interactive" l = false -> filter plain l = l.
Proof.
  intros H. apply orb_false_iff in H. destruct H as [H1 H2].
  rewrite mem_false in H1, H2.
  induction l as [|a l IH]; [reflexivity|]. simpl.
  assert (Ha : plain a = true).
  { unfold plain.
    destruct (String.eqb_spec a "-i") as [->|_]; [destruct H1; left; auto|].
    destruct (String.eqb_spec a "--interactive") as [->|_];
      [destruct H2; left; auto|reflexivity]. }
  rewrite Ha, IH; [reflexivity| |]; intros Hin; [apply H1|apply H2];
    right; exact Hin.
Qed.

(** The list that line 365 searches is the filtered one in both cases. *)
Lemma parse_flags_eq l :
  parse_flags l
  = (mem "-i" l || mem "--interactive" l,
     match index_of "--" (filter plain l) with
     | Some pos => skipn (pos + 1) (filter plain l)
     | None => []
     end).
Proof.
  unfold parse_flags. fold plain.
  destruct (mem "-i" l || mem "--interactive" l) eqn:E; [reflexivity|].
  rewrite (filter_plain_id l E). reflexivity.
Qed.

Lemma index_of_absent x l : ~ In x l -> index_of x l = None.
Proof.
  induction l as [|y l IH]; intros H; [reflexivity|]. simpl.
  destruct (String.eqb_spec y x) as [->|_]; [destruct H; left; auto|].
  rewrite IH; [reflexivity|]. intros Hin. apply H. right. exact Hin.
Qed.

Lemma index_of_first x pre post :
  ~ In x pre -> index_of x (pre ++ x :: post) = Some (List.length pre).
Proof.
  induction pre as [|y pre IH]; intros H; simpl.
  - rewrite String.eqb_refl. reflexivity.
  - destruct (String.eqb_spec y x) as [->|_]; [destruct H; left; auto|].
    rewrite IH; [reflexivity|]. intros Hin. apply H. right. exact Hin.
Qed.

End CLIFacts.

Import CLIFacts.

(** X13: The arguments handed on to the tool are those after the first "--",
    with every "-i" and "--interactive" removed, even behind the
    separator; the interactive mode is on exactly when one of the two
    spellings occurs anywhere. *)
Theorem parse_flags_splits_at_the_separator
        (before after : list string) :
  ~ In "--" before ->
  CLIHandler.parse_flags (before ++ "--" :: after)
  = (mem "-i" (before ++ after) || mem "--interactive" (before ++ after),
     filter plain after).
Proof.
  intros H. rewrite parse_flags_eq. f_equal.
  - unfold mem. rewrite !existsb_app. simpl. reflexivity.
  - rewrite filter_app. simpl.
    rewrite index_of_first.
    + rewrite skipn_app. rewrite skipn_all2 by lia.
      replace (List.length (filter plain before) + 1
               - List.length (filter plain before)) with 1 by lia.
      reflexivity.
    + intros Hin. apply filter_In in Hin. apply H. tauto.
Qed.

Lemma parse_flags_splits_at_the_separator_witness :
  CLIHandler.parse_flags ["-x"; "-i"; "--"; "-var"; "-i"; "--"; "z"]
  = (true, ["-var"; "--"; "z"]).
Proof.
  refine (@parse_flags_splits_at_the_separator
            ["-x"; "-i"] ["-var"; "-i"; "--"; "z"] _).
  simpl. intros [H|[H|[]]]; discriminate H.
Defined.

(** X14: Without a "--" nothing is handed on: arguments that are not the
    interactive flag are dropped silently. *)
Theorem parse_flags_without_separator (remaining_args : list string) :
  ~ In "--" remaining_args ->
  snd (CLIHandler.parse_flags remaining_args) = [].
Proof.
  intros H. rewrite parse_flags_eq. simpl.
  rewrite index_of_absent; [reflexivity|].
  intros Hin. apply filter_In in Hin. apply H. tauto.
Qed.

Lemma parse_flags_without_separator_witness :
  snd (CLIHandler.parse_flags ["-var"; "region=eu"; "-i"]) = [].
Proof.
  apply parse_flags_without_separator.
  simpl. intros [H|[H|[H|[]]]]; discriminate H.
Defined.

(** X15: Command and target may come in either order: when the target is not
    itself a command word, both orders resolve alike. *)
Theorem resolve_is_symmetric
        (available_envs available_apps : list string) (word target : string) :
  CLIHandler.handler target CLIHandler.handler_map = None ->
  CLIHandler.resolve available_envs available_apps word target
  = CLIHandler.resolve available_envs available_apps target word.
Proof.
  intros H. unfold CLIHandler.resolve. rewrite H.
  destruct (CLIHandler.handler word CLIHandler.handler_map) as [a|];
    [|reflexivity].
  destruct (mem target available_envs || mem target available_apps);
    reflexivity.
Qed.

Lemma resolve_is_symmetric_witness :
  CLIHandler.resolve ["dev"; "prod"] ["web"] "dev" "p"
  = Some (CLIHandler.Plan, "dev").
Proof.
  rewrite <- (@resolve_is_symmetric ["dev"; "prod"] ["web"] "p" "dev" eq_refl).
  reflexivity.
Defined.

(** X16: With a target that is an available environment, the command word
    alone decides what runs: init, plan, apply and destroy reach the
    manager's method with the target, the interactive flag (plan and
    destroy only) and the arguments behind "--"; unlock and build are
    called with keywords their methods do not take and end in a
    TypeError. *)
Theorem cli_dispatches_on_an_environment
        (h : Host.t) (self : CLIHandler.t)
        (word target : string) (remaining : list string)
        (a : CLIHandler.action) :
  CLIHandler.handler word CLIHandler.handler_map = Some a ->
  In target (TerraformManager.get_available_environments
               h (CLIHandler.tf_manager self)) ->
  CLIHandler.run h self (word :: target :: remaining)
  = let flags := CLIHandler.parse_flags remaining in
    let manager := CLIHandler.tf_manager self in
    match a with
    | CLIHandler.Init => TerraformManager.init h manager target (snd flags)
    | CLIHandler.Plan =>
        TerraformManager.plan h manager target (fst flags) (snd flags)
    | CLIHandler.Apply => TerraformManager.apply h manager target (snd flags)
    | CLIHandler.Destroy =>
        TerraformManager.destroy h manager target (fst flags) (snd flags)
    | CLIHandler.Unlock | CLIHandler.Build => raise TypeError
    end.
Proof.
  intros Hw Ht. apply mem_In in Ht.
  unfold CLIHandler.run, CLIHandler.resolve. rewrite Hw, Ht. simpl.
  unfold CLIHandler.build_kwargs. rewrite Ht.
  destruct a; reflexivity.
Qed.

Lemma cli_dispatches_on_an_environment_witness :
  let h := Host.mk false (fun _ => true) (fun _ => None) (fun _ => "")
                   (fun a b => a ++ "/" ++ b)
                   (fun p => if String.eqb p "/r/dev" then "dev" else p)
                   (fun _ => true) (fun _ _ => true) (fun _ => ["/r/dev"])
                   (fun _ _ => ret tt) (ret tt)
                   (fun _ => "") (fun _ => true) (fun _ => Absent) in
  let self := CLIHandler.mk (TerraformManager.mk "/r" "/tmp/t")
                            (PackerManager.mk "/r") in
  CLIHandler.run h self ["a"; "dev"; "--"; "-auto-approve"]
  = TerraformManager.apply h (TerraformManager.mk "/r" "/tmp/t") "dev"
                           ["-auto-approve"].
Proof.
  intros h self.
  refine (@cli_dispatches_on_an_environment
            h self "a" "dev" ["--"; "-auto-approve"] CLIHandler.Apply
            eq_refl _).
  simpl. left. reflexivity.
Defined.

(** X17: With a target that is an available Packer application and no
    environment, only build runs; every Terraform command is called with
    the keyword app, which its method does not take, and ends in a
    TypeError. *)
Theorem cli_dispatches_on_an_app
        (h : Host.t) (self : CLIHandler.t)
        (word target : string) (remaining : list string)
        (a : CLIHandler.action) :
  CLIHandler.handler word CLIHandler.handler_map = Some a ->
  ~ In target (TerraformManager.get_available_environments
                 h (CLIHandler.tf_manager self)) ->
  In target (PackerManager.get_available_apps
               h (CLIHandler.packer_manager self)) ->
  CLIHandler.run h self (word :: target :: remaining)
  = match a with
    | CLIHandler.Build =>
        PackerManager.build h (CLIHandler.packer_manager self) target
                            (snd (CLIHandler.parse_flags remaining))
    | _ => raise TypeError
    end.
Proof.
  intros Hw Hn Ht. apply mem_In in Ht. apply mem_false in Hn.
  unfold CLIHandler.run, CLIHandler.resolve. rewrite Hw, Hn, Ht. simpl.
  unfold CLIHandler.build_kwargs. rewrite Hn, Ht.
  destruct a; reflexivity.
Qed.

Lemma cli_dispatches_on_an_app_witness :
  let h := Host.mk false (fun _ => true) (fun _ => None) (fun _ => "")
                   (fun a b => a ++ "/" ++ b)
                   (fun p => if String.eqb p "/r/amis/web" then "web" else p)
                   (fun _ => true) (fun p g => String.eqb g "*.pkr.hcl")
                   (fun p => if String.eqb p "/r/amis" then ["/r/amis/web"]
                             else [])
                   (fun _ _ => ret tt) (ret tt)
                   (fun _ => "") (fun _ => true) (fun _ => Absent) in
  let self := CLIHandler.mk (TerraformManager.mk "/r" "/tmp/t")
                            (PackerManager.mk "/r") in
  CLIHandler.run h self ["plan"; "web"] = raise TypeError.
Proof.
  intros h self.
  refine (@cli_dispatches_on_an_app h self "plan" "web" [] CLIHandler.Plan
            eq_refl _ _).
  - simpl. intros [].
  - simpl. left. reflexivity.
Defined.

(** X18: The unlock command cannot be run from the command line: whatever the
    target and the remaining arguments, the call of [unlock] with the
    keyword extra_args is a TypeError, raised before anything is
    validated, printed or started. *)
Theorem cli_unlock_is_a_type_error
        (h : Host.t) (self : CLIHandler.t)
        (word target : string) (remaining : list string) (w : World) :
  word = "unlock" \/ word = "u" ->
  In target (TerraformManager.get_available_environments
               h (CLIHandler.tf_manager self))
  \/ In target (PackerManager.get_available_apps
                  h (CLIHandler.packer_manager self)) ->
  CLIHandler.run h self (word :: target :: remaining) w = (Raise TypeError, w).
Proof.
  intros Hw Ht.
  assert (Hh : CLIHandler.handler word CLIHandler.handler_map
               = Some CLIHandler.Unlock)
    by (destruct Hw as [-> | ->]; reflexivity).
  unfold CLIHandler.run, CLIHandler.resolve. rewrite Hh.
  assert (Hm : mem target (TerraformManager.get_available_environments
                             h (CLIHandler.tf_manager self))
               || mem target (PackerManager.get_available_apps
                                h (CLIHandler.packer_manager self)) = true).
  { apply orb_true_iff. rewrite !mem_In. exact Ht. }
  rewrite Hm. simpl. unfold CLIHandler.build_kwargs.
  destruct (mem target _); [reflexivity|].
  destruct (mem target _); reflexivity.
Qed.

Lemma cli_unlock_is_a_type_error_witness :
  let h := Host.mk false (fun _ => true) (fun _ => None) (fun _ => "")
                   (fun a b => a ++ "/" ++ b)
                   (fun p => if String.eqb p "/r/dev" then "dev" else p)
                   (fun _ => true) (fun _ _ => true) (fun _ => ["/r/dev"])
                   (fun _ _ => ret tt) (ret tt)
                   (fun _ => "") (fun _ => true) (fun _ => Absent) in
  let self := CLIHandler.mk (TerraformManager.mk "/r" "/tmp/t")
                            (PackerManager.mk "/r") in
  fst (CLIHandler.run h self ["unlock"; "dev"]
                      (fresh_world [plain_child 1 "" ""] [Typed "s"]))
  = Raise TypeError.
Proof.
  intros h self.
  rewrite (@cli_unlock_is_a_type_error h self "unlock" "dev" []
             (fresh_world [plain_child 1 "" ""] [Typed "s"])
             (or_introl eq_refl)).
  - reflexivity.
  - left. simpl. left. reflexivity.
Defined.

(** A command line that names no known command with an available target,
    in either order, is refused with a ValueError before anything runs;
    with fewer than two arguments only the help is shown. *)
Lemma cli_refuses_unknown_combinations
        (h : Host.t) (self : CLIHandler.t)
        (arg1 arg2 : string) (remaining : list string) (w : World) :
  CLIHandler.resolve
    (TerraformManager.get_available_environments h (CLIHandler.tf_manager self))
    (PackerManager.get_available_apps h (CLIHandler.packer_manager self))
    arg1 arg2 = None ->
  CLIHandler.run h self (arg1 :: arg2 :: remaining) w
  = (Raise (CLIHandler.invalid_combination arg1 arg2), w)
  /\ CLIHandler.run h self [arg1] = Host.print_help h
  /\ CLIHandler.run h self [] = Host.print_help h.
Proof.
  intros H. unfold CLIHandler.run. rewrite H. repeat split.
Qed.

Lemma cli_refuses_unknown_combinations_witness :
  let h := Host.mk false (fun _ => true) (fun _ => None) (fun _ => "")
                   (fun a b => a ++ "/" ++ b) (fun p => p)
                   (fun _ => false) (fun _ _ => true) (fun _ => [])
                   (fun _ _ => ret tt) (ret tt)
                   (fun _ => "") (fun _ => true) (fun _ => Absent) in
  let self := CLIHandler.mk (TerraformManager.mk "/r" "/tmp/t")
                            (PackerManager.mk "/r") in
  fst (CLIHandler.run h self ["plan"; "dev"] (fresh_world [] []))
  = Raise (CLIHandler.invalid_combination "plan" "dev").
Proof.
  intros h self.
  destruct (@cli_refuses_unknown_combinations h self "plan" "dev" []
              (fresh_world [] []) eq_refl) as [H _].
  rewrite H. reflexivity.
Defined.

(* ================================================================== *)
(** * The managers *)

Module ManagerFacts.
Import TerraformManager.

#[local] Arguments TerraformProcessManager.run_command : simpl never.

Lemma validate_accepts h self environment w :
  environment <> "" ->
  Host.is_dir h (Host.path_join h (project_root self) environment)
  && Host.glob_any h (Host.path_join h (project_root self) environment)
                   TERRAFORM_FILE_GLOB = true ->
  _validate_environment h self environment w
  = (Return (Host.path_join h (project_root self) environment), w).
Proof.
  intros Hn Hv. unfold _validate_environment.
  destruct environment; [contradiction|]. rewrite Hv. reflexivity.
Qed.

Lemma validate_rejects h self environment w :
  environment = ""
  \/ Host.is_dir h (Host.path_join h (project_root self) environment)
     && Host.glob_any h (Host.path_join h (project_root self) environment)
                      TERRAFORM_FILE_GLOB = false ->
  exists msg,
    _validate_environment h self environment w = (Raise (ValueError msg), w).
Proof.
  intros [->|Hv]; unfold _validate_environment.
  - eexists. reflexivity.
  - destruct environment; [eexists; reflexivity|].
    rewrite Hv. eexists. reflexivity.
Qed.

(** terraform init -input=false -reconfigure, a header, then one
    command: the shape of plan, apply and destroy without interaction. *)
Lemma init_then_command h (title : string) (args : list string) env_path w :
  let initialising :=
    mkInvocation ["terraform"; "init"; "-input=false"; "-reconfigure"]
                 env_path false in
  let res := (_ensure_terraform_init env_path ;;
              _print_header h title ;;
              _run_tf_command args env_path false ;;
              ret tt) w in
  asked (snd res) = asked w
  /\ match fst (run_command (i_args initialising) env_path false w) with
     | Raise e =>
         fst res = Raise e
         /\ calls (snd res) = (calls w ++ [initialising])%list
     | Return _ =>
         calls (snd res)
         = (calls w ++ [initialising;
                        mkInvocation ("terraform" :: args) env_path false])%list
     end.
Proof.
  intros initialising. cbv zeta.
  unfold _ensure_terraform_init, _run_tf_command, _print_header, bind, print,
    modify, ret. cbn [i_args initialising].
  pose proof (run_command_frame
                ["terraform"; "init"; "-input=false"; "-reconfigure"]
                env_path false w) as F1.
  fold initialising in F1.
  destruct (run_command ["terraform"; "init"; "-input=false"; "-reconfigure"]
                        env_path false w) as [[cp|e] w1]; cbn [fst snd] in *.
  - match goal with |- context [run_command ?cmd ?cwd false ?w0] =>
      pose proof (run_command_frame cmd cwd false w0) as F2;
      destruct (run_command cmd cwd false w0) as [[cp2|e2] w2] end;
      cbn [fst snd] in *; destruct F1, F2; simpl in *;
      (split; [congruence|]);
      rewrite s_calls1, s_calls0, <- app_assoc; reflexivity.
  - destruct F1. repeat split; congruence.
Qed.

End ManagerFacts.

Import ManagerFacts.

(** X19: An empty environment name, or one whose directory does not exist or
    holds no *.tf file, is refused by every operation of the manager
    with a ValueError, before anything is printed or started. *)
Theorem manager_refuses_invalid_environment
        (h : Host.t) (self : TerraformManager.t) (environment : string)
        (interactive : bool) (extra_args : list string) (w : World) :
  environment = ""
  \/ Host.is_dir h (Host.path_join h (TerraformManager.project_root self)
                                   environment)
     && Host.glob_any h (Host.path_join h (TerraformManager.project_root self)
                                        environment)
                      TERRAFORM_FILE_GLOB = false ->
  exists msg,
    TerraformManager.init h self environment extra_args w
    = (Raise (ValueError msg), w)
    /\ TerraformManager.plan h self environment interactive extra_args w
       = (Raise (ValueError msg), w)
    /\ TerraformManager.apply h self environment extra_args w
       = (Raise (ValueError msg), w)
    /\ TerraformManager.destroy h self environment interactive extra_args w
       = (Raise (ValueError msg), w)
    /\ TerraformManager.unlock h self environment w
       = (Raise (ValueError msg), w).
Proof.
  intros H. destruct (@validate_rejects h self environment w H) as [msg E].
  exists msg.
  unfold TerraformManager.init, TerraformManager.plan, TerraformManager.apply,
    TerraformManager.destroy, TerraformManager.unlock, bind.
  rewrite E. repeat split.
Qed.

Lemma manager_refuses_invalid_environment_witness :
  let h := Host.mk false (fun _ => true) (fun _ => None) (fun _ => "")
                   (fun a b => a ++ "/" ++ b) (fun p => p)
                   (fun _ => true) (fun _ _ => false) (fun _ => [])
                   (fun _ _ => ret tt) (ret tt)
                   (fun _ => "") (fun _ => true) (fun _ => Absent) in
  exists msg,
    TerraformManager.apply h (TerraformManager.mk "/r" "/tmp/t") "dev" []
                           (fresh_world [plain_child 0 "" ""] [])
    = (Raise (ValueError msg), fresh_world [plain_child 0 "" ""] []).
Proof.
  intros h.
  destruct (@manager_refuses_invalid_environment
              h (TerraformManager.mk "/r" "/tmp/t") "dev" false []
              (fresh_world [plain_child 0 "" ""] []) (or_intror eq_refl))
    as (msg & _ & _ & H & _).
  exists msg. exact H.
Defined.

(** X20: On a valid environment, plan and destroy without interaction and
    apply first run terraform init -input=false -reconfigure in the
    environment's directory; if that call raises, the exception is passed
    on and the command itself is never started; otherwise exactly one
    more call follows, terraform with the command and the extra
    arguments, in the same directory.  Nothing is asked. *)
Theorem manager_initialises_before_the_command
        (h : Host.t) (self : TerraformManager.t) (environment : string)
        (extra_args : list string) (w : World) :
  environment <> "" ->
  Host.is_dir h (Host.path_join h (TerraformManager.project_root self)
                                environment)
  && Host.glob_any h (Host.path_join h (TerraformManager.project_root self)
                                     environment)
                   TERRAFORM_FILE_GLOB = true ->
  let env_path :=
    Host.path_join h (TerraformManager.project_root self) environment in
  let initialising :=
    mkInvocation ["terraform"; "init"; "-input=false"; "-reconfigure"]
                 env_path false in
  let shape (word : string) (res : result unit * World) :=
    asked (snd res) = asked w
    /\ match fst (run_command (i_args initialising) env_path false w) with
       | Raise e =>
           fst res = Raise e
           /\ calls (snd res) = (calls w ++ [initialising])%list
       | Return _ =>
           calls (snd res)
           = (calls w ++ [initialising;
                          mkInvocation ("terraform" :: word :: extra_args)
                                       env_path false])%list
       end in
  shape "plan" (TerraformManager.plan h self environment false extra_args w)
  /\ shape "apply" (TerraformManager.apply h self environment extra_args w)
  /\ shape "destroy"
           (TerraformManager.destroy h self environment false extra_args w).
Proof.
  intros Hn Hv env_path initialising shape.
  pose proof (@validate_accepts h self environment w Hn Hv) as Ev.
  fold env_path in Ev.
  assert (Ep : TerraformManager.plan h self environment false extra_args w
               = (TerraformManager._ensure_terraform_init env_path ;;
                  _print_header h ("Terraform Plan - Entorno: " ++ environment) ;;
                  TerraformManager._run_tf_command ("plan" :: extra_args)
                                                   env_path false ;;
                  ret tt) w).
  { unfold TerraformManager.plan. unfold bind at 1. rewrite Ev. reflexivity. }
  assert (Ea : TerraformManager.apply h self environment extra_args w
               = (TerraformManager._ensure_terraform_init env_path ;;
                  _print_header h ("Terraform Apply - Entorno: " ++ environment) ;;
                  TerraformManager._run_tf_command ("apply" :: extra_args)
                                                   env_path false ;;
                  ret tt) w).
  { unfold TerraformManager.apply. unfold bind at 1. rewrite Ev. reflexivity. }
  assert (Ed : TerraformManager.destroy h self environment false extra_args w
               = (TerraformManager._ensure_terraform_init env_path ;;
                  _print_header h ("Terraform Destroy - Entorno: "
                                     ++ environment) ;;
                  TerraformManager._run_tf_command ("destroy" :: extra_args)
                                                   env_path false ;;
                  ret tt) w).
  { unfold TerraformManager.destroy. unfold bind at 1. rewrite Ev.
    reflexivity. }
  unfold shape. rewrite Ep, Ea, Ed.
  split; [|split]; apply init_then_command.
Qed.

Lemma manager_initialises_before_the_command_witness :
  let h := Host.mk false (fun _ => true) (fun _ => None) (fun _ => "")
                   (fun a b => a ++ "/" ++ b) (fun p => p)
                   (fun _ => true) (fun _ _ => true) (fun _ => [])
                   (fun _ _ => ret tt) (ret tt)
                   (fun _ => "") (fun _ => true) (fun _ => Absent) in
  calls (snd (TerraformManager.apply
                h (TerraformManager.mk "/r" "/tmp/t") "dev" ["-auto-approve"]
                (fresh_world [plain_child 1 "" ""; plain_child 0 "" ""] [])))
  = [mkInvocation ["terraform"; "init"; "-input=false"; "-reconfigure"]
                  "/r/dev" false].
Proof.
  intros h.
  destruct (@manager_initialises_before_the_command
              h (TerraformManager.mk "/r" "/tmp/t") "dev" ["-auto-approve"]
              (fresh_world [plain_child 1 "" ""; plain_child 0 "" ""] []))
    as (_ & (_ & H) & _).
  - discriminate.
  - reflexivity.
  - exact (proj2 H).
Defined.

(* ================================================================== *)
(** * The interactive run and the listings *)

Module RunFacts.
Import InteractiveRun.

Lemma display_from_prints h changes : forall i w,
  display_from h i changes w
  = (Return tt,
     set_out
       (out w
          ++ map (fun numbered =>
                    OutText ("  " ++ format_2d (fst numbered) ++ ") "
                               ++ colour h (snd (snd numbered))
                                    (fst (snd numbered) ++ " ("
                                       ++ snd (snd numbered) ++ ")")))
                 (combine (seq i (List.length changes)) changes))%list
       w).
Proof.
  induction changes as [|[address actions] rest IH]; intros i w.
  - simpl. unfold ret. rewrite app_nil_r. destruct w; reflexivity.
  - cbn [display_from]. unfold bind, print, modify. rewrite IH.
    simpl. rewrite <- app_assoc. reflexivity.
Qed.

Lemma insert_sorted_perm x l : Permutation (insert_sorted x l) (x :: l).
Proof.
  induction l as [|y l IH]; simpl; [reflexivity|].
  destruct (String.leb x y); [reflexivity|].
  rewrite IH. apply perm_swap.
Qed.

Lemma sorted_perm l : Permutation (sorted l) l.
Proof.
  induction l as [|x l IH]; simpl; [reflexivity|].
  rewrite insert_sorted_perm. constructor. exact IH.
Qed.

Lemma insert_sorted_keeps_order x l :
  Sorted (fun a b => String.leb a b = true) l ->
  Sorted (fun a b => String.leb a b = true) (insert_sorted x l).
Proof.
  induction 1 as [|y l Hs IH Hd]; simpl.
  - repeat constructor.
  - destruct (String.leb x y) eqn:E.
    + constructor; [constructor; assumption|constructor; exact E].
    + constructor; [exact IH|].
      assert (Hyx : String.leb y x = true)
        by (destruct (String.leb_total x y); congruence).
      destruct l as [|z l]; simpl.
      * constructor. exact Hyx.
      * inversion Hd; subst.
        destruct (String.leb x z); constructor; assumption.
Qed.

Lemma sorted_is_ordered l :
  Sorted (fun a b => String.leb a b = true) (sorted l).
Proof.
  induction l as [|x l IH]; simpl; [constructor|].
  apply insert_sorted_keeps_order. exact IH.
Qed.

End RunFacts.

Import RunFacts.

(** Without jq on the PATH the interactive run stops with
    FileNotFoundError before it prints or starts anything. *)
Lemma interactive_run_needs_jq
        (h : Host.t) (self : TerraformInteractiveRunner.t) (w : World) :
  Host.which h "jq" = false ->
  InteractiveRun.run h self w = (Raise FileNotFoundError, w).
Proof.
  intros H. unfold InteractiveRun.run, _check_dependencies, bind. simpl.
  rewrite H. reflexivity.
Qed.

Lemma interactive_run_needs_jq_witness :
  let h := Host.mk false (fun _ => false) (fun _ => None) (fun _ => "")
                   (fun a b => a ++ "/" ++ b) (fun p => p)
                   (fun _ => true) (fun _ _ => true) (fun _ => [])
                   (fun _ _ => ret tt) (ret tt)
                   (fun _ => "") (fun _ => true) (fun _ => Absent) in
  fst (InteractiveRun.run
         h (TerraformInteractiveRunner.mk "/tmp/t" "/r/dev" "plan" [])
         (fresh_world [plain_child 0 "" ""] []))
  = Raise FileNotFoundError.
Proof.
  intros h.
  rewrite (@interactive_run_needs_jq
             h (TerraformInteractiveRunner.mk "/tmp/t" "/r/dev" "plan" [])
             (fresh_world [plain_child 0 "" ""] []) eq_refl).
  reflexivity.
Defined.

(** X21: When the plan holds no change to show, the interactive run says so
    and returns: the two calls of the plan reader are the only ones (the
    plan made with -destroy exactly for the destroy command), nothing is
    asked of the operator and no follow-up call is made. *)
Theorem interactive_run_without_changes
        (h : Host.t) (self : TerraformInteractiveRunner.t) (w : World)
        (c1 c2 : child) (rest : list child) (doc : json) :
  Host.which h "jq" = true ->
  script w = c1 :: c2 :: rest -> current_process w = None ->
  exits_cleanly c1 = true -> exits_cleanly c2 = true ->
  Host.json_loads h (c_stdout c2) = Some doc ->
  plan_changes doc = Return [] ->
  forall r w', InteractiveRun.run h self w = (r, w') ->
    let plan_file :=
      get_temp_path (TerraformInteractiveRunner.temp_dir self)
                    TEMP_PLAN_FILENAME in
    r = Return tt
    /\ asked w' = asked w
    /\ script w' = rest
    /\ calls w'
       = (calls w
            ++ [mkInvocation
                  ("terraform" :: "plan" :: "-out" :: plan_file
                     :: TerraformInteractiveRunner.extra_args self
                     ++ (if String.eqb (TerraformInteractiveRunner.command self)
                                       "destroy"
                         then ["-destroy"] else []))
                  (TerraformInteractiveRunner.env_path self) false;
                mkInvocation ["terraform"; "show"; "-json"; plan_file]
                             (TerraformInteractiveRunner.env_path self) true])%list.
Proof.
  intros Hj Es Hc H1 H2 Hd Hp r w' E plan_file.
  unfold InteractiveRun.run, _check_dependencies in E. simpl in E.
  rewrite Hj in E. simpl in E.
  unfold bind at 1 in E. unfold ret at 1 in E.
  unfold bind at 1 in E. unfold _print_header, print, modify in E.
  unfold bind at 1 in E.
  unfold _get_plan_changes, TerraformInteractiveRunner._run_tf_command in E.
  fold plan_file in E.
  unfold bind at 1 in E.
  match type of E with context [run_command ?cmd ?cwd false ?w0] =>
    destruct (@run_command_clean cmd cwd false w0 c1 (c2 :: rest) Es H1 Hc)
      as [w1 [E1 F1]] end.
  rewrite E1 in E. unfold bind at 1 in E.
  match type of E with context [run_command ?cmd ?cwd true w1] =>
    destruct (@run_command_clean cmd cwd true w1 c2 rest) as [w2 [E2 F2]] end.
  { rewrite (s_script F1). simpl. rewrite Es. reflexivity. }
  { exact H2. }
  { exact (s_current F1). }
  rewrite E2 in E. unfold bind at 1 in E. simpl in E.
  unfold loads in E. rewrite Hd in E. unfold ret at 1 in E.
  unfold lift in E. rewrite Hp in E.
  unfold print, modify in E. inversion E; subst; clear E.
  destruct F1, F2. simpl in *.
  split; [reflexivity|]. split; [congruence|].
  split; [rewrite s_script1, s_script0, Es; reflexivity|].
  rewrite s_calls1, s_calls0, <- app_assoc. reflexivity.
Qed.

Lemma interactive_run_without_changes_witness :
  let h := Host.mk false (fun _ => true) (fun _ => Some (JObj []))
                   (fun _ => "") (fun a b => a ++ "/" ++ b) (fun p => p)
                   (fun _ => true) (fun _ _ => true) (fun _ => [])
                   (fun _ _ => ret tt) (ret tt)
                   (fun _ => "") (fun _ => true) (fun _ => Absent) in
  let res := InteractiveRun.run
               h (TerraformInteractiveRunner.mk "/tmp/t" "/r/dev" "destroy" [])
               (fresh_world [plain_child 0 "" ""; plain_child 0 "{}" ""]
                            [Typed "t"]) in
  fst res = Return tt /\ asked (snd res) = [].
Proof.
  intros h res.
  destruct (@interactive_run_without_changes
              h (TerraformInteractiveRunner.mk "/tmp/t" "/r/dev" "destroy" [])
              (fresh_world [plain_child 0 "" ""; plain_child 0 "{}" ""]
                           [Typed "t"])
              (plain_child 0 "" "") (plain_child 0 "{}" "") [] (JObj [])
              eq_refl eq_refl eq_refl eq_refl eq_refl eq_refl eq_refl
              (fst res) (snd res) (surjective_pairing _)) as (H1 & H2 & _).
  split; assumption.
Defined.

(** The listing of the changes prints its title and then one line for
    each change, in order, numbered from 1 in a field of width two; the
    line is wrapped in the colour of failure when "delete" occurs in the
    actions, else of success when "create" does, else of warning.  It
    starts nothing and asks nothing. *)
Lemma display_changes_lists_every_change
        (h : Host.t) (changes : list (string * string)) (w : World) :
  InteractiveRun._display_changes h changes w
  = (Return tt,
     set_out
       (out w
          ++ OutText (newline ++ "Cambios de recursos propuestos:")
          :: map (fun numbered =>
                    OutText ("  " ++ format_2d (fst numbered) ++ ") "
                               ++ InteractiveRun.colour
                                    h (snd (snd numbered))
                                    (fst (snd numbered) ++ " ("
                                       ++ snd (snd numbered) ++ ")")))
                 (combine (seq 1 (List.length changes)) changes))%list
       w).
Proof.
  unfold InteractiveRun._display_changes, bind, print, modify.
  rewrite display_from_prints. simpl. rewrite <- app_assoc. reflexivity.
Qed.

(** X22: The environments offered are in ascending order, and they are
    exactly the names of the entries of the project root that are
    directories, do not start with a dot and hold a *.tf file; a root
    that is not a directory offers none. *)
Theorem available_environments_are_sorted_and_exact
        (h : Host.t) (self : TerraformManager.t) :
  Sorted (fun a b => String.leb a b = true)
         (TerraformManager.get_available_environments h self)
  /\ forall name,
      In name (TerraformManager.get_available_environments h self)
      <-> Host.is_dir h (TerraformManager.project_root self) = true
          /\ exists item,
              In item (Host.iterdir h (TerraformManager.project_root self))
              /\ Host.path_name h item = name
              /\ Host.is_dir h item = true
              /\ String.prefix "." name = false
              /\ Host.glob_any h item TERRAFORM_FILE_GLOB = true.
Proof.
  unfold TerraformManager.get_available_environments. split.
  - destruct (Host.is_dir h (TerraformManager.project_root self)); simpl;
      [apply sorted_is_ordered|constructor].
  - intros name.
    destruct (Host.is_dir h (TerraformManager.project_root self)); simpl.
    + split.
      * intros Hin. split; [reflexivity|].
        apply (Permutation_in _ (sorted_perm _)) in Hin.
        apply in_map_iff in Hin. destruct Hin as (item & En & Hin).
        apply filter_In in Hin. destruct Hin as [Hin Hc].
        apply andb_true_iff in Hc. destruct Hc as [Hc Hg].
        apply andb_true_iff in Hc. destruct Hc as [Hd Hp].
        apply negb_true_iff in Hp. subst name.
        exists item. repeat split; assumption.
      * intros [_ (item & Hin & En & Hd & Hp & Hg)].
        apply (Permutation_in _ (Permutation_sym (sorted_perm _))).
        apply in_map_iff. exists item. split; [exact En|].
        apply filter_In. split; [exact Hin|].
        rewrite Hd, Hg, En, Hp. reflexivity.
    + split; [intros []|intros [H _]; discriminate H].
Qed.

(** X23: Where joining the root with the name of one of its entries gives
    that entry back, every environment offered with a non-empty name
    passes the validation, which returns its directory and changes
    nothing. *)
Theorem available_environments_are_valid
        (h : Host.t) (self : TerraformManager.t) (environment : string)
        (w : World) :
  (forall item,
      In item (Host.iterdir h (TerraformManager.project_root self)) ->
      Host.path_join h (TerraformManager.project_root self)
                     (Host.path_name h item) = item) ->
  In environment (TerraformManager.get_available_environments h self) ->
  environment <> "" ->
  TerraformManager._validate_environment h self environment w
  = (Return (Host.path_join h (TerraformManager.project_root self)
                            environment), w).
Proof.
  intros Hlaw Hin Hn.
  apply validate_accepts; [exact Hn|].
  unfold TerraformManager.get_available_environments in Hin.
  destruct (Host.is_dir h (TerraformManager.project_root self));
    simpl in Hin; [|destruct Hin].
  apply (Permutation_in _ (sorted_perm _)) in Hin.
  apply in_map_iff in Hin. destruct Hin as (item & En & Hin).
  apply filter_In in Hin. destruct Hin as [Hin Hc].
  apply andb_true_iff in Hc. destruct Hc as [Hc Hg].
  apply andb_true_iff in Hc. destruct Hc as [Hd _].
  subst environment. rewrite (Hlaw item Hin), Hd, Hg. reflexivity.
Qed.

Lemma available_environments_are_valid_witness :
  let h := Host.mk false (fun _ => true) (fun _ => None) (fun _ => "")
                   (fun a b => a ++ "/" ++ b)
                   (fun p => if String.eqb p "/r/dev" then "dev" else p)
                   (fun _ => true) (fun _ _ => true) (fun _ => ["/r/dev"])
                   (fun _ _ => ret tt) (ret tt)
                   (fun _ => "") (fun _ => true) (fun _ => Absent) in
  fst (TerraformManager._validate_environment
         h (TerraformManager.mk "/r" "/tmp/t") "dev" (fresh_world [] []))
  = Return "/r/dev".
Proof.
  intros h.
  rewrite (@available_environments_are_valid
             h (TerraformManager.mk "/r" "/tmp/t") "dev" (fresh_world [] [])).
  - reflexivity.
  - simpl. intros item [<-|[]]. reflexivity.
  - simpl. left. reflexivity.
  - discriminate.
Defined.

(** X24: A Packer build is refused before anything is printed or run: with a
    ValueError for an empty application name, with FileNotFoundError when
    the directory of the application is missing or holds no *.pkr.hcl
    file. *)
Theorem packer_build_validates_first
        (h : Host.t) (self : PackerManager.t) (app : string)
        (extra_args : list string) (w : World) :
  let app_path :=
    Host.path_join h (Host.path_join h (PackerManager.project_root self)
                                     PACKER_APP_DIR) app in
  (app = "" ->
   exists msg, PackerManager.build h self app extra_args w
               = (Raise (ValueError msg), w))
  /\ (app <> "" ->
      Host.is_dir h app_path
      && Host.glob_any h app_path PACKER_FILE_GLOB = false ->
      PackerManager.build h self app extra_args w
      = (Raise FileNotFoundError, w)).
Proof.
  intros app_path. split.
  - intros ->. eexists. reflexivity.
  - intros Hn Hv. unfold PackerManager.build. fold app_path.
    destruct app; [contradiction|].
    apply andb_false_iff in Hv. destruct Hv as [Hv|Hv].
    + rewrite Hv. reflexivity.
    + destruct (Host.is_dir h app_path); [rewrite Hv|]; reflexivity.
Qed.

Lemma packer_build_validates_first_witness :
  let h := Host.mk false (fun _ => true) (fun _ => None) (fun _ => "")
                   (fun a b => a ++ "/" ++ b) (fun p => p)
                   (fun _ => true) (fun _ _ => false) (fun _ => [])
                   (fun _ _ => ret tt) (ret tt)
                   (fun _ => "") (fun _ => true) (fun _ => Absent) in
  fst (PackerManager.build h (PackerManager.mk "/r") "web" []
                           (fresh_world [] []))
  = Raise FileNotFoundError.
Proof.
  intros h.
  rewrite (proj2 (@packer_build_validates_first
                    h (PackerManager.mk "/r") "web" [] (fresh_world [] [])));
    [reflexivity|discriminate|reflexivity].
Defined.

(* ================================================================== *)
(** * The project root and the pinned version *)

Module UtilsFacts.
Import Utils.

Lemma first_valid_subdir_sound h current names root :
  first_valid_subdir h current names = Some root ->
  _is_valid_tf_root h (render root) = true
  /\ exists name, In name names /\ root = name :: current.
Proof.
  induction names as [|name names IH]; simpl; [discriminate|].
  destruct (_is_valid_tf_root h (render (name :: current))) eqn:E.
  - intros H. inversion H; subst. split; [exact E|]. exists name. auto.
  - intros H. destruct (IH H) as [Hv (n & Hin & Er)].
    split; [exact Hv|]. exists n. auto.
Qed.

Lemma sorted_nil l : sorted l = [] <-> l = [].
Proof.
  split; [|intros ->; reflexivity].
  intros H. pose proof (sorted_perm l) as P. rewrite H in P.
  apply Permutation_nil in P. exact P.
Qed.

End UtilsFacts.

Import UtilsFacts.

(** X25: A directory passes [_is_valid_tf_root] exactly when the manager
    rooted there offers at least one environment: both look for a
    sub-directory that is not hidden and holds a *.tf file. *)
Theorem valid_root_offers_an_environment
        (h : Host.t) (root temp : string) :
  Utils._is_valid_tf_root h root = true
  <-> TerraformManager.get_available_environments
        h (TerraformManager.mk root temp) <> [].
Proof.
  unfold Utils._is_valid_tf_root, TerraformManager.get_available_environments.
  simpl. destruct (Host.is_dir h root); simpl;
    [|split; [discriminate|intros H; contradiction H; reflexivity]].
  rewrite sorted_nil. split.
  - intros H. apply existsb_exists in H. destruct H as (d & Hin & Hd).
    apply filter_In in Hin. destruct Hin as [Hin Hf].
    apply andb_true_iff in Hd. destruct Hd as [Hd Hg].
    apply andb_true_iff in Hf. destruct Hf as [_ Hp].
    intros E. apply map_eq_nil in E.
    assert (Hm : In d (filter
                         (fun item =>
                            Host.is_dir h item
                            && negb (String.prefix "." (Host.path_name h item))
                            && Host.glob_any h item TERRAFORM_FILE_GLOB)
                         (Host.iterdir h root))).
    { apply filter_In. split; [exact Hin|]. rewrite Hd, Hp, Hg. reflexivity. }
    rewrite E in Hm. destruct Hm.
  - intros H.
    destruct (filter
                (fun item =>
                   Host.is_dir h item
                   && negb (String.prefix "." (Host.path_name h item))
                   && Host.glob_any h item TERRAFORM_FILE_GLOB)
                (Host.iterdir h root)) as [|d l] eqn:E;
      [contradiction H; reflexivity|].
    assert (Hm : In d (d :: l)) by (left; reflexivity).
    rewrite <- E in Hm. apply filter_In in Hm. destruct Hm as [Hin Hc].
    apply andb_true_iff in Hc. destruct Hc as [Hc Hg].
    apply andb_true_iff in Hc. destruct Hc as [Hd Hp].
    apply existsb_exists. exists d. split.
    + apply filter_In. split; [exact Hin|]. rewrite Hd, Hp. reflexivity.
    + rewrite Hd, Hg. reflexivity.
Qed.

(** X26: The root [find_project_root] returns passes [_is_valid_tf_root], and
    it is either an ancestor of the working directory (the directory
    itself included, the root of the file system excluded) or the
    sub-directory "terraform" of one. *)
Theorem find_project_root_is_valid_and_above
        (h : Host.t) (start root : list string) :
  Utils.find_project_root h start = Return root ->
  Utils._is_valid_tf_root h (Utils.render root) = true
  /\ exists below above,
      start = (below ++ above)%list /\ above <> []
      /\ (root = above \/ root = "terraform" :: above).
Proof.
  induction start as [|name parent IH]; simpl; [discriminate|].
  destruct (Utils._is_valid_tf_root h (Utils.render (name :: parent))) eqn:Ev.
  - intros H. inversion H; subst. split; [exact Ev|].
    exists [], (name :: parent). repeat split; [discriminate|auto].
  - destruct (Utils._is_valid_tf_root
                h (Utils.render ("terraform" :: name :: parent))) eqn:Es.
    + intros H. inversion H; subst. split; [exact Es|].
      exists [], (name :: parent). repeat split; [discriminate|auto].
    + intros H. destruct (IH H) as [Hv (below & above & E & Hn & Hr)].
      split; [exact Hv|]. exists (name :: below), above.
      simpl. rewrite E. repeat split; assumption.
Qed.

Lemma find_project_root_is_valid_and_above_witness :
  let h := Host.mk false (fun _ => true) (fun _ => None) (fun _ => "")
                   (fun a b => a ++ "/" ++ b) (fun p => p)
                   (fun _ => true) (fun _ _ => true)
                   (fun p => if String.eqb p "/srv/infra/terraform"
                             then ["/srv/infra/terraform/dev"] else [])
                   (fun _ _ => ret tt) (ret tt)
                   (fun _ => "") (fun _ => true) (fun _ => Absent) in
  Utils.find_project_root h ["modules"; "infra"; "srv"]
  = Return ["terraform"; "infra"; "srv"]
  /\ Utils._is_valid_tf_root h "/srv/infra/terraform" = true.
Proof.
  intros h. split; [reflexivity|].
  exact (proj1 (@find_project_root_is_valid_and_above
                  h ["modules"; "infra"; "srv"] ["terraform"; "infra"; "srv"]
                  eq_refl)).
Defined.

(** X27: The version [get_terraform_version] returns is the stripped,
    non-empty content of the .terraform-version file of the nearest
    directory, from the start upwards and short of the root of the file
    system, that pins one; every directory below it has no such file or
    a blank one, and nothing was printed.  The root of the file system is
    never consulted. *)
Theorem pinned_version_is_the_nearest
        (h : Host.t) (start : list string) (w : World) (version : string) :
  fst (Utils.get_terraform_version h start w) = Return (Some version) ->
  snd (Utils.get_terraform_version h start w) = w
  /\ version <> ""
  /\ exists below dir text,
      start = (below ++ dir)%list /\ dir <> []
      /\ Host.read_file h (Utils.render (".terraform-version" :: dir))
         = Content text
      /\ version = PyStr.strip text
      /\ forall inner outer,
          below = (inner ++ outer)%list -> outer <> [] ->
          pins_nothing h (outer ++ dir)%list.
Proof.
  induction start as [|name parent IH]; [discriminate|].
  cbn [Utils.get_terraform_version].
  destruct (Host.read_file
              h (Utils.render (".terraform-version" :: name :: parent)))
    as [|why|text] eqn:Ef.
  - intros H. destruct (IH H) as (Hw & Hn & below & dir & t & E & Hd & Hr & Hv & Hb).
    split; [exact Hw|]. split; [exact Hn|].
    exists (name :: below), dir, t. simpl. rewrite E.
    repeat split; try assumption.
    intros inner outer Eb Ho. destruct inner as [|i inner]; simpl in Eb.
    + subst outer. unfold pins_nothing. simpl. rewrite <- E, Ef. exact I.
    + inversion Eb; subst. apply (Hb inner outer eq_refl Ho).
  - unfold bind, print, modify, ret. simpl. discriminate.
  - destruct (PyStr.strip text) as [|a v] eqn:Es.
    + intros H.
      destruct (IH H) as (Hw & Hn & below & dir & t & E & Hd & Hr & Hv & Hb).
      split; [exact Hw|]. split; [exact Hn|].
      exists (name :: below), dir, t. simpl. rewrite E.
      repeat split; try assumption.
      intros inner outer Eb Ho. destruct inner as [|i inner]; simpl in Eb.
      * subst outer. unfold pins_nothing. simpl. rewrite <- E, Ef. exact Es.
      * inversion Eb; subst. apply (Hb inner outer eq_refl Ho).
    + unfold ret. simpl. intros H. inversion H; subst.
      split; [reflexivity|]. split; [discriminate|].
      exists [], (name :: parent), text.
      repeat split; try assumption; try discriminate; auto.
      intros inner outer Eb Ho. destruct inner; destruct outer;
        try discriminate. contradiction Ho.
Qed.

Lemma pinned_version_is_the_nearest_witness :
  let h := Host.mk false (fun _ => true) (fun _ => None) (fun _ => "")
                   (fun a b => a ++ "/" ++ b) (fun p => p)
                   (fun _ => true) (fun _ _ => true) (fun _ => [])
                   (fun _ _ => ret tt) (ret tt)
                   (fun _ => "") (fun _ => true)
                   (fun p => if String.eqb p "/srv/infra/.terraform-version"
                             then Content "  1.5.7  "
                             else if String.eqb p "/srv/.terraform-version"
                             then Content "0.12.0" else Absent) in
  Utils.get_terraform_version h ["dev"; "infra"; "srv"] (fresh_world [] [])
  = (Return (Some "1.5.7"), fresh_world [] []).
Proof.
  intros h.
  rewrite (surjective_pairing
             (Utils.get_terraform_version h ["dev"; "infra"; "srv"]
                                          (fresh_world [] []))).
  rewrite (proj1 (@pinned_version_is_the_nearest
                    h ["dev"; "infra"; "srv"] (fresh_world [] [])
                    "1.5.7" eq_refl)).
  reflexivity.
Defined.

(* ================================================================== *)
(** * The version check *)

Module VersionFacts.
Import Utils VersionCheck.

#[local] Arguments TerraformProcessManager.run_command : simpl never.

(** Looking for the pinned version starts nothing and asks nothing. *)
Lemma get_terraform_version_frame h start : forall w,
  calls (snd (get_terraform_version h start w)) = calls w
  /\ script (snd (get_terraform_version h start w)) = script w
  /\ asked (snd (get_terraform_version h start w)) = asked w
  /\ current_process (snd (get_terraform_version h start w))
     = current_process w.
Proof.
  induction start as [|name parent IH]; intros w; [repeat split|].
  cbn [get_terraform_version].
  destruct (Host.read_file h (render (".terraform-version" :: name :: parent)))
    as [|why|text]; [apply IH|repeat split|].
  destruct (PyStr.strip text); [apply IH|repeat split].
Qed.

(** The probe of the version, by its child. *)
Lemma get_current_version_eq h self w :
  get_current_version h self w
  = match run_command ["terraform"; "version"; "-json"]
                      (TerraformManager.project_root self) true w with
    | (Return result, w1) =>
        match TerraformProcessManager.stdout result with
        | None => (Raise TypeError, w1)
        | Some text =>
            match Host.json_loads h text with
            | None => (Return JNull,
                       set_out (out w1 ++ [undetermined h JSONDecodeError]) w1)
            | Some version_data =>
                (PyJson.get "terraform_version" JNull version_data, w1)
            end
        end
    | (Raise e, w1) =>
        match skipped h e with
        | Some _ => (Return JNull, set_out (out w1 ++ [undetermined h e]) w1)
        | None => (Raise e, w1)
        end
    end.
Proof.
  unfold get_current_version, try_except, TerraformManager._run_tf_command,
    bind.
  destruct (run_command ["terraform"; "version"; "-json"]
                        (TerraformManager.project_root self) true w)
    as [[result|e] w1].
  - unfold TerraformInteractiveRunner.loads.
    destruct (TerraformProcessManager.stdout result) as [text|];
      [|reflexivity].
    destruct (Host.json_loads h text) as [version_data|]; [|reflexivity].
    unfold ret, lift.
    destruct version_data as [| | | | |items]; simpl; try reflexivity.
    destruct (PyJson.lookup "terraform_version" items); reflexivity.
  - destruct e; reflexivity.
Qed.

End VersionFacts.

Import VersionFacts.

(** X28: When terraform cannot be started, exits with a non-zero status or
    prints something that is not JSON, [get_current_version] does not
    fail: it prints one warning and returns None. *)
Theorem current_version_is_none_on_failure
        (h : Host.t) (self : TerraformManager.t) (w : World)
        (c : child) (rest : list child) :
  script w = c :: rest -> current_process w = None ->
  c_early c = [] -> c_signals c = [] ->
  c_spawn c = SpawnError FileNotFoundError
  \/ (exists n, c_spawn c = Spawned n
                /\ (c_returncode c <> 0%Z
                    \/ Host.json_loads h (c_stdout c) = None)) ->
  forall r w', VersionCheck.get_current_version h self w = (r, w') ->
    r = Return JNull
    /\ exists e, out w' = (out w ++ [VersionCheck.undetermined h e])%list.
Proof.
  intros Es Hc He Hg Hcase r w' E. rewrite get_current_version_eq in E.
  destruct (@run_command_silent ["terraform"; "version"; "-json"]
              (TerraformManager.project_root self) true w c rest Es He Hg)
    as [Ho _].
  destruct Hcase as [Hs|(n & Hs & Hcase)].
  - destruct (run_command ["terraform"; "version"; "-json"]
                          (TerraformManager.project_root self) true w)
      as [r1 w1] eqn:E1.
    assert (Hr : r1 = Raise FileNotFoundError).
    { rewrite run_command_eq in E1. simpl in E1.
      unfold attempt, popen, communicate, bind, modify, gets, ret, raise in E1.
      simpl in E1. rewrite Es in E1. simpl in E1. rewrite He in E1.
      simpl in E1. rewrite Hs in E1. simpl in E1.
      inversion E1; reflexivity. }
    subst r1. simpl in *. inversion E; subst; clear E.
    split; [reflexivity|]. simpl. rewrite Ho. eauto.
  - destruct (Z.eqb_spec (c_returncode c) 0) as [Hz|Hz].
    + destruct Hcase as [Hcase|Hj]; [contradiction|].
      destruct (@run_command_clean ["terraform"; "version"; "-json"]
                  (TerraformManager.project_root self) true w c rest Es)
        as [w1 [E1 F1]]; [|exact Hc|].
      { unfold exits_cleanly. rewrite He, Hs, Hg. apply Z.eqb_eq. exact Hz. }
      rewrite E1 in *. simpl in *. rewrite Hj in E.
      inversion E; subst; clear E. split; [reflexivity|].
      simpl. rewrite Ho. eauto.
    + destruct (@run_command_failed ["terraform"; "version"; "-json"]
                  (TerraformManager.project_root self) true w c rest n
                  Es Hs He Hg Hz) as [w1 [E1 _]].
      rewrite E1 in *. simpl in *. inversion E; subst; clear E.
      split; [reflexivity|]. simpl. rewrite Ho. eauto.
Qed.

Lemma current_version_is_none_on_failure_witness :
  let h := Host.mk false (fun _ => true) (fun _ => None) (fun _ => "")
                   (fun a b => a ++ "/" ++ b) (fun p => p)
                   (fun _ => true) (fun _ _ => true) (fun _ => [])
                   (fun _ _ => ret tt) (ret tt)
                   (fun _ => "") (fun _ => true) (fun _ => Absent) in
  fst (VersionCheck.get_current_version
         h (TerraformManager.mk "/r" "/tmp/t")
         (fresh_world [mkChild [] (SpawnError FileNotFoundError) [] 0 "" ""]
                      []))
  = Return JNull.
Proof.
  intros h.
  refine (proj1 (@current_version_is_none_on_failure
            h (TerraformManager.mk "/r" "/tmp/t")
            (fresh_world [mkChild [] (SpawnError FileNotFoundError) [] 0 "" ""]
                         [])
            (mkChild [] (SpawnError FileNotFoundError) [] 0 "" "") []
            eq_refl eq_refl eq_refl eq_refl (or_introl eq_refl) _ _
            (surjective_pairing _))).
Defined.

(** X29: With a version pinned and terraform reporting its own as a
    non-empty string, the check passes silently when the two are equal
    and otherwise prints the mismatch and the advice and raises
    SystemExit with status 1. *)
Theorem version_check_exits_on_mismatch
        (h : Host.t) (project_root : list string) (self : CLIHandler.t)
        (w : World) (c : child) (rest : list child)
        (required reported : string) (top : list (string * json)) :
  Utils.get_terraform_version h project_root w = (Return (Some required), w) ->
  required <> "" ->
  script w = c :: rest -> current_process w = None ->
  exits_cleanly c = true ->
  Host.json_loads h (c_stdout c) = Some (JObj top) ->
  PyJson.lookup "terraform_version" top = Some (JStr reported) ->
  reported <> "" ->
  forall r w', VersionCheck._check_terraform_version h project_root self w
               = (r, w') ->
    (reported = required -> r = Return tt /\ out w' = out w)
    /\ (reported <> required ->
        r = Raise (SystemExit 1)
        /\ out w'
           = (out w ++ [VersionCheck.mismatch h (JStr reported) required;
                        VersionCheck.advice h])%list).
Proof.
  intros Hv Hn Es Hc Hx Hj Hl Hr r w' E.
  unfold VersionCheck._check_terraform_version in E.
  unfold bind at 1 in E. rewrite Hv in E.
  destruct required as [|a required]; [contradiction|].
  unfold bind at 1 in E. rewrite get_current_version_eq in E.
  destruct (@run_command_clean ["terraform"; "version"; "-json"]
              (TerraformManager.project_root (CLIHandler.tf_manager self))
              true w c rest Es Hx Hc) as [w1 [E1 F1]].
  destruct (@run_command_silent ["terraform"; "version"; "-json"]
              (TerraformManager.project_root (CLIHandler.tf_manager self))
              true w c rest Es) as [Ho _].
  { unfold exits_cleanly in Hx. destruct (c_early c); [reflexivity|discriminate]. }
  { unfold exits_cleanly in Hx. destruct (c_early c); [|discriminate].
    destruct (c_spawn c); [|discriminate].
    destruct (c_signals c); [reflexivity|discriminate]. }
  rewrite E1 in *. simpl in E, Ho. rewrite Hj in E. simpl in E.
  rewrite Hl in E. unfold VersionCheck.truthy in E.
  apply String.eqb_neq in Hr. rewrite Hr in E. simpl in E.
  unfold VersionCheck.differs, PyJson.eq_str in E.
  split.
  - intros ->. rewrite String.eqb_refl in E. simpl in E.
    inversion E; subst; clear E. split; [reflexivity|exact Ho].
  - intros Hd.
    assert (Hq : String.eqb (String a required) reported = false).
    { apply String.eqb_neq. congruence. }
    rewrite Hq in E. simpl in E.
    unfold bind, print, modify, raise in E. inversion E; subst; clear E.
    split; [reflexivity|]. simpl. rewrite Ho, <- app_assoc. reflexivity.
Qed.

Lemma version_check_exits_on_mismatch_witness :
  let h := Host.mk false (fun _ => true)
                   (fun _ => Some (JObj [("terraform_version", JStr "1.6.0")]))
                   (fun _ => "") (fun a b => a ++ "/" ++ b) (fun p => p)
                   (fun _ => true) (fun _ _ => true) (fun _ => [])
                   (fun _ _ => ret tt) (ret tt)
                   (fun _ => "") (fun _ => true)
                   (fun p => if String.eqb p "/r/.terraform-version"
                             then Content "1.5.7" else Absent) in
  fst (VersionCheck._check_terraform_version
         h ["r"] (CLIHandler.mk (TerraformManager.mk "/r" "/tmp/t")
                                (PackerManager.mk "/r"))
         (fresh_world [plain_child 0 "{}" ""] []))
  = Raise (SystemExit 1).
Proof.
  intros h.
  refine (proj1 (proj2 (@version_check_exits_on_mismatch
            h ["r"] (CLIHandler.mk (TerraformManager.mk "/r" "/tmp/t")
                                   (PackerManager.mk "/r"))
            (fresh_world [plain_child 0 "{}" ""] [])
            (plain_child 0 "{}" "") [] "1.5.7" "1.6.0"
            [("terraform_version", JStr "1.6.0")]
            eq_refl _ eq_refl eq_refl eq_refl eq_refl eq_refl _ _ _
            (surjective_pairing _)) _)); discriminate.
Defined.

(** X30: Without a pinned version the check is over before terraform is
    asked for its own: no process is started. *)
Theorem version_check_without_pin_starts_nothing
        (h : Host.t) (project_root : list string) (self : CLIHandler.t)
        (w : World) :
  fst (Utils.get_terraform_version h project_root w) = Return None ->
  forall r w', VersionCheck._check_terraform_version h project_root self w
               = (r, w') ->
    r = Return tt /\ calls w' = calls w /\ script w' = script w.
Proof.
  intros Hv r w' E.
  unfold VersionCheck._check_terraform_version in E.
  unfold bind at 1 in E.
  destruct (get_terraform_version_frame h project_root w) as (Fc & Fs & _).
  destruct (Utils.get_terraform_version h project_root w) as [r0 w0].
  simpl in *. subst r0. inversion E; subst; clear E.
  repeat split; assumption.
Qed.

Lemma version_check_without_pin_starts_nothing_witness :
  let h := Host.mk false (fun _ => true) (fun _ => None) (fun _ => "")
                   (fun a b => a ++ "/" ++ b) (fun p => p)
                   (fun _ => true) (fun _ _ => true) (fun _ => [])
                   (fun _ _ => ret tt) (ret tt)
                   (fun _ => "") (fun _ => true)
                   (fun p => if String.eqb p "/r/.terraform-version"
                             then Unreadable "denied" else Absent) in
  calls (snd (VersionCheck._check_terraform_version
                h ["r"] (CLIHandler.mk (TerraformManager.mk "/r" "/tmp/t")
                                       (PackerManager.mk "/r"))
                (fresh_world [plain_child 0 "{}" ""] [])))
  = [].
Proof.
  intros h.
  exact (proj1 (proj2 (@version_check_without_pin_starts_nothing
            h ["r"] (CLIHandler.mk (TerraformManager.mk "/r" "/tmp/t")
                                   (PackerManager.mk "/r"))
            (fresh_world [plain_child 0 "{}" ""] []) eq_refl _ _
            (surjective_pairing _)))).
Defined.
